(** * drfpasswordless.serializers: a shallow embedding and its properties

    The development follows [src/drfpasswordless/serializers.py].  Python
    strings are Rocq [string]s (one [ascii] per code point below 256),
    exceptions are values of [exn], and the Django ORM is a pair of tables
    threaded through a state-and-exception monad together with a trace of
    the queries that were issued.  A submission is the data of a request
    going through the fields of the serializer and then through its
    [validate]. *)

From Stdlib Require Import ZArith List String Ascii Bool Lia DecimalString.
Import ListNotations.

Local Open Scope string_scope.
Local Open Scope Z_scope.

(** ** Python strings *)

Module PyStr.

Definition code (c : ascii) : Z := Z.of_N (N_of_ascii c).

(** [str.isspace] on the code points below 256. *)
Definition isspace (c : ascii) : bool :=
  let n := code c in
  ((9 <=? n) && (n <=? 13)) || ((28 <=? n) && (n <=? 32))
  || (n =? 133) || (n =? 160).

(** [str.isdecimal]: the decimal digits, which are the characters the
    pattern [\d] matches and [int] reads.  Among the code points below 256
    these are 0 to 9. *)
Definition isdecimal (c : ascii) : bool :=
  let n := code c in (48 <=? n) && (n <=? 57).

Definition nonempty (s : string) : bool :=
  match s with EmptyString => false | String _ _ => true end.

(** The pieces of [s] between the characters selected by [sep]. *)
Fixpoint split_by (sep : ascii -> bool) (s : string) : list string :=
  match s with
  | EmptyString => [EmptyString]
  | String c r =>
      if sep c then EmptyString :: split_by sep r
      else match split_by sep r with
           | h :: t => String c h :: t
           | [] => [String c EmptyString]
           end
  end.

(** [s.split(c)] for a one-character separator. *)
Definition split (c : ascii) (s : string) : list string :=
  split_by (Ascii.eqb c) s.

(** [s.split()]: runs of whitespace separate, empty pieces are dropped. *)
Definition split_ws (s : string) : list string :=
  filter nonempty (split_by isspace s).

(** [''.join(l)]. *)
Definition join (l : list string) : string := String.concat EmptyString l.

(** What [join (split ..)] amounts to: the characters not selected. *)
Fixpoint remove (p : ascii -> bool) (s : string) : string :=
  match s with
  | EmptyString => EmptyString
  | String c r => if p c then remove p r else String c (remove p r)
  end.

Fixpoint forallb (p : ascii -> bool) (s : string) : bool :=
  match s with
  | EmptyString => true
  | String c r => p c && forallb p r
  end.

Definition lower_char (c : ascii) : ascii :=
  let n := code c in
  if (65 <=? n) && (n <=? 90) then ascii_of_N (Z.to_N (n + 32)) else c.

Fixpoint lower (s : string) : string :=
  match s with
  | EmptyString => EmptyString
  | String c r => String (lower_char c) (lower r)
  end.

(** The [__iexact] lookup: equality up to ASCII case. *)
Definition iexact (a b : string) : bool := String.eqb (lower a) (lower b).

(** Stripping the characters selected by [p] from both ends. *)
Fixpoint lstrip_by (p : ascii -> bool) (s : string) : string :=
  match s with
  | EmptyString => EmptyString
  | String c r => if p c then lstrip_by p r else s
  end.

Fixpoint rstrip_by (p : ascii -> bool) (s : string) : string :=
  match s with
  | EmptyString => EmptyString
  | String c r =>
      match rstrip_by p r with
      | EmptyString => if p c then EmptyString else String c EmptyString
      | r' => String c r'
      end
  end.

Definition strip_by (p : ascii -> bool) (s : string) : string :=
  rstrip_by p (lstrip_by p s).

(** [s.strip()]: whitespace in the sense of [str.isspace] goes. *)
Definition strip (s : string) : string := strip_by isspace s.

(** The blanks [int(...)] skips around a literal.  Code points from 127 on
    that are whitespace are turned into a space first; below 127 only the
    ASCII blanks count, so the separators U+001C to U+001F are not
    skipped. *)
Definition int_space (c : ascii) : bool :=
  let n := code c in
  ((9 <=? n) && (n <=? 13)) || (n =? 32) || (n =? 133) || (n =? 160).

(** Digits of an [int(...)] literal: decimal digits, single underscores
    allowed between two digits. *)
Fixpoint int_digits (acc : Z) (after_digit : bool) (s : string) : option Z :=
  match s with
  | EmptyString => if after_digit then Some acc else None
  | String c r =>
      if isdecimal c then int_digits (10 * acc + (code c - 48)) true r
      else if Ascii.eqb c "_" && after_digit then int_digits acc false r
      else None
  end.

(** [int(s)] for a string [s]; [None] stands for [ValueError]. *)
Definition int (s : string) : option Z :=
  match strip_by int_space s with
  | String "+" r => int_digits 0 false r
  | String "-" r => option_map Z.opp (int_digits 0 false r)
  | s' => int_digits 0 false s'
  end.

End PyStr.

(** ** Exceptions and the validation monad *)

(** [ValidationError] is the class of [rest_framework.exceptions], which
    [serializers.ValidationError] names too; [DjangoValidationError] is the
    one of [django.core.exceptions], raised by Django's validators.  Neither
    derives from the other.  [FieldErrors] is the [ValidationError] a
    serializer raises when fields refused their entries: its detail maps the
    names of those fields to their messages. *)
Inductive exn : Type :=
| ValidationError (detail : string)
| FieldErrors (errors : list (string * list string))
| DjangoValidationError (message : string)
| CallbackToken_DoesNotExist
| User_DoesNotExist
| PermissionDenied
| MultipleObjectsReturned
| FieldError
| AttributeError
| KeyError
| TypeError
| IndexError
| ValueError.

Inductive Result (A : Type) : Type :=
| Return (a : A)
| Raise (e : exn).
Arguments Return {A} a.
Arguments Raise {A} e.

(** [serializers.ValidationError()] without an argument carries the
    framework's default detail. *)
Definition default_detail : string := "Invalid input.".

(** [s[0]]: an [IndexError] on the empty string. *)
Definition index0 (s : string) : Result ascii :=
  match s with
  | EmptyString => Raise IndexError
  | String c _ => Return c
  end.

(** Lines 21-29.  The argument is a string already, so [str(mobile)] is the
    argument itself. *)
Definition clear_mobile_number (mobile : string) : Result string :=
  let mobile := PyStr.join (PyStr.split_ws mobile) in
  let mobile := PyStr.join (PyStr.split "-" mobile) in
  let mobile := PyStr.join (PyStr.split "(" mobile) in
  let mobile := PyStr.join (PyStr.split ")" mobile) in
  match index0 mobile with
  | Raise e => Raise e
  | Return c => Return (if negb (Ascii.eqb c "+") then String "+" mobile else mobile)
  end.

(** The characters [clear_mobile_number] drops. *)
Definition mobile_noise (c : ascii) : bool :=
  PyStr.isspace c || Ascii.eqb c "-" || Ascii.eqb c "(" || Ascii.eqb c ")".

(** [RegexValidator(regex=r'^\+[1-9]\d{1,14}$')]: the validator searches the
    pattern in the value; [$] also matches before one final newline. *)
Definition is_digit19 (c : ascii) : bool :=
  let n := PyStr.code c in (49 <=? n) && (n <=? 57).

Fixpoint chomp (s : string) : string :=
  match s with
  | EmptyString => EmptyString
  | String c r =>
      match r with
      | EmptyString => if Ascii.eqb c "010" then EmptyString else s
      | String _ _ => String c (chomp r)
      end
  end.

Definition phone_regex_match (s : string) : bool :=
  match s with
  | String "+" (String d r) =>
      let body := chomp r in
      is_digit19 d && PyStr.forallb PyStr.isdecimal body
      && (1 <=? length body)%nat && (length body <=? 14)%nat
  | _ => false
  end.

Definition phone_regex_message : string :=
  "Mobile number must be entered in the format: '+999999999'. Up to 15 digits allowed.".

Definition phone_regex (value : string) : Result unit :=
  if phone_regex_match value then Return tt
  else Raise (DjangoValidationError phone_regex_message).


(** ** Data model

    The user model and [CallbackToken] are declared outside
    [serializers.py]; the records carry the columns the serializers and
    their helpers touch.  A token refers to its user by primary key. *)

Inductive TokenType : Type :=
| TOKEN_TYPE_AUTH
| TOKEN_TYPE_VERIFY
| TOKEN_TYPE_CHANGE.

Record User : Type := mkUser {
  pk : Z;
  email : option string;
  mobile : option string;
  is_active : bool;
  password : string;
  email_verified : bool;
  mobile_verified : bool
}.

Record CallbackToken : Type := mkToken {
  token_user : Z;
  key : string;
  token_type : TokenType;
  token_is_active : bool;
  to_alias : string;
  to_alias_type : string;
  created_at : option Z
}.

(** What the ORM and the logger were asked to do, in order. *)
Inductive Event : Type :=
| UserQuery
| UserWrite
| TokenQuery
| TokenWrite
| LogDebug (msg : string).

Record World : Type := mkWorld {
  users : list User;
  tokens : list CallbackToken;
  clock : Z;
  trace : list Event
}.

(** What the serializers take from Django: [EmailValidator], the check an
    [EmailField] applies to its value.  The serializers are embedded over
    any such check. *)
Record Django : Type := mkDjango {
  EmailValidator : string -> bool
}.

(** [api_settings]: the options read by the serializers. *)
Record Settings : Type := mkSettings {
  PASSWORDLESS_CALLBACK_TOKEN_LENGTH : nat;
  PASSWORDLESS_REGISTER_NEW_USERS : bool;
  PASSWORDLESS_USER_EMAIL_FIELD_NAME : string;
  PASSWORDLESS_USER_MOBILE_FIELD_NAME : string;
  PASSWORDLESS_MOBILE_NUMBER_STANDARDISE : bool;
  PASSWORDLESS_TEST_MODE : bool;
  PASSWORDLESS_TEST_CODE_INCORRECT : list Z;
  PASSWORDLESS_USER_MARK_EMAIL_VERIFIED : bool;
  PASSWORDLESS_USER_MARK_MOBILE_VERIFIED : bool;
  PASSWORDLESS_TOKEN_EXPIRE_TIME : Z
}.

(** [drfpasswordless.utils]: the three helpers the serializers import.  Their
    bodies are not part of [serializers.py]; the serializers are embedded
    over arbitrary helpers that answer with a boolean and may change the
    world. *)
Record Utils : Type := mkUtils {
  validate_token_age : string -> World -> bool * World;
  verify_user_alias : User -> CallbackToken -> World -> bool * World;
  change_user_alias : User -> CallbackToken -> list User -> World -> bool * World
}.

(** The validated data of a serializer: the [attrs] dictionary the fields
    hand to [validate].  [token] is a required field of the token-submission
    serializers, so its entry is there whenever their [validate] runs; the
    other serializers do not look at it. *)
Record Attrs : Type := mkAttrs {
  a_email : option string;
  a_mobile : option string;
  a_token : string;
  a_user : option User
}.

(** The data of a request, as parsed from a JSON body: each of the three
    entries is missing or a string. *)
Record Data : Type := mkData {
  d_email : option string;
  d_mobile : option string;
  d_token : option string
}.

(** [self.context]: the [request] entry, which may be missing or [None]
    (the request has its [user] attribute, if it has one, and whatever its
    [get] does), and the [user_id] entry. *)
Record Request : Type := mkRequest {
  request_user : option (option User);
  request_get : string -> Result (option string)
}.

Record Context : Type := mkContext {
  ctx_request : option (option Request);
  ctx_user_id : option Z
}.

Definition set_trace (w : World) (t : list Event) : World :=
  mkWorld (users w) (tokens w) (clock w) t.

Definition set_users (w : World) (us : list User) : World :=
  mkWorld us (tokens w) (clock w) (trace w).

Definition set_mobile (attrs : Attrs) (m : string) : Attrs :=
  mkAttrs (a_email attrs) (Some m) (a_token attrs) (a_user attrs).

Definition set_user (attrs : Attrs) (u : User) : Attrs :=
  mkAttrs (a_email attrs) (a_mobile attrs) (a_token attrs) (Some u).

Definition set_to_alias_type (t : CallbackToken) (k : string) : CallbackToken :=
  mkToken (token_user t) (key t) (token_type t) (token_is_active t)
          (to_alias t) k (created_at t).

Definition TokenType_eqb (a b : TokenType) : bool :=
  match a, b with
  | TOKEN_TYPE_AUTH, TOKEN_TYPE_AUTH => true
  | TOKEN_TYPE_VERIFY, TOKEN_TYPE_VERIFY => true
  | TOKEN_TYPE_CHANGE, TOKEN_TYPE_CHANGE => true
  | _, _ => false
  end.

(** ** The monad: state of the world plus Python exceptions *)

Definition M (A : Type) : Type := World -> Result A * World.

Definition ret {A} (a : A) : M A := fun w => (Return a, w).

Definition raise {A} (e : exn) : M A := fun w => (Raise e, w).

Definition bind {A B} (m : M A) (k : A -> M B) : M B :=
  fun w => match m w with
           | (Return a, w') => k a w'
           | (Raise e, w') => (Raise e, w')
           end.

Notation "x <- m ;; k" := (bind m (fun x => k))
  (at level 61, m at next level, right associativity).
Notation "m ;; k" := (bind m (fun _ => k))
  (at level 61, right associativity).

(** [try: body except ...]: [handler e = None] when no clause matches. *)
Definition try_except {A} (body : M A) (handler : exn -> option (M A)) : M A :=
  fun w => match body w with
           | (Return a, w') => (Return a, w')
           | (Raise e, w') =>
               match handler e with
               | Some h => h w'
               | None => (Raise e, w')
               end
           end.

Definition liftR {A} (r : Result A) : M A := fun w => (r, w).

Definition call (h : World -> bool * World) : M bool :=
  fun w => let (b, w') := h w in (Return b, w').

Definition emit (e : Event) : M unit :=
  fun w => (Return tt, set_trace w (trace w ++ [e])).

Definition logger_debug (msg : string) : M unit := emit (LogDebug msg).

(** A validation is accepted when it returns. *)
Definition accepted {A} (r : Result A * World) : bool :=
  match fst r with Return _ => true | Raise _ => false end.

(** A validation is rejected when it ends in a validation error of either
    class: the framework reports both to the caller as invalid data. *)
Definition is_validation_error (e : exn) : bool :=
  match e with
  | ValidationError _ | FieldErrors _ | DjangoValidationError _ => true
  | _ => false
  end.

Definition rejected {A} (r : Result A * World) : bool :=
  match fst r with Raise e => is_validation_error e | Return _ => false end.

Definition is_token_query (e : Event) : bool :=
  match e with TokenQuery => true | _ => false end.

(** ** The ORM *)

(** [Model.objects.get(...)]: exactly one row or an exception. *)
Definition objects_get {R} (none : exn) (rows : list R) (p : R -> bool) : Result R :=
  match filter p rows with
  | [] => Raise none
  | [r] => Return r
  | _ :: _ :: _ => Raise MultipleObjectsReturned
  end.

(** The alias columns of the user model, by name.  The user model is the
    project's own; here it has the two columns [email] and [mobile], and the
    settings say which of them a serializer uses. *)
Definition User_column (name : string) : option (User -> option string) :=
  if String.eqb name "email" then Some email
  else if String.eqb name "mobile" then Some mobile
  else None.

Definition iexact_col (col : User -> option string) (alias : string) (u : User) : bool :=
  match col u with
  | Some v => PyStr.iexact v alias
  | None => false
  end.

Definition id_is (user_id : option Z) (u : User) : bool :=
  match user_id with
  | Some i => pk u =? i
  | None => false
  end.

Definition User_objects_get (p : User -> bool) : M User :=
  emit UserQuery ;; fun w => (objects_get User_DoesNotExist (users w) p, w).

(** [User.objects.get] on [name + '__iexact' = alias]. *)
Definition User_objects_get_iexact (name alias : string) : M User :=
  match User_column name with
  | None => raise FieldError
  | Some col => User_objects_get (iexact_col col alias)
  end.

(** [User.objects.get] on [id = user_id] and [name + '__iexact' = alias]. *)
Definition User_objects_get_id_iexact (user_id : option Z) (name alias : string) : M User :=
  match User_column name with
  | None => raise FieldError
  | Some col => User_objects_get (fun u => id_is user_id u && iexact_col col alias u)
  end.

(** [User.objects.filter] on [name + '__iexact' = alias]: the rows a lazy
    queryset would yield in the current world. *)
Definition User_objects_filter_iexact (name alias : string) : M (list User) :=
  match User_column name with
  | None => raise FieldError
  | Some col => fun w => (Return (filter (iexact_col col alias) (users w)), w)
  end.

Definition next_pk (us : list User) : Z := 1 + fold_right Z.max 0 (map pk us).

(** [User.objects.create] with [name = alias]: a new active row, every other
    column at its default. *)
Definition User_objects_create (name alias : string) : M User :=
  match User_column name with
  | None => raise TypeError
  | Some _ =>
      emit UserWrite ;;
      fun w =>
        let u := mkUser (next_pk (users w))
                        (if String.eqb name "email" then Some alias else None)
                        (if String.eqb name "email" then None else Some alias)
                        true EmptyString false false in
        (Return u, set_users w (users w ++ [u]))
  end.

(** [user.set_unusable_password()]: the stored hash starts with ['!']. *)
Definition set_unusable_password (u : User) : User :=
  mkUser (pk u) (email u) (mobile u) (is_active u) "!" (email_verified u) (mobile_verified u).

Definition has_usable_password (u : User) : bool :=
  match password u with
  | String "!" _ => false
  | _ => true
  end.

(** [user.save()]. *)
Definition User_save (u : User) : M unit :=
  emit UserWrite ;;
  fun w => (Return tt, set_users w (map (fun r => if pk r =? pk u then u else r) (users w))).

(** [getattr(user, name)]; [None] when the user has no such attribute. *)
Definition getattr (u : User) (name : string) : option (option string) :=
  match User_column name with
  | Some col => Some (col u)
  | None => None
  end.

Definition hasattr (u : User) (name : string) : bool :=
  match getattr u name with Some _ => true | None => false end.

(** [alias == value] for a column value that may be [None]. *)
Definition alias_eq (alias : string) (v : option string) : bool :=
  match v with
  | Some s => String.eqb alias s
  | None => false
  end.

(** A token in memory: its row and the related user object when that is
    loaded.  A token built from a user object carries it; a token read from
    the table does not. *)
Definition TokenObject : Type := (CallbackToken * option User)%type.

(** [token.user]: the related user object.  When it is not loaded, the
    access reads the row with the token's user id from the user table. *)
Definition related_user (token : TokenObject) : M User :=
  match snd token with
  | Some user => ret user
  | None => User_objects_get (fun u => pk u =? token_user (fst token))
  end.

(** [a == b] on model instances: equal primary keys. *)
Definition model_eq (a b : User) : bool := pk a =? pk b.

(** [CallbackToken.objects.get(user=.., key=.., type=.., is_active=True)]. *)
Definition token_matches (u : User) (k : string) (ty : TokenType) (t : CallbackToken) : bool :=
  (token_user t =? pk u) && String.eqb (key t) k
  && TokenType_eqb (token_type t) ty && token_is_active t.

Definition CallbackToken_objects_get (u : User) (k : string) (ty : TokenType) : M CallbackToken :=
  emit TokenQuery ;;
  fun w => (objects_get CallbackToken_DoesNotExist (tokens w) (token_matches u k ty), w).

(** ** The serializers *)

Definition msg_invalid_alias : string := "Invalid alias parameters provided.".
Definition msg_invalid_user_alias : string := "Invalid user alias parameters provided.".
Definition msg_token_not_valid : string := "The token you entered isn't valid.".
Definition msg_incorrect_token : string := "Incorrect token from settings".
Definition msg_disabled : string := "User account is disabled.".
Definition msg_no_account : string := "No account is associated with this alias.".
Definition msg_problem : string := "There was a problem with your request.".
Definition msg_error_validating : string := "Error validating user alias.".
Definition msg_token_invalid_later : string := "This token is invalid. Try again later.".

(** ['Tokens are {max_length} digits long.'] *)
Definition msg_token_length (n : nat) : string :=
  "Tokens are " ++ NilEmpty.string_of_uint (Nat.to_uint n) ++ " digits long.".

Definition msg_required : string := "This field is required.".
Definition msg_blank : string := "This field may not be blank.".
Definition msg_invalid_email : string := "Enter a valid email address.".
Definition msg_null_characters : string := "Null characters are not allowed.".
Definition msg_token_required : string := "Token required".
Definition msg_token_blank : string := "Blank token".

(** ['Ensure this field has no more than {max_length} characters.'] *)
Definition msg_max_length (n : nat) : string :=
  "Ensure this field has no more than " ++ NilEmpty.string_of_uint (Nat.to_uint n)
  ++ " characters.".

(** A Python value is true in a condition when it is a non-empty string;
    [None] and the empty string are not. *)
Definition as_true (o : option string) : option string :=
  match o with
  | Some (String c r) => Some (String c r)
  | _ => None
  end.

(** [attrs.get(name)] for the alias entries. *)
Definition attrs_get (attrs : Attrs) (name : string) : option string :=
  if String.eqb name "email" then a_email attrs
  else if String.eqb name "mobile" then a_mobile attrs
  else None.

(** The two properties every alias serializer defines. *)
Class AliasSerializer : Type := {
  alias_type : string;
  alias_field_name : string
}.

(** What a validator hands back; the field ignores it. *)
Inductive pyval : Type :=
| PyBool (b : bool)
| PyString (s : string).

Definition py_int (s : string) : M Z :=
  match PyStr.int s with
  | Some n => ret n
  | None => raise ValueError
  end.

Definition py_in (n : Z) (l : list Z) : bool := existsb (Z.eqb n) l.

(** ** Fields

    The fields of [rest_framework.serializers] the serializers declare.  A
    [CharField] refuses a blank entry, trims the others and hands the
    trimmed value to its validators; all validators run, and the field
    fails with the messages they raised. *)

(** What a field makes of its entry in the data: no entry for a field that
    is not required, the value, or the messages of a [ValidationError]. *)
Inductive FieldResult : Type :=
| Skipped
| Value (value : string)
| Errors (messages : list string).

(** What one validator adds to the messages of its field. *)
Definition check (ok : bool) (msg : string) : list string :=
  if ok then [] else [msg].

Definition MaxLengthValidator (limit : nat) (msg value : string) : list string :=
  check (length value <=? limit)%nat msg.

Definition MinLengthValidator (limit : nat) (msg value : string) : list string :=
  check (limit <=? length value)%nat msg.

Definition ProhibitNullCharactersValidator (value : string) : list string :=
  check (PyStr.forallb (fun c => negb (Ascii.eqb c "000")) value) msg_null_characters.

(** [Field.run_validators] around a validator that may raise: the message of
    a validation error of either class is collected, any other exception
    goes on. *)
Definition collect {A} (validator : M A) : M (list string) :=
  fun w => match validator w with
           | (Return _, w') => (Return [], w')
           | (Raise (ValidationError detail), w') => (Return [detail], w')
           | (Raise (DjangoValidationError message), w') => (Return [message], w')
           | (Raise e, w') => (Raise e, w')
           end.

(** [CharField.run_validation] on the entry of the field; [required] is the
    message of a required field, [None] for [required=False]. *)
Definition CharField_run_validation (required : option string) (blank : string)
    (run_validators : string -> M (list string)) (data : option string) : M FieldResult :=
  match data with
  | None =>
      match required with
      | Some msg => ret (Errors [msg])
      | None => ret Skipped
      end
  | Some data =>
      match PyStr.strip data with
      | EmptyString => ret (Errors [blank])
      | value =>
          errors <- run_validators value ;;
          match errors with
          | [] => ret (Value value)
          | _ :: _ => ret (Errors errors)
          end
      end
  end.

Definition field_value (r : FieldResult) : option string :=
  match r with
  | Value value => Some value
  | _ => None
  end.

(** The [errors] dictionary of [Serializer.to_internal_value]. *)
Definition field_errors (fields : list (string * FieldResult)) : list (string * list string) :=
  flat_map (fun f => match snd f with
                     | Errors messages => [(fst f, messages)]
                     | _ => []
                     end) fields.

Section Serializers.

Variable api_settings : Settings.
Variable django : Django.
Variable utils : Utils.

Definition TOKEN_LENGTH : nat := PASSWORDLESS_CALLBACK_TOKEN_LENGTH api_settings.

(** Lines 62-102. *)
Definition AbstractBaseAliasAuthenticationSerializer_validate
    (S : AliasSerializer) (attrs : Attrs) : M Attrs :=
  match as_true (attrs_get attrs alias_type) with
  | Some alias =>
      user <- (if PASSWORDLESS_REGISTER_NEW_USERS api_settings then
                 try_except
                   (u <- User_objects_get_iexact alias_field_name alias ;; ret (Some u))
                   (fun e => match e with
                             | User_DoesNotExist =>
                                 Some (u <- User_objects_create alias_field_name alias ;;
                                       let u := set_unusable_password u in
                                       User_save u ;;
                                       ret (Some u))
                             | _ => None
                             end)
               else
                 try_except
                   (u <- User_objects_get_iexact alias_field_name alias ;; ret (Some u))
                   (fun e => match e with
                             | User_DoesNotExist => Some (ret None)
                             | _ => None
                             end)) ;;
      match user with
      | Some u =>
          if negb (is_active u) then raise (ValidationError msg_disabled)
          else ret (set_user attrs u)
      | None => raise (ValidationError msg_no_account)
      end
  | None => raise (ValidationError ("Missing " ++ alias_type ++ "."))
  end.

(** Lines 105-126. *)
Definition EmailAuthSerializer : AliasSerializer :=
  {| alias_type := "email";
     alias_field_name := PASSWORDLESS_USER_EMAIL_FIELD_NAME api_settings |}.

Definition MobileAuthSerializer : AliasSerializer :=
  {| alias_type := "mobile";
     alias_field_name := PASSWORDLESS_USER_MOBILE_FIELD_NAME api_settings |}.

Definition EmailAuthSerializer_validate (attrs : Attrs) : M Attrs :=
  AbstractBaseAliasAuthenticationSerializer_validate EmailAuthSerializer attrs.

(** [attrs['mobile']] standardised when the setting asks for it, then
    checked against the pattern: the block at lines 129-137, 298-306 and
    368-376. *)
Definition standardise_and_check (mobile : string) : Result string :=
  match (if PASSWORDLESS_MOBILE_NUMBER_STANDARDISE api_settings
         then clear_mobile_number mobile else Return mobile) with
  | Raise e => Raise e
  | Return m =>
      match phone_regex m with
      | Raise e => Raise e
      | Return _ => Return m
      end
  end.

(** Lines 128-139. *)
Definition MobileAuthSerializer_validate (attrs : Attrs) : M Attrs :=
  match a_mobile attrs with
  | None => raise KeyError
  | Some mobile =>
      m <- liftR (standardise_and_check mobile) ;;
      AbstractBaseAliasAuthenticationSerializer_validate MobileAuthSerializer (set_mobile attrs m)
  end.

(** Lines 162-192. *)
Definition AbstractBaseAliasVerificationSerializer_validate
    (S : AliasSerializer) (context : Context) (attrs : Attrs) : Result Attrs :=
  if PyStr.nonempty alias_type then
    match ctx_request context with
    | None => Raise KeyError
    | Some None => Raise (ValidationError msg_problem)
    | Some (Some request) =>
        match request_user request with
        | Some (Some user) =>
            if negb (is_active user) then Raise (ValidationError msg_disabled)
            else if hasattr user alias_field_name then Return (set_user attrs user)
            else Raise (ValidationError ("This user doesn't have an " ++ alias_field_name ++ "."))
        | _ => Raise (ValidationError msg_problem)
        end
    end
  else Raise (ValidationError ("Missing " ++ alias_type ++ ".")).

(** Lines 235-271. *)
Definition AbstractBaseAliasChangeSerializer_validate
    (S : AliasSerializer) (context : Context) (attrs : Attrs) : Result Attrs :=
  if PyStr.nonempty alias_type then
    match ctx_request context with
    | None => Raise KeyError
    | Some None => Raise (ValidationError msg_problem)
    | Some (Some request) =>
        match request_user request with
        | Some (Some user) =>
            if negb (is_active user) then Raise (ValidationError msg_disabled)
            else
              match getattr user alias_field_name with
              | Some current =>
                  match request_get request alias_type with
                  | Raise e => Raise e
                  | Return alias =>
                      if match alias with
                         | Some a => alias_eq a current
                         | None => match current with None => true | Some _ => false end
                         end
                      then Raise (ValidationError ("This user already have same " ++ alias_type ++ "."))
                      else Return (set_user attrs user)
                  end
              | None =>
                  Raise (ValidationError ("This user doesn't have an " ++ alias_field_name ++ "."))
              end
        | _ => Raise (ValidationError msg_problem)
        end
    end
  else Raise (ValidationError ("Missing " ++ alias_type ++ ".")).

(** Lines 274-307: both change-request serializers derive from
    [AbstractBaseAliasVerificationSerializer]. *)
Definition EmailChangeSerializer : AliasSerializer :=
  {| alias_type := "email";
     alias_field_name := PASSWORDLESS_USER_EMAIL_FIELD_NAME api_settings |}.

Definition MobileChangeSerializer : AliasSerializer :=
  {| alias_type := "mobile";
     alias_field_name := PASSWORDLESS_USER_MOBILE_FIELD_NAME api_settings |}.

Definition EmailChangeSerializer_validate (context : Context) (attrs : Attrs) : Result Attrs :=
  AbstractBaseAliasVerificationSerializer_validate EmailChangeSerializer context attrs.

Definition MobileChangeSerializer_validate (context : Context) (attrs : Attrs) : Result Attrs :=
  match a_mobile attrs with
  | None => Raise KeyError
  | Some mobile =>
      match standardise_and_check mobile with
      | Raise e => Raise e
      | Return m =>
          AbstractBaseAliasVerificationSerializer_validate
            MobileChangeSerializer context (set_mobile attrs m)
      end
  end.

(** Lines 315-327. *)
Definition token_age_validator (value : string) : M pyval :=
  if PASSWORDLESS_TEST_MODE api_settings then
    n <- py_int value ;;
    if py_in n (PASSWORDLESS_TEST_CODE_INCORRECT api_settings)
    then ret (PyBool false)
    else ret (PyBool true)
  else
    valid_token <- call (validate_token_age utils value) ;;
    if negb valid_token then raise (ValidationError msg_token_not_valid)
    else ret (PyString value).

(** Lines 347-362. *)
Definition validate_alias (attrs : Attrs) : Result (option (string * string)) :=
  let email := as_true (a_email attrs) in
  let mobile := as_true (a_mobile attrs) in
  match email, mobile with
  | Some _, Some _ => Raise (ValidationError default_detail)
  | _, _ =>
      match email, mobile with
      | None, None => Raise (ValidationError default_detail)
      | _, _ =>
          match email with
          | Some e => Return (Some (PASSWORDLESS_USER_EMAIL_FIELD_NAME api_settings, e))
          | None =>
              match mobile with
              | Some m => Return (Some (PASSWORDLESS_USER_MOBILE_FIELD_NAME api_settings, m))
              | None => Return None
              end
          end
      end
  end.

(** [alias_type, alias = self.validate_alias(attrs)]. *)
Definition unpack (r : option (string * string)) : Result (string * string) :=
  match r with
  | Some p => Return p
  | None => Raise TypeError
  end.

(** Lines 364-377.  The dictionary is updated in place, so the caller goes
    on with the standardised [mobile]. *)
Definition AbstractBaseCallbackTokenSerializer_validate (attrs : Attrs) : Result Attrs :=
  match as_true (a_mobile attrs) with
  | None => Return attrs
  | Some mobile =>
      match standardise_and_check mobile with
      | Raise e => Raise e
      | Return m => Return (set_mobile attrs m)
      end
  end.

(** Lines 390-413, 465-488 and 538-561: in test mode an unsaved token is
    built from the request, otherwise the token is read from the table. *)
Definition obtain_token (ty : TokenType) (user : User) (alias_type alias callback_token : string)
  : M TokenObject :=
  if PASSWORDLESS_TEST_MODE api_settings then
    n <- py_int callback_token ;;
    if py_in n (PASSWORDLESS_TEST_CODE_INCORRECT api_settings)
    then raise (ValidationError msg_incorrect_token)
    else
      let token := mkToken (pk user) callback_token ty true alias EmptyString None in
      if String.eqb (PASSWORDLESS_USER_MOBILE_FIELD_NAME api_settings) alias_type
      then ret (set_to_alias_type token "MOBILE", Some user)
      else if String.eqb (PASSWORDLESS_USER_EMAIL_FIELD_NAME api_settings) alias_type
      then ret (set_to_alias_type token "EMAIL", Some user)
      else raise (ValidationError default_detail)
  else
    token <- CallbackToken_objects_get user callback_token ty ;;
    ret (token, None).

(** Lines 382-448. *)
Definition CallbackTokenAuthSerializer_validate (attrs : Attrs) : M Attrs :=
  try_except
    (attrs <- liftR (AbstractBaseCallbackTokenSerializer_validate attrs) ;;
     r <- liftR (validate_alias attrs) ;;
     p <- liftR (unpack r) ;;
     let (alias_type, alias) := p in
     let callback_token := a_token attrs in
     user <- User_objects_get_iexact alias_type alias ;;
     token <- obtain_token TOKEN_TYPE_AUTH user alias_type alias callback_token ;;
     token_user <- related_user token ;;
     if model_eq token_user user then
       if negb (is_active user) then raise (ValidationError msg_disabled)
       else
         user <- (if PASSWORDLESS_USER_MARK_EMAIL_VERIFIED api_settings
                     || PASSWORDLESS_USER_MARK_MOBILE_VERIFIED api_settings
                  then
                    user <- User_objects_get (fun u => pk u =? pk token_user) ;;
                    success <- call (verify_user_alias utils user (fst token)) ;;
                    if negb success then raise (ValidationError msg_error_validating)
                    else ret user
                  else ret user) ;;
         ret (set_user attrs user)
     else raise (ValidationError "Invalid Token"))
    (fun e => match e with
              | CallbackToken_DoesNotExist => Some (raise (ValidationError msg_invalid_alias))
              | User_DoesNotExist => Some (raise (ValidationError msg_invalid_user_alias))
              | ValidationError _ => Some (raise (ValidationError msg_invalid_alias))
              | _ => None
              end).

(** How the [try] block of the two other serializers ends: with
    [return attrs], or by falling out of it with [msg] set. *)
Inductive Outcome : Type :=
| Returned (attrs : Attrs)
| Message (msg : string).

Definition finish (o : Outcome) : M Attrs :=
  match o with
  | Returned attrs => ret attrs
  | Message msg => raise (ValidationError msg)
  end.

(** Lines 457-516. *)
Definition CallbackTokenVerificationSerializer_validate
    (context : Context) (attrs : Attrs) : M Attrs :=
  o <- try_except
    (attrs <- liftR (AbstractBaseCallbackTokenSerializer_validate attrs) ;;
     r <- liftR (validate_alias attrs) ;;
     p <- liftR (unpack r) ;;
     let (alias_type, alias) := p in
     let user_id := ctx_user_id context in
     user <- User_objects_get_id_iexact user_id alias_type alias ;;
     let callback_token := a_token attrs in
     token <- obtain_token TOKEN_TYPE_VERIFY user alias_type alias callback_token ;;
     token_user <- related_user token ;;
     if model_eq token_user user then
       success <- call (verify_user_alias utils user (fst token)) ;;
       (if negb success then logger_debug "drfpasswordless: Error verifying alias."
        else ret tt) ;;
       ret (Returned (set_user attrs user))
     else
       logger_debug "drfpasswordless: User token mismatch when verifying alias." ;;
       ret (Message msg_token_invalid_later))
    (fun e => match e with
              | CallbackToken_DoesNotExist =>
                  Some (logger_debug "drfpasswordless: Tried to validate alias with bad token." ;;
                        ret (Message "We could not verify this alias."))
              | User_DoesNotExist =>
                  Some (logger_debug "drfpasswordless: Tried to validate alias with bad user." ;;
                        ret (Message "We could not verify this alias."))
              | PermissionDenied =>
                  Some (logger_debug "drfpasswordless: Permission denied while validating alias." ;;
                        ret (Message "Insufficient permissions."))
              | _ => None
              end) ;;
  finish o.

(** Lines 525-593. *)
Definition CallbackTokenChangeSerializer_validate
    (context : Context) (attrs : Attrs) : M Attrs :=
  o <- try_except
    (attrs <- liftR (AbstractBaseCallbackTokenSerializer_validate attrs) ;;
     r <- liftR (validate_alias attrs) ;;
     p <- liftR (unpack r) ;;
     let (alias_type, alias) := p in
     let user_id := ctx_user_id context in
     user <- User_objects_get (id_is user_id) ;;
     let callback_token := a_token attrs in
     current <- liftR (match getattr user alias_type with
                       | Some v => Return v
                       | None => Raise AttributeError
                       end) ;;
     if alias_eq alias current
     then raise (ValidationError ("This user already have same " ++ alias_type ++ "."))
     else
       token <- obtain_token TOKEN_TYPE_CHANGE user alias_type alias callback_token ;;
       token_user <- related_user token ;;
       if model_eq token_user user && String.eqb (to_alias (fst token)) alias then
         old_users <- User_objects_filter_iexact alias_type alias ;;
         changed <- call (change_user_alias utils user (fst token) old_users) ;;
         success <- (if changed then call (verify_user_alias utils user (fst token))
                     else ret changed) ;;
         (if negb success then logger_debug "drfpasswordless: Error verifying alias."
          else ret tt) ;;
         ret (Returned (set_user attrs user))
       else
         logger_debug "drfpasswordless: User token mismatch when verifying alias." ;;
         ret (Message msg_token_invalid_later))
    (fun e => match e with
              | CallbackToken_DoesNotExist =>
                  Some (logger_debug "drfpasswordless: Tried to validate alias with bad token." ;;
                        ret (Message "We could not verify this alias. No token."))
              | User_DoesNotExist =>
                  Some (logger_debug "drfpasswordless: Tried to validate alias with bad user." ;;
                        ret (Message "We could not verify this alias. Bad user."))
              | PermissionDenied =>
                  Some (logger_debug "drfpasswordless: Permission denied while validating alias." ;;
                        ret (Message "Insufficient permissions."))
              | _ => None
              end) ;;
  finish o.

(** Lines 336-340: [email = EmailField(required=False)] and
    [mobile = CharField(required=False, max_length=17)].  An [EmailField] is
    a [CharField] with the e-mail validator after those of the
    [CharField]. *)
Definition EmailField (required : option string) (data : option string) : M FieldResult :=
  CharField_run_validation required msg_blank
    (fun value => ret (ProhibitNullCharactersValidator value
                       ++ check (EmailValidator django value) msg_invalid_email)%list)
    data.

Definition MobileField (required : option string) (data : option string) : M FieldResult :=
  CharField_run_validation required msg_blank
    (fun value => ret (MaxLengthValidator 17 (msg_max_length 17) value
                       ++ ProhibitNullCharactersValidator value)%list)
    data.

(** Lines 341-345: the [token] field.  Its validators are
    [token_age_validator] followed by those the field adds for
    [max_length] and [min_length] and for null characters. *)
Definition TokenField_run_validators (value : string) : M (list string) :=
  aged <- collect (token_age_validator value) ;;
  ret (aged
       ++ MaxLengthValidator TOKEN_LENGTH (msg_token_length TOKEN_LENGTH) value
       ++ MinLengthValidator TOKEN_LENGTH (msg_token_length TOKEN_LENGTH) value
       ++ ProhibitNullCharactersValidator value)%list.

Definition TokenField (data : option string) : M FieldResult :=
  CharField_run_validation (Some msg_token_required) msg_token_blank
    TokenField_run_validators data.

(** [Serializer.to_internal_value]: every field is run on its entry, in the
    order of declaration; the values make up the validated data unless a
    field failed.  The required [token] is never skipped. *)
Definition to_internal_value (data : Data) : M Attrs :=
  e <- EmailField None (d_email data) ;;
  m <- MobileField None (d_mobile data) ;;
  t <- TokenField (d_token data) ;;
  match field_errors [("email", e); ("mobile", m); ("token", t)], t with
  | [], Value token => ret (mkAttrs (field_value e) (field_value m) token None)
  | errors, _ => raise (FieldErrors errors)
  end.

(** [Serializer.run_validation]: the fields first, then [validate], whose
    Django validation errors are turned into the framework's. *)
Definition as_serializer_error (e : exn) : option (M Attrs) :=
  match e with
  | DjangoValidationError m => Some (raise (ValidationError m))
  | _ => None
  end.

Definition run_validation (validate : Attrs -> M Attrs) (data : Data) : M Attrs :=
  attrs <- to_internal_value data ;;
  try_except (validate attrs) as_serializer_error.

Definition submit_auth (data : Data) : M Attrs :=
  run_validation CallbackTokenAuthSerializer_validate data.

Definition submit_verify (context : Context) (data : Data) : M Attrs :=
  run_validation (CallbackTokenVerificationSerializer_validate context) data.

Definition submit_change (context : Context) (data : Data) : M Attrs :=
  run_validation (CallbackTokenChangeSerializer_validate context) data.

End Serializers.

(** ** The helpers of [drfpasswordless.utils], after the specification *)

(** Modelled from the spec: [validate_token_age] lives in
    [drfpasswordless/utils.py], which is not among the sources.  Section 4.1:
    a token is fresh iff [now - created_at <= ttl_seconds], and the check
    mutates nothing. *)
Definition is_token_fresh (created now ttl : Z) : bool := now - created <=? ttl.

(** Modelled from the spec: section 3, the tokens a submitted key can
    consume are the active ones stored under exactly that key. *)
Definition under_key (value : string) (t : CallbackToken) : bool :=
  String.eqb (key t) value && token_is_active t.

(** Modelled from the spec: sections 3 and 4.1, the age of a stored token
    is within the time to live. *)
Definition fresh (ttl now : Z) (t : CallbackToken) : bool :=
  match created_at t with
  | Some c => is_token_fresh c now ttl
  | None => false
  end.

(** Modelled from the spec: [validate_token_age] is asked about a key
    alone.  It answers that the key is good when the table has an active
    token under it and every such token is within the time to live, so that
    whichever of them the serializer goes on to match is fresh; the table is
    read, not written. *)
Definition spec_validate_token_age (cfg : Settings) (value : string) (w : World) : bool * World :=
  let found := filter (under_key value) (tokens w) in
  (match found with [] => false | _ :: _ => true end
   && forallb (fresh (PASSWORDLESS_TOKEN_EXPIRE_TIME cfg) (clock w)) found,
   set_trace w (trace w ++ [TokenQuery])).

(** Modelled from the spec: [verify_user_alias] is not among the sources.
    Section 4.4: it marks the alias named by [token.to_alias_type] on the
    user as verified, is idempotent, and returns false only when the store
    fails, which the tables of this model never do. *)
Definition mark_verified (kind : string) (u : User) : User :=
  mkUser (pk u) (email u) (mobile u) (is_active u) (password u)
         (email_verified u || String.eqb kind "EMAIL")
         (mobile_verified u || String.eqb kind "MOBILE").

(** Modelled from the spec: section 4.4, [verify_alias(user, token)] on the
    row of the user. *)
Definition spec_verify_user_alias (user : User) (token : CallbackToken) (w : World)
  : bool * World :=
  (true,
   set_trace
     (set_users w (map (fun r => if pk r =? pk user then mark_verified (to_alias_type token) r else r)
                       (users w)))
     (trace w ++ [UserWrite])).

(** Modelled from the spec: [change_user_alias] is not among the sources.
    Section 4.4: it clears the claimed value from every prior holder and
    assigns [token.to_alias] to the user's alias of [token.to_alias_type],
    all or nothing. *)
Definition assign_alias (kind : string) (v : option string) (u : User) : User :=
  mkUser (pk u)
         (if String.eqb kind "EMAIL" then v else email u)
         (if String.eqb kind "MOBILE" then v else mobile u)
         (is_active u) (password u) (email_verified u) (mobile_verified u).

(** Modelled from the spec: section 4.4,
    [change_alias(user, token, prior_holders)]. *)
Definition spec_change_user_alias (user : User) (token : CallbackToken)
    (prior_holders : list User) (w : World) : bool * World :=
  (true,
   set_trace
     (set_users w
        (map (fun r =>
                if pk r =? pk user
                then assign_alias (to_alias_type token) (Some (to_alias token)) r
                else if existsb (fun h => pk h =? pk r) prior_holders
                then assign_alias (to_alias_type token) None r
                else r)
             (users w)))
     (trace w ++ [UserWrite])).

(** Modelled from the spec: the three helpers together. *)
Definition spec_utils (cfg : Settings) : Utils :=
  mkUtils (spec_validate_token_age cfg) spec_verify_user_alias spec_change_user_alias.

(** Modelled from the spec: section 4.4 lets both mutators answer false on
    a persistence failure; here every write fails, the helpers report
    [False] and change nothing. *)
Definition failing_utils (cfg : Settings) : Utils :=
  mkUtils (spec_validate_token_age cfg)
          (fun _ _ w => (false, w))
          (fun _ _ _ w => (false, w)).

(** ** Vocabulary of the statements *)

(** A helper that leaves the token table alone. *)
Definition keeps_tokens (h : World -> bool * World) : Prop :=
  forall w, tokens (snd (h w)) = tokens w.

Definition utils_keep_tokens (utils : Utils) : Prop :=
  (forall v, keeps_tokens (validate_token_age utils v))
  /\ (forall u t, keeps_tokens (verify_user_alias utils u t))
  /\ (forall u t l, keeps_tokens (change_user_alias utils u t l)).

(** A helper that issues no token query. *)
Definition token_queries (w : World) : list Event := filter is_token_query (trace w).

Definition no_token_query (h : World -> bool * World) : Prop :=
  forall w, token_queries (snd (h w)) = token_queries w.

(** A computation that leaves an observation [f] of the world as it found
    it, whatever its outcome. *)
Definition stable {X A} (f : World -> X) (m : M A) : Prop :=
  forall w, f (snd (m w)) = f w.

(** A token submission of either type, fields and [validate]. *)
Definition submit (cfg : Settings) (django : Django) (utils : Utils) (ty : TokenType)
    (context : Context) (data : Data) : M Attrs :=
  match ty with
  | TOKEN_TYPE_AUTH => submit_auth cfg django utils data
  | TOKEN_TYPE_VERIFY => submit_verify cfg django utils context data
  | TOKEN_TYPE_CHANGE => submit_change cfg django utils context data
  end.

(** The users that match the alias of a payload, when the alias resolves. *)
Definition alias_matches (cfg : Settings) (attrs : Attrs) (w : World) : option (list User) :=
  match AbstractBaseCallbackTokenSerializer_validate cfg attrs with
  | Return attrs1 =>
      match validate_alias cfg attrs1 with
      | Return (Some (name, alias)) =>
          match User_column name with
          | Some col => Some (filter (iexact_col col alias) (users w))
          | None => None
          end
      | _ => None
      end
  | Raise _ => None
  end.

(** The world after one more entry in the trace. *)
Definition logged (w : World) (e : Event) : World := set_trace w (trace w ++ [e]).

Definition present (o : option string) : bool :=
  match o with Some _ => true | None => false end.

(** ** Sample configuration and data *)

Definition settings0 : Settings :=
  mkSettings 6 true "email" "mobile" true false [0] true true 900.

Definition test_settings : Settings :=
  mkSettings 6 true "email" "mobile" true true [0] true true 900.

Definition alice : User :=
  mkUser 1 (Some "alice@example.com") (Some "+15551234567") true "!" false false.

Definition bob : User :=
  mkUser 2 (Some "bob@example.com") None true "!" false false.

Definition carol_disabled : User :=
  mkUser 3 (Some "carol@example.com") None false "!" false false.

Definition token_of (u : User) (k : string) (ty : TokenType) (alias kind : string) (at_ : Z)
  : CallbackToken :=
  mkToken (pk u) k ty true alias kind (Some at_).

Definition world0 : World :=
  mkWorld [alice; bob; carol_disabled]
          [token_of alice "123456" TOKEN_TYPE_AUTH "alice@example.com" "EMAIL" 100;
           token_of carol_disabled "654321" TOKEN_TYPE_AUTH "carol@example.com" "EMAIL" 100;
           token_of bob "222222" TOKEN_TYPE_VERIFY "bob@example.com" "EMAIL" 100;
           token_of bob "333333" TOKEN_TYPE_CHANGE "bob@new.example.com" "EMAIL" 100]
          200 [].

Definition payload (e m : option string) (t : string) : Attrs := mkAttrs e m t None.

(** The data of a request that carries a token. *)
Definition request_data (e m : option string) (t : string) : Data := mkData e m (Some t).

(** A stand-in for the e-mail check of the framework: one ['@'] with
    something on both sides. *)
Definition simple_email (s : string) : bool :=
  match PyStr.split "@" s with
  | [a; b] => PyStr.nonempty a && PyStr.nonempty b
  | _ => false
  end.

Definition django0 : Django := mkDjango simple_email.

(** [world0] half an hour later: every token is older than the time to
    live of [settings0]. *)
Definition late_world0 : World := mkWorld (users world0) (tokens world0) 2000 [].

(** ** Further serializers and vocabulary *)

(** Lines 195-212: the verification-request serializers take [validate]
    from [AbstractBaseAliasVerificationSerializer] unchanged. *)
Definition EmailVerificationSerializer (cfg : Settings) : AliasSerializer :=
  {| alias_type := "email";
     alias_field_name := PASSWORDLESS_USER_EMAIL_FIELD_NAME cfg |}.

Definition MobileVerificationSerializer (cfg : Settings) : AliasSerializer :=
  {| alias_type := "mobile";
     alias_field_name := PASSWORDLESS_USER_MOBILE_FIELD_NAME cfg |}.

Definition EmailVerificationSerializer_validate (cfg : Settings)
    (context : Context) (attrs : Attrs) : Result Attrs :=
  AbstractBaseAliasVerificationSerializer_validate (EmailVerificationSerializer cfg) context attrs.

Definition MobileVerificationSerializer_validate (cfg : Settings)
    (context : Context) (attrs : Attrs) : Result Attrs :=
  AbstractBaseAliasVerificationSerializer_validate (MobileVerificationSerializer cfg) context attrs.

(** Lines 105-126 and 128-139: the [validate] of the AUTH-request serializer
    for an alias type. *)
Definition auth_request (cfg : Settings) (mobile_alias : bool) (attrs : Attrs) : M Attrs :=
  if mobile_alias then MobileAuthSerializer_validate cfg attrs
  else EmailAuthSerializer_validate cfg attrs.

Definition msg_could_not_verify : string := "We could not verify this alias.".
Definition msg_no_token : string := "We could not verify this alias. No token.".
Definition msg_bad_user : string := "We could not verify this alias. Bad user.".
Definition log_bad_token : string := "drfpasswordless: Tried to validate alias with bad token.".
Definition log_bad_user : string := "drfpasswordless: Tried to validate alias with bad user.".
Definition log_mismatch : string := "drfpasswordless: User token mismatch when verifying alias.".

(** A string without whitespace, hyphens and parentheses. *)
Definition noise_free (s : string) : bool :=
  PyStr.forallb (fun c => negb (mobile_noise c)) s.

(** The user a serializer put into the validated data, if it returned. *)
Definition validated_user (r : Result Attrs) : option User :=
  match r with
  | Return a => a_user a
  | Raise _ => None
  end.

(** The outcome of a validation apart from the payload it echoes: the
    exception, or the user that was put into the data. *)
Definition verdict (r : Result Attrs) : exn + option User :=
  match r with
  | Return a => inr (a_user a)
  | Raise e => inl e
  end.

(** The row [User.objects.create] followed by [set_unusable_password] and
    [save] leaves in the table for a new alias. *)
Definition registered_user (name alias : string) (us : list User) : User :=
  mkUser (next_pk us)
         (if String.eqb name "email" then Some alias else None)
         (if String.eqb name "email" then None else Some alias)
         true "!" false false.

(** Helpers that answer [True] and leave the world alone; they stand for
    helpers that are never called. *)
Definition idle_utils : Utils :=
  mkUtils (fun _ w => (true, w)) (fun _ _ w => (true, w)) (fun _ _ _ w => (true, w)).

(** A helper that leaves the user table alone. *)
Definition keeps_users (h : World -> bool * World) : Prop :=
  forall w, users (snd (h w)) = users w.

(** ** Vocabulary of the submissions *)

(** What a [CharField] with the check [ok] makes of an entry it accepts:
    nothing of a missing entry, and of a string its trimmed form, which is
    not blank and passes the check. *)
Definition field_accepts (ok : string -> bool) (data value : option string) : Prop :=
  match data with
  | None => value = None
  | Some raw =>
      value = Some (PyStr.strip raw) /\ PyStr.strip raw <> EmptyString
      /\ ok (PyStr.strip raw) = true
  end.



(** Lines 105-106 and 116-117: the one field of an AUTH-request serializer,
    [email = EmailField()] or [mobile = CharField(max_length=17)], required
    in both.  The validated data have no [token]; its place is left
    empty. *)
Definition auth_request_to_internal_value (django : Django) (mobile_alias : bool)
    (data : Data) : M Attrs :=
  if mobile_alias then
    m <- MobileField (Some msg_required) (d_mobile data) ;;
    match m with
    | Value mobile => ret (mkAttrs None (Some mobile) EmptyString None)
    | _ => raise (FieldErrors (field_errors [("mobile", m)]))
    end
  else
    e <- EmailField django (Some msg_required) (d_email data) ;;
    match e with
    | Value email => ret (mkAttrs (Some email) None EmptyString None)
    | _ => raise (FieldErrors (field_errors [("email", e)]))
    end.

(** An AUTH request, field and [validate]. *)
Definition auth_request_submit (cfg : Settings) (django : Django) (mobile_alias : bool)
    (data : Data) : M Attrs :=
  attrs <- auth_request_to_internal_value django mobile_alias data ;;
  try_except (auth_request cfg mobile_alias attrs) as_serializer_error.

(** An entry of the data that says something: a string that is not blank. *)
Definition given (entry : option string) : bool :=
  match entry with
  | Some raw => PyStr.nonempty (PyStr.strip raw)
  | None => false
  end.

(** * Properties *)

(** ** Strings *)

Lemma join_cons (x : string) (xs : list string) :
  PyStr.join (x :: xs) = (x ++ PyStr.join xs)%string.
Proof.
  unfold PyStr.join. destruct xs as [|y ys]; simpl.
  - induction x; simpl; congruence.
  - reflexivity.
Qed.

Lemma split_by_not_nil (p : ascii -> bool) (s : string) : PyStr.split_by p s <> [].
Proof.
  induction s as [|c r IH]; simpl; [discriminate|].
  destruct (p c); [discriminate|].
  destruct (PyStr.split_by p r); [contradiction|discriminate].
Qed.

Lemma join_split_by (p : ascii -> bool) (s : string) :
  PyStr.join (PyStr.split_by p s) = PyStr.remove p s.
Proof.
  induction s as [|c r IH]; simpl; [reflexivity|].
  destruct (p c).
  - rewrite join_cons. exact IH.
  - destruct (PyStr.split_by p r) as [|h t] eqn:E.
    + exfalso. exact (split_by_not_nil p r E).
    + rewrite join_cons in *. simpl. now rewrite IH.
Qed.

Lemma join_filter_nonempty (l : list string) :
  PyStr.join (filter PyStr.nonempty l) = PyStr.join l.
Proof.
  induction l as [|x xs IH]; [reflexivity|].
  simpl. destruct x as [|c r]; simpl.
  - rewrite join_cons. exact IH.
  - rewrite !join_cons. now rewrite IH.
Qed.

Lemma remove_remove (p q : ascii -> bool) (s : string) :
  PyStr.remove p (PyStr.remove q s) = PyStr.remove (fun c => q c || p c) s.
Proof.
  induction s as [|c r IH]; simpl; [reflexivity|].
  destruct (q c); simpl; [exact IH|].
  destruct (p c); simpl; now rewrite IH.
Qed.

Lemma remove_ext (p q : ascii -> bool) (s : string) :
  (forall c, p c = q c) -> PyStr.remove p s = PyStr.remove q s.
Proof.
  intros H. induction s as [|c r IH]; simpl; [reflexivity|].
  rewrite H, IH. reflexivity.
Qed.

(** The four [join]/[split] passes delete exactly the noise characters. *)
Lemma clear_passes (s : string) :
  PyStr.join (PyStr.split ")"
    (PyStr.join (PyStr.split "("
      (PyStr.join (PyStr.split "-" (PyStr.join (PyStr.split_ws s)))))))
  = PyStr.remove mobile_noise s.
Proof.
  unfold PyStr.split, PyStr.split_ws.
  rewrite join_filter_nonempty, !join_split_by, !remove_remove.
  apply remove_ext. intros c. unfold mobile_noise.
  rewrite (Ascii.eqb_sym "-" c), (Ascii.eqb_sym "(" c), (Ascii.eqb_sym ")" c).
  now rewrite !orb_assoc.
Qed.

Lemma clear_mobile_number_eq (s : string) :
  clear_mobile_number s =
  match PyStr.remove mobile_noise s with
  | EmptyString => Raise IndexError
  | String c r => Return (if Ascii.eqb c "+" then String c r else String "+" (String c r))
  end.
Proof.
  unfold clear_mobile_number. rewrite clear_passes.
  destruct (PyStr.remove mobile_noise s) as [|c r]; simpl; [reflexivity|].
  destruct (Ascii.eqb c "+"); reflexivity.
Qed.

Lemma remove_no_noise (s : string) :
  PyStr.forallb (fun c => negb (mobile_noise c)) (PyStr.remove mobile_noise s) = true.
Proof.
  induction s as [|c r IH]; simpl; [reflexivity|].
  destruct (mobile_noise c) eqn:E; simpl; [exact IH|].
  now rewrite E, IH.
Qed.

Example clear_plus_kept : clear_mobile_number "+1 (555) 123-4567" = Return "+15551234567".
Proof. reflexivity. Qed.

Example clear_plus_added : clear_mobile_number "1 555 1234567" = Return "+15551234567".
Proof. reflexivity. Qed.

Example phone_regex_ok : phone_regex_match "+15551234567" = true.
Proof. reflexivity. Qed.

Example phone_regex_leading_zero : phone_regex_match "+05551234567" = false.
Proof. reflexivity. Qed.

Example int_leading_zeros : PyStr.int "000000" = Some 0.
Proof. reflexivity. Qed.

Example int_not_a_number : PyStr.int "12a456" = None.
Proof. reflexivity. Qed.

(** [int] skips a no-break space after the digits but not the separator
    U+001F, which [str.strip] removes. *)
Example int_blanks :
  PyStr.int (String "1" (String "160" EmptyString)) = Some 1
  /\ PyStr.int (String "1" (String "031" EmptyString)) = None
  /\ PyStr.strip (String "1" (String "031" EmptyString)) = "1".
Proof. repeat split; reflexivity. Qed.

(** On every number that keeps at least one character, normalisation is the
    deletion of the noise characters followed by a ['+'] where there is none,
    and the standardised value is accepted only when it matches the
    pattern. *)
Lemma clear_mobile_number_kept (s : string) (c : ascii) (r : string) :
  PyStr.remove mobile_noise s = String c r ->
  clear_mobile_number s =
  Return (if Ascii.eqb c "+" then String c r else String "+" (String c r)).
Proof. intros H. rewrite clear_mobile_number_eq, H. reflexivity. Qed.

Lemma standardise_and_check_match (cfg : Settings) (s m : string) :
  standardise_and_check cfg s = Return m -> phone_regex_match m = true.
Proof.
  unfold standardise_and_check, phone_regex.
  destruct (if PASSWORDLESS_MOBILE_NUMBER_STANDARDISE cfg then _ else _) as [m'|e];
    [|discriminate].
  destruct (phone_regex_match m') eqn:E; [|discriminate].
  intros H. injection H as <-. exact E.
Qed.

Lemma phone_regex_match_nonempty (m : string) :
  phone_regex_match m = true -> exists c r, m = String c r.
Proof. destruct m as [|c r]; [discriminate|]. intros _. now exists c, r. Qed.

(** C10: [clear_mobile_number] is partial.  Whenever deleting whitespace,
    hyphens and parentheses leaves nothing of the input, the access
    [mobile[0]] raises [IndexError]; no value is returned and no
    [ValidationError] is raised. *)
Theorem clear_mobile_number_index_error (s : string) :
  PyStr.remove mobile_noise s = EmptyString ->
  clear_mobile_number s = Raise IndexError.
Proof. intros H. rewrite clear_mobile_number_eq, H. reflexivity. Qed.

Lemma clear_mobile_number_index_error_witness :
  PyStr.remove mobile_noise "()" = EmptyString
  /\ clear_mobile_number "()" = Raise IndexError
  /\ clear_mobile_number "-" = Raise IndexError.
Proof.
  split; [reflexivity|].
  split; apply clear_mobile_number_index_error; reflexivity.
Defined.

(** C7 (defect): the claim promises, for every submitted number, a
    normalised value that is then matched against the pattern.  For the
    number ["()"] the normalised value would be ["+"], which the pattern
    refuses with a [ValidationError]; the code instead stops with an
    [IndexError] inside [clear_mobile_number], in the token-submission
    serializers and in [MobileAuthSerializer] alike. *)
Theorem mobile_normalisation_crashes :
  clear_mobile_number "()" = Raise IndexError
  /\ AbstractBaseCallbackTokenSerializer_validate settings0
       (payload None (Some "()") "123456") = Raise IndexError
  /\ fst (MobileAuthSerializer_validate settings0 (payload None (Some "()") "123456") world0)
     = Raise IndexError
  /\ phone_regex "+" = Raise (DjangoValidationError phone_regex_message).
Proof. repeat split; reflexivity. Qed.

(** ** The monad *)

Lemma bind_Return {A B} (m : M A) (k : A -> M B) (w w1 : World) (a : A) :
  m w = (Return a, w1) -> bind m k w = k a w1.
Proof. unfold bind. now intros ->. Qed.

Lemma bind_Raise {A B} (m : M A) (k : A -> M B) (w w1 : World) (e : exn) :
  m w = (Raise e, w1) -> bind m k w = (Raise e, w1).
Proof. unfold bind. now intros ->. Qed.

Lemma bind_inv {A B} (m : M A) (k : A -> M B) (w w2 : World) (b : B) :
  bind m k w = (Return b, w2) ->
  exists a w1, m w = (Return a, w1) /\ k a w1 = (Return b, w2).
Proof.
  unfold bind. destruct (m w) as [[a|e] w1]; [|discriminate].
  intros H. now exists a, w1.
Qed.

Lemma try_except_Return {A} (body : M A) (h : exn -> option (M A)) (w w1 : World) (a : A) :
  body w = (Return a, w1) -> try_except body h w = (Return a, w1).
Proof. unfold try_except. now intros ->. Qed.

Lemma try_except_Raise {A} (body : M A) (h : exn -> option (M A)) (w w1 : World) (e : exn) :
  body w = (Raise e, w1) ->
  try_except body h w = match h e with Some k => k w1 | None => (Raise e, w1) end.
Proof. unfold try_except. now intros ->. Qed.

(** ** The user table *)

Lemma next_pk_fresh (us : list User) (r : User) : In r us -> pk r < next_pk us.
Proof.
  unfold next_pk. induction us as [|u us IH]; simpl map; simpl fold_right; simpl In;
    [contradiction|].
  intros [->|H]; [lia|]. specialize (IH H). lia.
Qed.

Lemma save_fresh (us : list User) (u : User) :
  pk u = next_pk us ->
  map (fun r => if pk r =? pk u then u else r) us = us.
Proof.
  intros E. rewrite <- (map_id us) at 2. apply map_ext_in.
  intros r Hr. apply next_pk_fresh in Hr.
  destruct (Z.eqb_spec (pk r) (pk u)); [lia|reflexivity].
Qed.

Lemma column_of_create (name alias : string) (col : User -> option string) (n : Z) :
  User_column name = Some col ->
  col (mkUser n (if String.eqb name "email" then Some alias else None)
              (if String.eqb name "email" then None else Some alias)
              true "!" false false) = Some alias.
Proof.
  unfold User_column. destruct (String.eqb name "email").
  - intros H. injection H as <-. reflexivity.
  - destruct (String.eqb name "mobile"); [|discriminate].
    intros H. injection H as <-. reflexivity.
Qed.

Lemma User_objects_get_none (p : User -> bool) (w : World) :
  filter p (users w) = [] ->
  User_objects_get p w = (Raise User_DoesNotExist, logged w UserQuery).
Proof.
  intros H. unfold User_objects_get, bind, emit, objects_get. simpl. now rewrite H.
Qed.

Lemma User_objects_get_one (p : User -> bool) (w : World) (u : User) :
  filter p (users w) = [u] ->
  User_objects_get p w = (Return u, logged w UserQuery).
Proof.
  intros H. unfold User_objects_get, bind, emit, objects_get. simpl. now rewrite H.
Qed.

Lemma User_objects_get_inv (p : User -> bool) (w w1 : World) (u : User) :
  User_objects_get p w = (Return u, w1) ->
  filter p (users w) = [u] /\ w1 = logged w UserQuery.
Proof.
  unfold User_objects_get, bind, emit, objects_get. simpl.
  destruct (filter p (users w)) as [|x [|y l]]; try discriminate.
  intros H. injection H as -> <-. split; reflexivity.
Qed.

(** ** Registration of new users (AUTH requests) *)

(** C8: an AUTH request whose alias matches no user (case-insensitively).
    With [PASSWORDLESS_REGISTER_NEW_USERS] on, validation adds one user who
    holds the alias and has an unusable password, and returns the data with
    that user; with the setting off it is rejected with the message
    ['No account is associated with this alias.'] and the user table is left
    as it was. *)
Theorem register_new_users
    (cfg : Settings) (S : AliasSerializer) (attrs : Attrs) (alias : string)
    (col : User -> option string) (w : World) :
  as_true (attrs_get attrs alias_type) = Some alias ->
  User_column alias_field_name = Some col ->
  filter (iexact_col col alias) (users w) = [] ->
  let r := AbstractBaseAliasAuthenticationSerializer_validate cfg S attrs w in
  (PASSWORDLESS_REGISTER_NEW_USERS cfg = true ->
     exists u,
       fst r = Return (set_user attrs u)
       /\ col u = Some alias
       /\ has_usable_password u = false
       /\ is_active u = true
       /\ users (snd r) = (users w ++ [u])%list)
  /\ (PASSWORDLESS_REGISTER_NEW_USERS cfg = false ->
        fst r = Raise (ValidationError msg_no_account)
        /\ users (snd r) = users w).
Proof.
  intros Halias Hcol Hnone r. subst r.
  unfold AbstractBaseAliasAuthenticationSerializer_validate.
  rewrite Halias. unfold User_objects_get_iexact, User_objects_create. rewrite Hcol.
  split; intros Hreg; rewrite Hreg.
  - eexists.
    erewrite bind_Return.
    2:{ erewrite try_except_Raise.
        2:{ erewrite bind_Raise; [reflexivity|]. now apply User_objects_get_none. }
        cbv beta iota.
        unfold bind at 1. unfold bind at 1. unfold emit at 1.
        cbv beta iota. unfold bind at 1. unfold User_save, bind, emit, ret.
        cbv beta iota. reflexivity. }
    cbv beta iota. simpl.
    split; [reflexivity|].
    split; [now apply column_of_create|].
    split; [reflexivity|].
    split; [reflexivity|].
    rewrite map_app. simpl. rewrite Z.eqb_refl.
    f_equal.
    apply (save_fresh (users w)
             (set_unusable_password
                (mkUser (next_pk (users w))
                        (if String.eqb alias_field_name "email" then Some alias else None)
                        (if String.eqb alias_field_name "email" then None else Some alias)
                        true EmptyString false false))).
    reflexivity.
  - erewrite bind_Return.
    2:{ erewrite try_except_Raise.
        2:{ erewrite bind_Raise; [reflexivity|]. now apply User_objects_get_none. }
        reflexivity. }
    split; reflexivity.
Qed.

Lemma register_new_users_witness :
  exists u,
    fst (EmailAuthSerializer_validate settings0
           (payload (Some "dave@example.com") None EmptyString) world0)
    = Return (set_user (payload (Some "dave@example.com") None EmptyString) u)
    /\ email u = Some "dave@example.com"
    /\ has_usable_password u = false.
Proof.
  destruct (register_new_users settings0 (EmailAuthSerializer settings0)
              (payload (Some "dave@example.com") None EmptyString)
              "dave@example.com" email world0
              eq_refl eq_refl eq_refl) as [Hon _].
  destruct (Hon eq_refl) as [u [H1 [H2 [H3 _]]]].
  exists u. split; [exact H1|]. split; [exact H2|exact H3].
Defined.

(** ** Alias resolution *)

Lemma standardise_and_check_raises (cfg : Settings) (s : string) (e : exn) :
  standardise_and_check cfg s = Raise e ->
  e = IndexError \/ e = DjangoValidationError phone_regex_message.
Proof.
  unfold standardise_and_check, phone_regex.
  destruct (PASSWORDLESS_MOBILE_NUMBER_STANDARDISE cfg).
  - rewrite clear_mobile_number_eq.
    destruct (PyStr.remove mobile_noise s) as [|c r].
    + intros H. injection H as <-. now left.
    + destruct (phone_regex_match _); [discriminate|].
      intros H. injection H as <-. now right.
  - destruct (phone_regex_match s); [discriminate|].
    intros H. injection H as <-. now right.
Qed.

Lemma base_validate_raises (cfg : Settings) (attrs : Attrs) (e : exn) :
  AbstractBaseCallbackTokenSerializer_validate cfg attrs = Raise e ->
  e = IndexError \/ e = DjangoValidationError phone_regex_message.
Proof.
  unfold AbstractBaseCallbackTokenSerializer_validate.
  destruct (as_true (a_mobile attrs)) as [m|]; [|discriminate].
  destruct (standardise_and_check cfg m) as [m'|e'] eqn:E; [discriminate|].
  intros H. injection H as <-. exact (standardise_and_check_raises _ _ _ E).
Qed.

(** The base [validate] keeps the e-mail entry and keeps a mobile entry
    non-empty. *)
Lemma base_validate_keeps (cfg : Settings) (attrs attrs1 : Attrs) :
  AbstractBaseCallbackTokenSerializer_validate cfg attrs = Return attrs1 ->
  a_email attrs1 = a_email attrs
  /\ a_token attrs1 = a_token attrs
  /\ present (as_true (a_mobile attrs1)) = present (as_true (a_mobile attrs)).
Proof.
  unfold AbstractBaseCallbackTokenSerializer_validate.
  destruct (as_true (a_mobile attrs)) as [m|] eqn:Em.
  - destruct (standardise_and_check cfg m) as [m'|e'] eqn:E; [|discriminate].
    intros H. injection H as <-. simpl.
    apply standardise_and_check_match, phone_regex_match_nonempty in E.
    destruct E as [c [r ->]]. repeat split; reflexivity.
  - intros H. injection H as <-. rewrite Em. repeat split; reflexivity.
Qed.

Lemma validate_alias_both_or_neither (cfg : Settings) (attrs : Attrs) :
  present (as_true (a_email attrs)) = present (as_true (a_mobile attrs)) ->
  validate_alias cfg attrs = Raise (ValidationError default_detail).
Proof.
  unfold validate_alias.
  destruct (as_true (a_email attrs)), (as_true (a_mobile attrs));
    simpl; intros H; try discriminate; reflexivity.
Qed.

(** ** Looking up or synthesising the token *)

Lemma objects_get_inv {R} (none : exn) (rows : list R) (p : R -> bool) (r : R) :
  objects_get none rows p = Return r -> filter p rows = [r].
Proof.
  unfold objects_get. destruct (filter p rows) as [|x [|y l]]; try discriminate.
  intros H. now injection H as ->.
Qed.

Lemma filter_singleton {R} (p : R -> bool) (l : list R) (r : R) :
  filter p l = [r] -> In r l /\ p r = true.
Proof. intros H. apply filter_In. rewrite H. now left. Qed.

Lemma TokenType_eqb_refl (ty : TokenType) : TokenType_eqb ty ty = true.
Proof. now destruct ty. Qed.

Lemma TokenType_eqb_eq (a b : TokenType) : TokenType_eqb a b = true -> a = b.
Proof. destruct a, b; simpl; congruence. Qed.

Lemma token_matches_spec (u : User) (k : string) (ty : TokenType) (t : CallbackToken) :
  token_matches u k ty t = true <->
  token_user t = pk u /\ key t = k /\ token_type t = ty /\ token_is_active t = true.
Proof.
  unfold token_matches. rewrite !andb_true_iff, Z.eqb_eq, String.eqb_eq. split.
  - intros [[[H1 H2] H3] H4]. auto using TokenType_eqb_eq.
  - intros [H1 [H2 [H3 H4]]]. subst ty. auto using TokenType_eqb_refl.
Qed.

Lemma matched_token_spec (u : User) (k : string) (ty : TokenType)
    (l : list CallbackToken) (t : CallbackToken) :
  filter (token_matches u k ty) l = [t] ->
  token_user t = pk u /\ key t = k /\ token_type t = ty /\ token_is_active t = true.
Proof. intros H. apply filter_singleton in H. now apply token_matches_spec. Qed.

Lemma CallbackToken_objects_get_inv (u : User) (k : string) (ty : TokenType)
    (w w1 : World) (t : CallbackToken) :
  CallbackToken_objects_get u k ty w = (Return t, w1) ->
  filter (token_matches u k ty) (tokens w) = [t] /\ w1 = logged w TokenQuery.
Proof.
  unfold CallbackToken_objects_get, bind, emit. simpl.
  destruct (objects_get _ _ _) as [t'|e] eqn:E; [|discriminate].
  intros H. injection H as -> <-. split; [|reflexivity].
  exact (objects_get_inv _ _ _ _ E).
Qed.

Lemma CallbackToken_objects_get_one (u : User) (k : string) (ty : TokenType)
    (w : World) (t : CallbackToken) :
  filter (token_matches u k ty) (tokens w) = [t] ->
  CallbackToken_objects_get u k ty w = (Return t, logged w TokenQuery).
Proof.
  intros H. unfold CallbackToken_objects_get, bind, emit, objects_get. simpl.
  now rewrite H.
Qed.

(** Outside test mode the token comes from the table and is the only row
    for this user, key and type that is active; its user is not loaded. *)
Lemma obtain_token_stored (cfg : Settings) (ty : TokenType) (u : User)
    (name alias k : string) (w w1 : World) (t : TokenObject) :
  PASSWORDLESS_TEST_MODE cfg = false ->
  obtain_token cfg ty u name alias k w = (Return t, w1) ->
  filter (token_matches u k ty) (tokens w) = [fst t] /\ snd t = None
  /\ w1 = logged w TokenQuery.
Proof.
  unfold obtain_token. intros ->. unfold bind, ret.
  destruct (CallbackToken_objects_get u k ty w) as [[t'|e] w'] eqn:E; [|discriminate].
  intros H. injection H as <- <-. simpl.
  apply CallbackToken_objects_get_inv in E. tauto.
Qed.

Lemma obtain_token_one (cfg : Settings) (ty : TokenType) (u : User)
    (name alias k : string) (w : World) (t : CallbackToken) :
  PASSWORDLESS_TEST_MODE cfg = false ->
  filter (token_matches u k ty) (tokens w) = [t] ->
  obtain_token cfg ty u name alias k w = (Return (t, None), logged w TokenQuery).
Proof.
  intros Hm H. unfold obtain_token. rewrite Hm. unfold bind, ret.
  now rewrite (CallbackToken_objects_get_one _ _ _ _ _ H).
Qed.

(** In test mode the token is built from the request and carries the user
    object: nothing is read or written, and the code is not on the list of
    incorrect ones. *)
Lemma obtain_token_synthesised (cfg : Settings) (ty : TokenType) (u : User)
    (name alias k : string) (w w1 : World) (t : TokenObject) :
  PASSWORDLESS_TEST_MODE cfg = true ->
  obtain_token cfg ty u name alias k w = (Return t, w1) ->
  w1 = w
  /\ snd t = Some u
  /\ token_matches u k ty (fst t) = true
  /\ to_alias (fst t) = alias
  /\ created_at (fst t) = None
  /\ exists n, PyStr.int k = Some n
               /\ py_in n (PASSWORDLESS_TEST_CODE_INCORRECT cfg) = false.
Proof.
  unfold obtain_token, py_int, bind, ret, raise. intros ->.
  destruct (PyStr.int k) as [n|]; [|discriminate].
  destruct (py_in n _) eqn:Hn; [discriminate|].
  destruct (String.eqb (PASSWORDLESS_USER_MOBILE_FIELD_NAME cfg) name);
    [|destruct (String.eqb (PASSWORDLESS_USER_EMAIL_FIELD_NAME cfg) name); [|discriminate]];
    intros H; injection H as <- <-;
    (split; [reflexivity|]); (split; [reflexivity|]);
    (split; [apply token_matches_spec; simpl; auto|]);
    (split; [reflexivity|]); (split; [reflexivity|]); now exists n.
Qed.

Lemma obtain_token_matches (cfg : Settings) (ty : TokenType) (u : User)
    (name alias k : string) (w w1 : World) (t : TokenObject) :
  obtain_token cfg ty u name alias k w = (Return t, w1) ->
  token_matches u k ty (fst t) = true.
Proof.
  destruct (PASSWORDLESS_TEST_MODE cfg) eqn:Hm; intros H.
  - now apply (obtain_token_synthesised _ _ _ _ _ _ _ _ _ Hm) in H.
  - apply (obtain_token_stored _ _ _ _ _ _ _ _ _ Hm) in H.
    destruct H as [H _]. now apply filter_singleton in H.
Qed.

(** [token.user] of a token without a loaded user reads the user table. *)
Lemma related_user_stored (t : CallbackToken) (w w1 : World) (u : User) :
  related_user (t, None) w = (Return u, w1) ->
  filter (fun r => pk r =? token_user t) (users w) = [u] /\ w1 = logged w UserQuery.
Proof.
  unfold related_user, User_objects_get, bind, emit. simpl.
  destruct (objects_get _ _ _) as [u'|e] eqn:E; [|discriminate].
  intros H. injection H as -> <-. split; [|reflexivity].
  exact (objects_get_inv _ _ _ _ E).
Qed.

Lemma related_user_one (t : CallbackToken) (w : World) (u : User) :
  filter (fun r => pk r =? token_user t) (users w) = [u] ->
  related_user (t, None) w = (Return u, logged w UserQuery).
Proof.
  intros H. unfold related_user, User_objects_get, bind, emit, objects_get. simpl.
  now rewrite H.
Qed.

(** [token.user == user] holds of the token the serializer obtained for
    [user], whenever [token.user] can be read. *)
Lemma related_user_eq (cfg : Settings) (ty : TokenType) (u : User)
    (name alias k : string) (w w1 w2 : World) (t : TokenObject) (tu : User) :
  obtain_token cfg ty u name alias k w = (Return t, w1) ->
  related_user t w1 = (Return tu, w2) ->
  model_eq tu u = true.
Proof.
  intros H R. pose proof (obtain_token_matches _ _ _ _ _ _ _ _ _ H) as Hm.
  apply token_matches_spec in Hm. destruct Hm as [Hu _].
  unfold model_eq. destruct t as [t [c|]].
  - destruct (PASSWORDLESS_TEST_MODE cfg) eqn:Ht.
    + apply (obtain_token_synthesised _ _ _ _ _ _ _ _ _ Ht) in H.
      destruct H as [_ [Hc _]]. simpl in Hc, R. unfold ret in R.
      injection Hc as ->. injection R as -> _. apply Z.eqb_refl.
    + apply (obtain_token_stored _ _ _ _ _ _ _ _ _ Ht) in H.
      destruct H as [_ [Hc _]]. discriminate.
  - apply related_user_stored in R. destruct R as [R _].
    apply filter_singleton in R. destruct R as [_ R]. simpl in Hu, R.
    apply Z.eqb_eq in R. apply Z.eqb_eq. congruence.
Qed.

(** ** Alias verification that reports a failure *)

(** C9: in the VERIFY and CHANGE token-submission serializers a matching
    token whose alias verification (or alias change) answers [False] still
    leads to a successful validation whose data carry the user under
    [user], the failure being logged; in the AUTH serializer a [False] from
    [verify_user_alias] rejects the request.  The worlds are those of the
    queries the code issues: the user, the token, the user of the token. *)
Theorem failed_alias_verification
    (cfg : Settings) (utils : Utils) (context : Context)
    (attrs attrs1 : Attrs) (name alias : string) :
  AbstractBaseCallbackTokenSerializer_validate cfg attrs = Return attrs1 ->
  validate_alias cfg attrs1 = Return (Some (name, alias)) ->
  (forall w w1 w2 w3 w4 user token token_user,
      User_objects_get_id_iexact (ctx_user_id context) name alias w = (Return user, w1) ->
      obtain_token cfg TOKEN_TYPE_VERIFY user name alias (a_token attrs1) w1
      = (Return token, w2) ->
      related_user token w2 = (Return token_user, w3) ->
      verify_user_alias utils user (fst token) w3 = (false, w4) ->
      let r := CallbackTokenVerificationSerializer_validate cfg utils context attrs w in
      fst r = Return (set_user attrs1 user)
      /\ validated_user (fst r) = Some user
      /\ snd r = logged w4 (LogDebug "drfpasswordless: Error verifying alias."))
  /\ (forall w w1 w2 w3 w4 user current token token_user,
         User_objects_get (id_is (ctx_user_id context)) w = (Return user, w1) ->
         getattr user name = Some current ->
         alias_eq alias current = false ->
         obtain_token cfg TOKEN_TYPE_CHANGE user name alias (a_token attrs1) w1
         = (Return token, w2) ->
         related_user token w2 = (Return token_user, w3) ->
         to_alias (fst token) = alias ->
         (change_user_alias utils user (fst token)
            (match User_column name with
             | Some col => filter (iexact_col col alias) (users w3)
             | None => []
             end) w3 = (false, w4)
          \/ exists w', change_user_alias utils user (fst token)
                          (match User_column name with
                           | Some col => filter (iexact_col col alias) (users w3)
                           | None => []
                           end) w3 = (true, w')
                        /\ verify_user_alias utils user (fst token) w' = (false, w4)) ->
         let r := CallbackTokenChangeSerializer_validate cfg utils context attrs w in
         fst r = Return (set_user attrs1 user)
         /\ validated_user (fst r) = Some user
         /\ snd r = logged w4 (LogDebug "drfpasswordless: Error verifying alias."))
  /\ (forall w w1 w2 w3 w4 w5 user user' token token_user,
         User_objects_get_iexact name alias w = (Return user, w1) ->
         obtain_token cfg TOKEN_TYPE_AUTH user name alias (a_token attrs1) w1
         = (Return token, w2) ->
         related_user token w2 = (Return token_user, w3) ->
         is_active user = true ->
         PASSWORDLESS_USER_MARK_EMAIL_VERIFIED cfg
         || PASSWORDLESS_USER_MARK_MOBILE_VERIFIED cfg = true ->
         User_objects_get (fun u => pk u =? pk token_user) w3 = (Return user', w4) ->
         verify_user_alias utils user' (fst token) w4 = (false, w5) ->
         CallbackTokenAuthSerializer_validate cfg utils attrs w
         = (Raise (ValidationError msg_invalid_alias), w5)).
Proof.
  intros Hbase Halias. split; [|split].
  - intros w w1 w2 w3 w4 user token token_user Hu Ht Hr Hv r.
    assert (E : r = (Return (set_user attrs1 user),
                     logged w4 (LogDebug "drfpasswordless: Error verifying alias."))).
    { subst r. unfold CallbackTokenVerificationSerializer_validate.
      unfold try_except, bind at 1 2 3 4 5 6, liftR.
      rewrite Hbase, Halias. cbn [unpack]. rewrite Hu, Ht.
      unfold bind at 1. rewrite Hr.
      rewrite (related_user_eq _ _ _ _ _ _ _ _ _ _ _ Ht Hr).
      unfold bind, call. rewrite Hv. reflexivity. }
    rewrite E. auto.
  - intros w w1 w2 w3 w4 user current token token_user Hu Hcur Hneq Ht Hr Hto Hfail r.
    assert (E : r = (Return (set_user attrs1 user),
                     logged w4 (LogDebug "drfpasswordless: Error verifying alias."))).
    { subst r. unfold CallbackTokenChangeSerializer_validate.
      unfold try_except, bind at 1 2 3 4 5 6, liftR.
      rewrite Hbase, Halias. cbn [unpack]. rewrite Hu, Hcur. cbn iota beta.
      rewrite Hneq. unfold bind at 1. rewrite Ht.
      unfold bind at 1. rewrite Hr.
      rewrite (related_user_eq _ _ _ _ _ _ _ _ _ _ _ Ht Hr), Hto, String.eqb_refl.
      cbn [andb]. unfold User_objects_filter_iexact.
      assert (Hcol : exists col, User_column name = Some col).
      { unfold getattr in Hcur. destruct (User_column name) as [col|]; [|discriminate].
        now exists col. }
      destruct Hcol as [col Hcol]. rewrite Hcol in *.
      unfold bind, call.
      destruct Hfail as [Hc | [w' [Hc Hv]]]; rewrite Hc.
      + reflexivity.
      + rewrite Hv. reflexivity. }
    rewrite E. auto.
  - intros w w1 w2 w3 w4 w5 user user' token token_user Hu Ht Hr Hact Hmark Hu' Hv.
    unfold CallbackTokenAuthSerializer_validate.
    unfold try_except, bind at 1 2 3 4 5, liftR.
    rewrite Hbase, Halias. cbn [unpack]. rewrite Hu, Ht.
    unfold bind at 1. rewrite Hr.
    rewrite (related_user_eq _ _ _ _ _ _ _ _ _ _ _ Ht Hr), Hact, Hmark.
    cbn [negb]. unfold bind, call. rewrite Hu', Hv. reflexivity.
Qed.

Lemma failed_alias_verification_witness :
  (let r := CallbackTokenVerificationSerializer_validate settings0 (failing_utils settings0)
              (mkContext None (Some 2))
              (payload (Some "bob@example.com") None "222222") world0 in
   validated_user (fst r) = Some bob
   /\ trace (snd r) = [UserQuery; TokenQuery; UserQuery;
                       LogDebug "drfpasswordless: Error verifying alias."])
  /\ (let r := CallbackTokenChangeSerializer_validate settings0 (failing_utils settings0)
                 (mkContext None (Some 2))
                 (payload (Some "bob@new.example.com") None "333333") world0 in
      validated_user (fst r) = Some bob
      /\ trace (snd r) = [UserQuery; TokenQuery; UserQuery;
                          LogDebug "drfpasswordless: Error verifying alias."])
  /\ CallbackTokenAuthSerializer_validate settings0 (failing_utils settings0)
       (payload (Some "alice@example.com") None "123456") world0
     = (Raise (ValidationError msg_invalid_alias),
        logged (logged (logged (logged world0 UserQuery) TokenQuery) UserQuery) UserQuery).
Proof.
  split; [|split].
  - edestruct (proj1 (failed_alias_verification settings0 (failing_utils settings0)
                        (mkContext None (Some 2))
                        (payload (Some "bob@example.com") None "222222") _
                        "email" "bob@example.com" eq_refl eq_refl) world0)
      as [_ [H1 H2]];
      [reflexivity | reflexivity | reflexivity | reflexivity | ].
    split; [exact H1 | rewrite H2; reflexivity].
  - edestruct (proj1 (proj2 (failed_alias_verification settings0 (failing_utils settings0)
                        (mkContext None (Some 2))
                        (payload (Some "bob@new.example.com") None "333333") _
                        "email" "bob@new.example.com" eq_refl eq_refl)) world0)
      as [_ [H1 H2]];
      [reflexivity | reflexivity | reflexivity | reflexivity | reflexivity | reflexivity
      | left; reflexivity | ].
    split; [exact H1 | rewrite H2; reflexivity].
  - erewrite (proj2 (proj2 (failed_alias_verification settings0 (failing_utils settings0)
                       (mkContext None None)
                       (payload (Some "alice@example.com") None "123456") _
                       "email" "alice@example.com" eq_refl eq_refl))).
    + reflexivity.
    + reflexivity.
    + reflexivity.
    + reflexivity.
    + reflexivity.
    + reflexivity.
    + reflexivity.
    + reflexivity.
Defined.

(** ** Change requests *)

(** The token-submission serializer for CHANGE does refuse an alias the user
    already holds, whatever the token. *)
Lemma change_token_rejects_same_alias
    (cfg : Settings) (utils : Utils) (context : Context)
    (attrs attrs1 : Attrs) (name alias : string) (w w1 : World)
    (user : User) (current : option string) :
  AbstractBaseCallbackTokenSerializer_validate cfg attrs = Return attrs1 ->
  validate_alias cfg attrs1 = Return (Some (name, alias)) ->
  User_objects_get (id_is (ctx_user_id context)) w = (Return user, w1) ->
  getattr user name = Some current ->
  alias_eq alias current = true ->
  CallbackTokenChangeSerializer_validate cfg utils context attrs w
  = (Raise (ValidationError ("This user already have same " ++ name ++ ".")), w1).
Proof.
  intros Hbase Halias Hu Hcur Heq.
  unfold CallbackTokenChangeSerializer_validate.
  unfold try_except, bind at 1 2 3 4 5 6, liftR.
  rewrite Hbase, Halias. cbn [unpack]. rewrite Hu, Hcur. cbn iota beta.
  rewrite Heq. reflexivity.
Qed.

(** C4 (defect): a change request that names the alias the user already has
    is accepted.  [EmailChangeSerializer] and [MobileChangeSerializer] take
    their [validate] from [AbstractBaseAliasVerificationSerializer], which
    does not compare aliases; [AbstractBaseAliasChangeSerializer.validate],
    which no serializer uses, asks the request object for the alias and
    stops with whatever that raises. *)
Theorem change_request_accepts_same_alias :
  let request := mkRequest (Some (Some alice)) (fun _ => Raise AttributeError) in
  let context := mkContext (Some (Some request)) (Some 1) in
  MobileChangeSerializer_validate settings0 context
    (payload None (Some "+1 (555) 123-4567") EmptyString)
  = Return (set_user (payload None (Some "+15551234567") EmptyString) alice)
  /\ EmailChangeSerializer_validate settings0 context
       (payload (Some "alice@example.com") None EmptyString)
     = Return (set_user (payload (Some "alice@example.com") None EmptyString) alice)
  /\ AbstractBaseAliasChangeSerializer_validate (MobileChangeSerializer settings0) context
       (payload None (Some "+15551234567") EmptyString)
     = Raise AttributeError
  /\ rejected (CallbackTokenChangeSerializer_validate settings0 (spec_utils settings0) context
                 (payload None (Some "+1 (555) 123-4567") "123456") world0) = true.
Proof. repeat split; reflexivity. Qed.

(** ** Observations the serializers leave alone *)

Lemma stable_ret {X A} (f : World -> X) (a : A) : stable f (ret a).
Proof. intros w. reflexivity. Qed.

Lemma stable_raise {X A} (f : World -> X) (e : exn) : stable f (@raise A e).
Proof. intros w. reflexivity. Qed.

Lemma stable_liftR {X A} (f : World -> X) (r : Result A) : stable f (liftR r).
Proof. intros w. reflexivity. Qed.

Lemma stable_bind {X A B} (f : World -> X) (m : M A) (k : A -> M B) :
  stable f m -> (forall a, stable f (k a)) -> stable f (bind m k).
Proof.
  intros Hm Hk w. unfold bind. specialize (Hm w).
  destruct (m w) as [[a|e] w1]; simpl in *; [|exact Hm].
  now rewrite Hk.
Qed.

Lemma stable_try_except {X A} (f : World -> X) (body : M A) (h : exn -> option (M A)) :
  stable f body -> (forall e k, h e = Some k -> stable f k) ->
  stable f (try_except body h).
Proof.
  intros Hm Hh w. unfold try_except. specialize (Hm w).
  destruct (body w) as [[a|e] w1]; simpl in *; [exact Hm|].
  destruct (h e) as [k|] eqn:E; [|exact Hm].
  now rewrite (Hh e k E).
Qed.

Lemma stable_call {X} (f : World -> X) (h : World -> bool * World) :
  (forall w, f (snd (h w)) = f w) -> stable f (call h).
Proof. intros H w. unfold call. specialize (H w). now destruct (h w). Qed.

Section Stability.

Context {X : Type} (f : World -> X).
Variable cfg : Settings.
Variable utils : Utils.

Hypothesis f_trace : forall w e, is_token_query e = false -> f (logged w e) = f w.
Hypothesis f_token_query :
  PASSWORDLESS_TEST_MODE cfg = true \/ forall w, f (logged w TokenQuery) = f w.
Hypothesis f_age :
  PASSWORDLESS_TEST_MODE cfg = true
  \/ forall v w, f (snd (validate_token_age utils v w)) = f w.
Hypothesis f_verify : forall u t w, f (snd (verify_user_alias utils u t w)) = f w.
Hypothesis f_change : forall u t l w, f (snd (change_user_alias utils u t l w)) = f w.

Lemma stable_emit (e : Event) : is_token_query e = false -> stable f (emit e).
Proof. intros H w. exact (f_trace w e H). Qed.

Lemma stable_User_objects_get (p : User -> bool) : stable f (User_objects_get p).
Proof.
  apply stable_bind; [now apply stable_emit|]. intros _ w. reflexivity.
Qed.

Lemma stable_User_objects_get_iexact (name alias : string) :
  stable f (User_objects_get_iexact name alias).
Proof.
  unfold User_objects_get_iexact. destruct (User_column name).
  - apply stable_User_objects_get.
  - apply stable_raise.
Qed.

Lemma stable_User_objects_get_id_iexact (i : option Z) (name alias : string) :
  stable f (User_objects_get_id_iexact i name alias).
Proof.
  unfold User_objects_get_id_iexact. destruct (User_column name).
  - apply stable_User_objects_get.
  - apply stable_raise.
Qed.

Lemma stable_User_objects_filter_iexact (name alias : string) :
  stable f (User_objects_filter_iexact name alias).
Proof.
  unfold User_objects_filter_iexact. destruct (User_column name).
  - intros w. reflexivity.
  - apply stable_raise.
Qed.

Lemma stable_py_int (s : string) : stable f (py_int s).
Proof. unfold py_int. destruct (PyStr.int s); [apply stable_ret|apply stable_raise]. Qed.

Lemma stable_obtain_token (ty : TokenType) (u : User) (name alias k : string) :
  stable f (obtain_token cfg ty u name alias k).
Proof.
  clear f_age.
  unfold obtain_token. destruct (PASSWORDLESS_TEST_MODE cfg) eqn:Hm.
  - apply stable_bind; [apply stable_py_int|]. intros n.
    repeat match goal with
           | |- stable _ (if ?b then _ else _) => destruct b
           end; (apply stable_ret || apply stable_raise).
  - destruct f_token_query as [H|H]; [congruence|].
    apply stable_bind; [|intros t; apply stable_ret].
    unfold CallbackToken_objects_get. apply stable_bind.
    + intros w. apply H.
    + intros _ w. reflexivity.
Qed.

Lemma stable_token_age_validator (value : string) :
  stable f (token_age_validator cfg utils value).
Proof.
  clear f_token_query.
  unfold token_age_validator. destruct (PASSWORDLESS_TEST_MODE cfg) eqn:Hm.
  - apply stable_bind; [apply stable_py_int|]. intros n.
    destruct (py_in n _); apply stable_ret.
  - destruct f_age as [H|H]; [congruence|].
    apply stable_bind; [apply stable_call, H|]. intros b.
    destruct (negb b); [apply stable_raise|apply stable_ret].
Qed.

Lemma stable_collect {A} (validator : M A) :
  stable f validator -> stable f (collect validator).
Proof.
  intros H w. unfold collect. specialize (H w).
  destruct (validator w) as [[v|e] w1]; simpl in *; [exact H|].
  destruct e; exact H.
Qed.

Lemma stable_CharField (required : option string) (blank : string)
    (run_validators : string -> M (list string)) (data : option string) :
  (forall v, stable f (run_validators v)) ->
  stable f (CharField_run_validation required blank run_validators data).
Proof.
  intros H. unfold CharField_run_validation.
  destruct data as [d|]; [|destruct required; apply stable_ret].
  destruct (PyStr.strip d); [apply stable_ret|].
  apply stable_bind; [apply H|]. intros [|m l]; apply stable_ret.
Qed.

Lemma stable_TokenField (data : option string) :
  stable f (TokenField cfg utils data).
Proof.
  apply stable_CharField. intros v. unfold TokenField_run_validators.
  apply stable_bind; [apply stable_collect, stable_token_age_validator|].
  intros l. apply stable_ret.
Qed.

Lemma stable_to_internal_value (django : Django) (data : Data) :
  stable f (to_internal_value cfg django utils data).
Proof.
  unfold to_internal_value, EmailField, MobileField.
  apply stable_bind; [apply stable_CharField; intros v; apply stable_ret|]. intros e.
  apply stable_bind; [apply stable_CharField; intros v; apply stable_ret|]. intros m.
  apply stable_bind; [apply stable_TokenField|]. intros t.
  destruct (field_errors _); destruct t; (apply stable_ret || apply stable_raise).
Qed.

Lemma stable_related_user (t : TokenObject) : stable f (related_user t).
Proof.
  unfold related_user. destruct (snd t); [apply stable_ret|apply stable_User_objects_get].
Qed.

Ltac stable_step :=
  match goal with
  | |- stable _ (bind _ _) => apply stable_bind
  | |- stable _ (try_except _ _) => apply stable_try_except
  | |- stable _ (ret _) => apply stable_ret
  | |- stable _ (raise _) => apply stable_raise
  | |- stable _ (liftR _) => apply stable_liftR
  | |- stable _ (finish _) => unfold finish
  | |- stable _ (logger_debug _) => apply stable_emit; reflexivity
  | |- stable _ (call (verify_user_alias _ _ _)) => apply stable_call, f_verify
  | |- stable _ (call (change_user_alias _ _ _ _)) => apply stable_call, f_change
  | |- stable _ (User_objects_get _) => apply stable_User_objects_get
  | |- stable _ (User_objects_get_iexact _ _) => apply stable_User_objects_get_iexact
  | |- stable _ (User_objects_get_id_iexact _ _ _) => apply stable_User_objects_get_id_iexact
  | |- stable _ (User_objects_filter_iexact _ _) => apply stable_User_objects_filter_iexact
  | |- stable _ (obtain_token _ _ _ _ _ _) => apply stable_obtain_token
  | |- stable _ (related_user _) => apply stable_related_user
  | |- stable _ (let (_, _) := ?p in _) => destruct p
  | |- stable _ (if ?b then _ else _) => destruct b
  | |- stable _ (match ?x with _ => _ end) => destruct x
  | |- forall _, _ => intro
  | H : Some _ = Some _ |- _ => injection H as <-
  | H : None = Some _ |- _ => discriminate H
  | H : match ?e with _ => _ end = Some _ |- _ => destruct e
  end.

Lemma stable_auth_validate (attrs : Attrs) :
  stable f (CallbackTokenAuthSerializer_validate cfg utils attrs).
Proof. unfold CallbackTokenAuthSerializer_validate. repeat stable_step. Qed.

Lemma stable_verify_validate (context : Context) (attrs : Attrs) :
  stable f (CallbackTokenVerificationSerializer_validate cfg utils context attrs).
Proof. unfold CallbackTokenVerificationSerializer_validate. repeat stable_step. Qed.

Lemma stable_change_validate (context : Context) (attrs : Attrs) :
  stable f (CallbackTokenChangeSerializer_validate cfg utils context attrs).
Proof. unfold CallbackTokenChangeSerializer_validate. repeat stable_step. Qed.

Lemma stable_run_validation (django : Django) (validate : Attrs -> M Attrs) (data : Data) :
  (forall a, stable f (validate a)) ->
  stable f (run_validation cfg django utils validate data).
Proof.
  intros H. unfold run_validation. apply stable_bind; [apply stable_to_internal_value|].
  intros a. apply stable_try_except; [apply H|].
  intros e k Hk. destruct e; try discriminate Hk. injection Hk as <-. apply stable_raise.
Qed.

End Stability.

Lemma stable_submit {X} (f : World -> X) (cfg : Settings) (django : Django) (utils : Utils)
    (ty : TokenType) (context : Context) (data : Data) :
  (forall w e, is_token_query e = false -> f (logged w e) = f w) ->
  (PASSWORDLESS_TEST_MODE cfg = true \/ forall w, f (logged w TokenQuery) = f w) ->
  (PASSWORDLESS_TEST_MODE cfg = true
   \/ forall v w, f (snd (validate_token_age utils v w)) = f w) ->
  (forall u t w, f (snd (verify_user_alias utils u t w)) = f w) ->
  (forall u t l w, f (snd (change_user_alias utils u t l w)) = f w) ->
  stable f (submit cfg django utils ty context data).
Proof.
  intros H1 H2 H3 H4 H5.
  destruct ty; simpl; apply stable_run_validation; auto; intros a.
  - now apply stable_auth_validate.
  - now apply stable_verify_validate.
  - now apply stable_change_validate.
Qed.

(** ** Single use *)

Lemma spec_utils_keep_tokens (cfg : Settings) : utils_keep_tokens (spec_utils cfg).
Proof. repeat split. Qed.

(** C2 (as amended): token validation never deactivates the matched token.
    When the helpers leave the token table alone, as the specified age
    validator and alias mutators do, the token table after a validation of
    any type, accepted or not, is the table before it. *)
Theorem validation_keeps_tokens
    (cfg : Settings) (django : Django) (utils : Utils) (ty : TokenType) (context : Context)
    (data : Data) (w : World) :
  utils_keep_tokens utils ->
  tokens (snd (submit cfg django utils ty context data w)) = tokens w.
Proof.
  intros [Hage [Hverify Hchange]].
  apply (stable_submit tokens); auto.
Qed.

Lemma validation_keeps_tokens_witness :
  tokens (snd (submit settings0 django0 (spec_utils settings0) TOKEN_TYPE_AUTH
                 (mkContext None None)
                 (request_data (Some "alice@example.com") None "123456") world0))
  = tokens world0.
Proof.
  apply validation_keeps_tokens. repeat split.
Defined.

(** C2 (counterexample): an accepted AUTH submission leaves its token
    active, and the same submission is accepted a second time; so is a
    VERIFY submission. *)
Lemma token_accepted_twice :
  let utils := spec_utils settings0 in
  let auth := request_data (Some "alice@example.com") None "123456" in
  let first :=
    submit settings0 django0 utils TOKEN_TYPE_AUTH (mkContext None None) auth world0 in
  let second :=
    submit settings0 django0 utils TOKEN_TYPE_AUTH (mkContext None None) auth (snd first) in
  let verify := request_data (Some "bob@example.com") None "222222" in
  let first' :=
    submit settings0 django0 utils TOKEN_TYPE_VERIFY (mkContext None (Some 2)) verify world0 in
  let second' :=
    submit settings0 django0 utils TOKEN_TYPE_VERIFY (mkContext None (Some 2)) verify
      (snd first') in
  accepted first = true
  /\ map token_is_active (tokens (snd first)) = [true; true; true; true]
  /\ accepted second = true
  /\ accepted first' = true
  /\ accepted second' = true.
Proof. repeat split; reflexivity. Qed.

(** ** What an accepted submission went through *)

Ltac inv_run H :=
  repeat match type of H with
         | context [match ?x with _ => _ end] =>
             lazymatch x with
             | context [match _ with _ => _ end] => fail
             | _ => destruct x eqn:?; try discriminate H
             end
         end.

Lemma auth_validate_accepted
    (cfg : Settings) (utils : Utils) (attrs a : Attrs) (w w' : World) :
  CallbackTokenAuthSerializer_validate cfg utils attrs w = (Return a, w') ->
  exists attrs1 name alias user token token_user w1 w2 w3,
    AbstractBaseCallbackTokenSerializer_validate cfg attrs = Return attrs1
    /\ validate_alias cfg attrs1 = Return (Some (name, alias))
    /\ User_objects_get_iexact name alias w = (Return user, w1)
    /\ obtain_token cfg TOKEN_TYPE_AUTH user name alias (a_token attrs1) w1 = (Return token, w2)
    /\ related_user token w2 = (Return token_user, w3)
    /\ is_active user = true.
Proof.
  unfold CallbackTokenAuthSerializer_validate, try_except, bind, liftR, unpack, call, ret, raise.
  intros H. inv_run H; subst.
  all: repeat match goal with
              | H : (_, _) = (_, _) |- _ => injection H as ? ?; subst
              | H : Return _ = Return _ |- _ => injection H as ?; subst
              | H : Some _ = Some _ |- _ => injection H as ?; subst
              | H : negb ?b = false |- _ => apply negb_false_iff in H
              end.
  all: try discriminate.
  all: do 9 eexists; repeat split; eauto.
Qed.

Ltac inv_clean :=
  repeat match goal with
         | H : (_, _) = (_, _) |- _ => injection H as ? ?; subst
         | H : Return _ = Return _ |- _ => injection H as ?; subst
         | H : Some _ = Some _ |- _ => injection H as ?; subst
         | H : Returned _ = Returned _ |- _ => injection H as ?; subst
         | H : negb ?b = false |- _ => apply negb_false_iff in H
         | H : _ && _ = true |- _ => apply andb_true_iff in H; destruct H
         end.

Lemma verify_validate_accepted
    (cfg : Settings) (utils : Utils) (context : Context) (attrs a : Attrs) (w w' : World) :
  CallbackTokenVerificationSerializer_validate cfg utils context attrs w = (Return a, w') ->
  exists attrs1 name alias user token token_user w1 w2 w3,
    AbstractBaseCallbackTokenSerializer_validate cfg attrs = Return attrs1
    /\ validate_alias cfg attrs1 = Return (Some (name, alias))
    /\ User_objects_get_id_iexact (ctx_user_id context) name alias w = (Return user, w1)
    /\ obtain_token cfg TOKEN_TYPE_VERIFY user name alias (a_token attrs1) w1
       = (Return token, w2)
    /\ related_user token w2 = (Return token_user, w3).
Proof.
  unfold CallbackTokenVerificationSerializer_validate, try_except, bind, liftR, unpack,
    call, ret, raise, finish, logger_debug, emit.
  intros H. inv_run H; subst; inv_clean; try discriminate.
  all: do 9 eexists; repeat split; eauto.
Qed.

Lemma change_validate_accepted
    (cfg : Settings) (utils : Utils) (context : Context) (attrs a : Attrs) (w w' : World) :
  CallbackTokenChangeSerializer_validate cfg utils context attrs w = (Return a, w') ->
  exists attrs1 name alias user current token token_user w1 w2 w3,
    AbstractBaseCallbackTokenSerializer_validate cfg attrs = Return attrs1
    /\ validate_alias cfg attrs1 = Return (Some (name, alias))
    /\ User_objects_get (id_is (ctx_user_id context)) w = (Return user, w1)
    /\ getattr user name = Some current
    /\ alias_eq alias current = false
    /\ obtain_token cfg TOKEN_TYPE_CHANGE user name alias (a_token attrs1) w1
       = (Return token, w2)
    /\ related_user token w2 = (Return token_user, w3)
    /\ String.eqb (to_alias (fst token)) alias = true.
Proof.
  unfold CallbackTokenChangeSerializer_validate, try_except, bind, liftR, unpack,
    call, ret, raise, finish, logger_debug, emit.
  intros H. inv_run H; subst; inv_clean; try discriminate.
  all: do 10 eexists; repeat split; eauto.
Qed.

Lemma User_objects_get_iexact_inv (name alias : string) (w w1 : World) (u : User) :
  User_objects_get_iexact name alias w = (Return u, w1) ->
  exists col, User_column name = Some col
              /\ filter (iexact_col col alias) (users w) = [u]
              /\ w1 = logged w UserQuery.
Proof.
  unfold User_objects_get_iexact. destruct (User_column name) as [col|]; [|discriminate].
  intros H. apply User_objects_get_inv in H. now exists col.
Qed.

Lemma User_objects_get_id_iexact_inv (i : option Z) (name alias : string)
    (w w1 : World) (u : User) :
  User_objects_get_id_iexact i name alias w = (Return u, w1) ->
  exists col, User_column name = Some col
              /\ filter (fun r => id_is i r && iexact_col col alias r) (users w) = [u]
              /\ w1 = logged w UserQuery.
Proof.
  unfold User_objects_get_id_iexact. destruct (User_column name) as [col|]; [|discriminate].
  intros H. apply User_objects_get_inv in H. now exists col.
Qed.

(** *** The fields *)

Lemma check_nil (ok : bool) (msg : string) : check ok msg = [] <-> ok = true.
Proof. destruct ok; simpl; split; congruence. Qed.

Lemma CharField_value (required : option string) (blank : string)
    (run_validators : string -> M (list string)) (data : option string)
    (w w1 : World) (v : string) :
  CharField_run_validation required blank run_validators data w = (Return (Value v), w1) ->
  exists raw, data = Some raw /\ v = PyStr.strip raw /\ v <> EmptyString
              /\ run_validators v w = (Return [], w1).
Proof.
  unfold CharField_run_validation. destruct data as [raw|].
  2:{ destruct required; discriminate. }
  destruct (PyStr.strip raw) as [|c r] eqn:E; [discriminate|].
  unfold bind, ret.
  destruct (run_validators (String c r) w) as [[l|e] w2] eqn:R; [|discriminate].
  destruct l; [|discriminate]. intros H. injection H as <- <-.
  exists raw. repeat split; auto. discriminate.
Qed.

Lemma CharField_skipped (required : option string) (blank : string)
    (run_validators : string -> M (list string)) (data : option string) (w w1 : World) :
  CharField_run_validation required blank run_validators data w = (Return Skipped, w1) ->
  data = None.
Proof.
  unfold CharField_run_validation. destruct data as [raw|]; [|reflexivity].
  destruct (PyStr.strip raw) as [|c r]; [discriminate|].
  unfold bind, ret.
  destruct (run_validators (String c r) w) as [[l|e] w2]; [|discriminate].
  destruct l; discriminate.
Qed.

Lemma CharField_raises (required : option string) (blank : string)
    (run_validators : string -> M (list string)) (data : option string)
    (w w1 : World) (e : exn) :
  CharField_run_validation required blank run_validators data w = (Raise e, w1) ->
  exists v, run_validators v w = (Raise e, w1).
Proof.
  unfold CharField_run_validation. destruct data as [raw|].
  2:{ destruct required; discriminate. }
  destruct (PyStr.strip raw) as [|c r]; [discriminate|].
  unfold bind, ret.
  destruct (run_validators (String c r) w) as [[l|e0] w2] eqn:R.
  - destruct l; discriminate.
  - intros H. injection H as <- <-. eauto.
Qed.

(** A field whose validators do not touch the world and do not raise has a
    result and leaves the world alone. *)
Lemma CharField_pure (required : option string) (blank : string)
    (validators : string -> list string) (data : option string) (w : World) :
  exists r, CharField_run_validation required blank (fun v => ret (validators v)) data w
            = (Return r, w).
Proof.
  unfold CharField_run_validation. destruct data as [raw|].
  2:{ destruct required; eexists; reflexivity. }
  destruct (PyStr.strip raw) as [|c r]; [eexists; reflexivity|].
  unfold bind, ret. destruct (validators (String c r)); eexists; reflexivity.
Qed.

Lemma EmailField_value (django : Django) (required : option string) (data : option string)
    (w w1 : World) (v : string) :
  EmailField django required data w = (Return (Value v), w1) ->
  field_accepts (EmailValidator django) data (Some v).
Proof.
  intros H. apply CharField_value in H. destruct H as (raw & -> & -> & Hne & H).
  unfold ret in H. injection H as H _. apply app_eq_nil in H. destruct H as [_ H].
  apply check_nil in H. simpl. auto.
Qed.

Lemma MobileField_value (required : option string) (data : option string)
    (w w1 : World) (v : string) :
  MobileField required data w = (Return (Value v), w1) ->
  field_accepts (fun m => (length m <=? 17)%nat) data (Some v).
Proof.
  intros H. apply CharField_value in H. destruct H as (raw & -> & -> & Hne & H).
  unfold ret in H. injection H as H _. apply app_eq_nil in H. destruct H as [H _].
  apply check_nil in H. simpl. auto.
Qed.

Lemma collect_nil {A} (validator : M A) (w w1 : World) :
  collect validator w = (Return [], w1) -> exists x, validator w = (Return x, w1).
Proof.
  unfold collect. destruct (validator w) as [[x|e] w2].
  - intros H. injection H as <-. now exists x.
  - destruct e; discriminate.
Qed.

Lemma TokenField_value (cfg : Settings) (utils : Utils) (data : option string)
    (w w1 : World) (v : string) :
  TokenField cfg utils data w = (Return (Value v), w1) ->
  exists raw x, data = Some raw /\ v = PyStr.strip raw /\ v <> EmptyString
                /\ token_age_validator cfg utils v w = (Return x, w1)
                /\ length v = TOKEN_LENGTH cfg.
Proof.
  intros H. apply CharField_value in H. destruct H as (raw & -> & -> & Hne & H).
  unfold TokenField_run_validators, bind, ret in H.
  destruct (collect _ w) as [[l|e] w2] eqn:C; [|discriminate].
  injection H as H <-. apply app_eq_nil in H. destruct H as [-> H].
  apply app_eq_nil in H. destruct H as [Hmax H].
  apply app_eq_nil in H. destruct H as [Hmin _].
  apply check_nil, Nat.leb_le in Hmax. apply check_nil, Nat.leb_le in Hmin.
  apply collect_nil in C. destruct C as [x C].
  exists raw, x. repeat split; auto. lia.
Qed.

Lemma to_internal_value_unfold (cfg : Settings) (django : Django) (utils : Utils)
    (data : Data) (w : World) :
  exists e m,
    EmailField django None (d_email data) w = (Return e, w)
    /\ MobileField None (d_mobile data) w = (Return m, w)
    /\ to_internal_value cfg django utils data w
       = bind (TokenField cfg utils (d_token data))
           (fun t => match field_errors [("email", e); ("mobile", m); ("token", t)], t with
                     | [], Value token =>
                         ret (mkAttrs (field_value e) (field_value m) token None)
                     | errors, _ => raise (FieldErrors errors)
                     end) w.
Proof.
  destruct (CharField_pure None msg_blank
              (fun value => (ProhibitNullCharactersValidator value
                             ++ check (EmailValidator django value) msg_invalid_email)%list)
              (d_email data) w) as [e He].
  destruct (CharField_pure None msg_blank
              (fun value => (MaxLengthValidator 17 (msg_max_length 17) value
                             ++ ProhibitNullCharactersValidator value)%list)
              (d_mobile data) w) as [m Hm].
  exists e, m. split; [exact He|]. split; [exact Hm|].
  unfold to_internal_value.
  unfold bind at 1. unfold EmailField. rewrite He.
  unfold bind at 1. unfold MobileField. rewrite Hm. reflexivity.
Qed.

(** What the fields accepted: the token is the trimmed entry, it has the
    configured length and passed [token_age_validator]; an alias is the
    trimmed entry too, not blank, and passed the checks of its field. *)
Lemma to_internal_value_inv (cfg : Settings) (django : Django) (utils : Utils)
    (data : Data) (w w1 : World) (attrs : Attrs) :
  to_internal_value cfg django utils data w = (Return attrs, w1) ->
  field_accepts (EmailValidator django) (d_email data) (a_email attrs)
  /\ field_accepts (fun m => (length m <=? 17)%nat) (d_mobile data) (a_mobile attrs)
  /\ a_user attrs = None
  /\ exists raw x,
       d_token data = Some raw /\ a_token attrs = PyStr.strip raw
       /\ a_token attrs <> EmptyString
       /\ token_age_validator cfg utils (a_token attrs) w = (Return x, w1)
       /\ length (a_token attrs) = TOKEN_LENGTH cfg.
Proof.
  destruct (to_internal_value_unfold cfg django utils data w) as (e & m & He & Hm & ->).
  unfold bind.
  destruct (TokenField cfg utils (d_token data) w) as [[t|x] w2] eqn:Ht; [|discriminate].
  destruct (field_errors _) as [|err errs] eqn:Herr; [|discriminate].
  destruct t as [|token|msgs]; try discriminate.
  unfold ret. intros H. injection H as <- <-. simpl.
  apply TokenField_value in Ht.
  split; [|split; [|split; [reflexivity|exact Ht]]].
  - destruct e as [|v|msgs]; simpl in *; try discriminate.
    + apply CharField_skipped in He. now rewrite He.
    + now apply EmailField_value in He.
  - destruct m as [|v|msgs]; simpl in *.
    + apply CharField_skipped in Hm. now rewrite Hm.
    + now apply MobileField_value in Hm.
    + destruct e; discriminate.
Qed.

(** A token the field refused makes the submission fail with the messages of
    the field under [token]. *)
Lemma to_internal_value_token_errors (cfg : Settings) (django : Django) (utils : Utils)
    (data : Data) (w w1 : World) (msgs : list string) :
  TokenField cfg utils (d_token data) w = (Return (Errors msgs), w1) ->
  exists errors, to_internal_value cfg django utils data w = (Raise (FieldErrors errors), w1)
                 /\ In ("token", msgs) errors.
Proof.
  intros Ht.
  destruct (to_internal_value_unfold cfg django utils data w) as (e & m & He & Hm & ->).
  unfold bind. rewrite Ht.
  assert (Hin : In ("token", msgs) (field_errors [("email", e); ("mobile", m);
                                                  ("token", Errors msgs)])).
  { unfold field_errors. apply in_flat_map. exists ("token", Errors msgs).
    split; [now right; right; left|now left]. }
  destruct (field_errors _) as [|err errs]; [contradiction|].
  eexists. split; [reflexivity|exact Hin].
Qed.

(** Outside test mode the fields return or fail with their messages. *)
Lemma to_internal_value_raises (cfg : Settings) (django : Django) (utils : Utils)
    (data : Data) (w w1 : World) (e : exn) :
  to_internal_value cfg django utils data w = (Raise e, w1) ->
  (exists errors, e = FieldErrors errors)
  \/ (PASSWORDLESS_TEST_MODE cfg = true /\ e = ValueError /\ w1 = w).
Proof.
  destruct (to_internal_value_unfold cfg django utils data w) as (em & m & He & Hm & ->).
  unfold bind.
  destruct (TokenField cfg utils (d_token data) w) as [[t|x] w2] eqn:Ht.
  - destruct (field_errors _) as [|err errs]; [destruct t|]; unfold ret, raise;
      intros H; try discriminate H; injection H as <- _; left; eauto.
  - intros H. injection H as <- <-. right.
    apply CharField_raises in Ht. destruct Ht as [v Ht].
    unfold TokenField_run_validators, bind in Ht.
    destruct (collect _ w) as [[l|e0] w3] eqn:C; [discriminate|].
    injection Ht as -> ->.
    unfold collect, token_age_validator, py_int, call, bind, ret, raise in C.
    destruct (PASSWORDLESS_TEST_MODE cfg).
    + destruct (PyStr.int v).
      * destruct (py_in _ _); discriminate.
      * injection C as <- <-. auto.
    + destruct (validate_token_age utils v w) as [[|] w4]; simpl in C; discriminate.
Qed.

Lemma submit_unfold (cfg : Settings) (django : Django) (utils : Utils) (ty : TokenType)
    (context : Context) (data : Data) :
  submit cfg django utils ty context data =
  bind (to_internal_value cfg django utils data)
       (fun attrs =>
          try_except
            match ty with
            | TOKEN_TYPE_AUTH => CallbackTokenAuthSerializer_validate cfg utils attrs
            | TOKEN_TYPE_VERIFY =>
                CallbackTokenVerificationSerializer_validate cfg utils context attrs
            | TOKEN_TYPE_CHANGE =>
                CallbackTokenChangeSerializer_validate cfg utils context attrs
            end
            as_serializer_error).
Proof. now destruct ty. Qed.


Lemma TokenField_refused (cfg : Settings) (utils : Utils) (raw : string) (w w1 : World) :
  PASSWORDLESS_TEST_MODE cfg = false ->
  PyStr.strip raw <> EmptyString ->
  validate_token_age utils (PyStr.strip raw) w = (false, w1) ->
  exists rest,
    TokenField cfg utils (Some raw) w = (Return (Errors (msg_token_not_valid :: rest)), w1).
Proof.
  intros Hm Hne Hage. unfold TokenField, CharField_run_validation.
  destruct (PyStr.strip raw) as [|c r] eqn:E; [congruence|].
  unfold TokenField_run_validators, collect, token_age_validator, call, bind, ret, raise.
  rewrite Hm, Hage. simpl. eexists. reflexivity.
Qed.

(** What [token_age_validator] stands for in test mode. *)
Lemma token_age_validator_test (cfg : Settings) (utils : Utils) (v : string)
    (x : pyval) (w w1 : World) :
  PASSWORDLESS_TEST_MODE cfg = true ->
  token_age_validator cfg utils v w = (Return x, w1) ->
  w1 = w /\ exists n, PyStr.int v = Some n.
Proof.
  unfold token_age_validator, py_int, bind, ret, raise. intros ->.
  destruct (PyStr.int v) as [n|]; [|discriminate].
  destruct (py_in n _); intros H; injection H as _ <-; eauto.
Qed.

Lemma converted_inv (m : M Attrs) (w w' : World) (a : Attrs) :
  try_except m as_serializer_error w = (Return a, w') -> m w = (Return a, w').
Proof.
  unfold try_except. destruct (m w) as [[x|e] w1]; [easy|].
  destruct e; simpl; discriminate.
Qed.

Lemma converted_fst (m : M Attrs) (w : World) (a : Attrs) :
  fst (m w) = Return a -> fst (try_except m as_serializer_error w) = Return a.
Proof.
  unfold try_except. destruct (m w) as [[x|e] w1]; simpl; [easy|discriminate].
Qed.

Lemma accepted_inv {A} (r : Result A * World) :
  accepted r = true -> exists a w, r = (Return a, w).
Proof. destruct r as [[a|e] w]; [|discriminate]. intros _. now exists a, w. Qed.


(** ** Token validation outside test mode *)






(** ** Alias resolution in a submission *)

Lemma TokenField_test_world (cfg : Settings) (utils : Utils) (data : option string)
    (w : World) :
  PASSWORDLESS_TEST_MODE cfg = true -> snd (TokenField cfg utils data w) = w.
Proof.
  intros Hmode. unfold TokenField, CharField_run_validation.
  destruct data as [raw|]; [|reflexivity].
  destruct (PyStr.strip raw) as [|c r]; [reflexivity|].
  unfold TokenField_run_validators, collect, token_age_validator, py_int, bind, ret, raise.
  rewrite Hmode. destruct (PyStr.int (String c r)) as [n|]; [|reflexivity].
  destruct (py_in n _); cbn [app]; destruct (_ ++ _)%list; reflexivity.
Qed.

Lemma to_internal_value_test_world (cfg : Settings) (django : Django) (utils : Utils)
    (data : Data) (w : World) :
  PASSWORDLESS_TEST_MODE cfg = true ->
  snd (to_internal_value cfg django utils data w) = w.
Proof.
  intros Hmode.
  destruct (to_internal_value_unfold cfg django utils data w) as (e & m & _ & _ & ->).
  unfold bind. pose proof (TokenField_test_world cfg utils (d_token data) w Hmode) as H.
  destruct (TokenField cfg utils (d_token data) w) as [[t|x] w1]; simpl in H; subst w1;
    [|reflexivity].
  destruct (field_errors _); destruct t; reflexivity.
Qed.

(** An alias the fields handed on is a non-empty string exactly when the
    entry was there, and then the entry was not blank. *)
Lemma field_accepts_present (ok : string -> bool) (data value : option string) :
  field_accepts ok data value ->
  present (as_true value) = present data /\ present (as_true value) = given data.
Proof.
  unfold field_accepts, given. destruct data as [raw|].
  - intros (-> & Hne & _). destruct (PyStr.strip raw); [congruence|]. now split.
  - intros ->. now split.
Qed.

(** With both aliases or neither, each [validate] stops where it started. *)
Lemma validate_without_alias
    (cfg : Settings) (utils : Utils) (ty : TokenType) (context : Context)
    (attrs : Attrs) (w : World) :
  present (as_true (a_email attrs)) = present (as_true (a_mobile attrs)) ->
  exists e,
    match ty with
    | TOKEN_TYPE_AUTH => CallbackTokenAuthSerializer_validate cfg utils attrs
    | TOKEN_TYPE_VERIFY => CallbackTokenVerificationSerializer_validate cfg utils context attrs
    | TOKEN_TYPE_CHANGE => CallbackTokenChangeSerializer_validate cfg utils context attrs
    end w = (Raise e, w)
    /\ (is_validation_error e = true
        \/ (e = IndexError
            /\ exists m, a_mobile attrs = Some m
                         /\ standardise_and_check cfg m = Raise IndexError)).
Proof.
  intros Hp.
  destruct ty;
    unfold CallbackTokenAuthSerializer_validate,
      CallbackTokenVerificationSerializer_validate,
      CallbackTokenChangeSerializer_validate, try_except, bind, liftR;
    (destruct (AbstractBaseCallbackTokenSerializer_validate cfg attrs) as [attrs1|e] eqn:E;
     [ destruct (base_validate_keeps _ _ _ E) as [He [_ Hm]];
       rewrite (validate_alias_both_or_neither cfg attrs1) by (now rewrite He, Hm);
       simpl; eexists; split; [reflexivity|now left]
     | unfold AbstractBaseCallbackTokenSerializer_validate in E;
       destruct (as_true (a_mobile attrs)) as [m|] eqn:Em; [|discriminate];
       destruct (standardise_and_check cfg m) as [m'|e'] eqn:Es; [discriminate|];
       injection E as <-;
       destruct (standardise_and_check_raises _ _ _ Es) as [-> | ->];
       simpl; eexists; (split; [reflexivity|]);
       [ right; split; [reflexivity|]; exists m; split; [|exact Es];
         destruct (a_mobile attrs) as [[|c r]|]; try discriminate; now injection Em as <-
       | now left ] ]).
Qed.

(** C6 (as amended): when both [email] and [mobile] are given, or neither
    is, a token submission of any type is never accepted, and [validate]
    makes no access to the user table or the token table: the world after
    the submission is the world the fields left, which in test mode is the
    world before it.  What the fields do before alias resolution is run the
    age validator on the token.  Once the fields accepted the data, alias
    resolution raises a [ValidationError], and the submission is refused
    with a validation error unless standardising the mobile number fails on
    an emptied string.  When exactly one alias is given, alias resolution
    returns the configured field name with the alias, trimmed by the field
    and, for a mobile number, standardised. *)
Theorem alias_resolution
    (cfg : Settings) (django : Django) (utils : Utils) (ty : TokenType) (context : Context)
    (data : Data) (w : World) :
  let r := submit cfg django utils ty context data w in
  let fields := to_internal_value cfg django utils data w in
  (present (d_email data) = present (d_mobile data)
   \/ given (d_email data) = given (d_mobile data) ->
   accepted r = false
   /\ snd r = snd fields
   /\ (PASSWORDLESS_TEST_MODE cfg = true -> snd r = w)
   /\ forall attrs0,
        fst fields = Return attrs0 ->
        validate_alias cfg attrs0 = Raise (ValidationError default_detail)
        /\ ((forall m, a_mobile attrs0 = Some m ->
                       standardise_and_check cfg m <> Raise IndexError) ->
            rejected r = true))
  /\ (forall attrs0 attrs1,
        fst fields = Return attrs0 ->
        AbstractBaseCallbackTokenSerializer_validate cfg attrs0 = Return attrs1 ->
        (forall e, a_email attrs0 = Some e -> a_mobile attrs0 = None ->
                   option_map PyStr.strip (d_email data) = Some e
                   /\ validate_alias cfg attrs1
                      = Return (Some (PASSWORDLESS_USER_EMAIL_FIELD_NAME cfg, e)))
        /\ (forall m, a_email attrs0 = None -> a_mobile attrs0 = Some m ->
                      option_map PyStr.strip (d_mobile data) = Some m
                      /\ exists m1,
                           standardise_and_check cfg m = Return m1
                           /\ validate_alias cfg attrs1
                              = Return (Some (PASSWORDLESS_USER_MOBILE_FIELD_NAME cfg, m1)))).
Proof.
  intros r fields. subst r fields. rewrite submit_unfold. split.
  - intros Hboth. unfold bind.
    pose proof (to_internal_value_test_world cfg django utils data w) as Htest.
    destruct (to_internal_value cfg django utils data w) as [[attrs0|e0] w1] eqn:Hf.
    2:{ simpl. split; [reflexivity|]. split; [reflexivity|]. split; [exact Htest|].
        intros a H. discriminate H. }
    pose proof (to_internal_value_inv _ _ _ _ _ _ _ Hf) as (He & Hm & _).
    apply field_accepts_present in He, Hm.
    destruct He as [He1 He2], Hm as [Hm1 Hm2].
    assert (Hp : present (as_true (a_email attrs0)) = present (as_true (a_mobile attrs0))).
    { destruct Hboth as [H|H]; congruence. }
    destruct (validate_without_alias cfg utils ty context attrs0 w1 Hp) as (e & Hrun & He).
    unfold try_except. rewrite Hrun.
    assert (Hw : forall x : Result Attrs * World,
               x = match as_serializer_error e with
                   | Some h => h w1
                   | None => (Raise e, w1)
                   end ->
               accepted x = false /\ snd x = w1
               /\ (is_validation_error e = true -> rejected x = true)).
    { intros x ->. destruct e; simpl; repeat split; auto. }
    destruct (Hw _ eq_refl) as (Ha & Hs & Hr).
    split; [exact Ha|]. split; [exact Hs|]. split.
    + intros Hmode. rewrite Hs. exact (Htest Hmode).
    + intros attrs0' H. simpl in H. injection H as <-.
      split; [now apply validate_alias_both_or_neither|].
      intros Hslip. destruct He as [He | (_ & m & Hmob & Hidx)]; [now apply Hr|].
      now destruct (Hslip m Hmob).
  - intros attrs0 attrs1 Hf Hbase.
    destruct (to_internal_value cfg django utils data w) as [[a|e0] w1] eqn:Hrun;
      [|discriminate Hf].
    simpl in Hf. injection Hf as ->.
    pose proof (to_internal_value_inv _ _ _ _ _ _ _ Hrun) as (He & Hm & _).
    split.
    + intros e Hemail Hmobile.
      unfold field_accepts in He. rewrite Hemail in He.
      destruct (d_email data) as [raw|]; [|discriminate He].
      destruct He as (He & Hne & _). injection He as ->.
      split; [reflexivity|].
      unfold AbstractBaseCallbackTokenSerializer_validate in Hbase.
      rewrite Hmobile in Hbase. simpl in Hbase. injection Hbase as <-.
      unfold validate_alias. rewrite Hemail, Hmobile.
      destruct (PyStr.strip raw); [congruence|reflexivity].
    + intros m Hemail Hmobile.
      unfold field_accepts in Hm. rewrite Hmobile in Hm.
      destruct (d_mobile data) as [raw|]; [|discriminate Hm].
      destruct Hm as (Hm & Hne & _). injection Hm as ->.
      split; [reflexivity|].
      unfold AbstractBaseCallbackTokenSerializer_validate in Hbase.
      rewrite Hmobile in Hbase.
      destruct (PyStr.strip raw) as [|c s] eqn:Es; [congruence|].
      simpl in Hbase.
      destruct (standardise_and_check cfg (String c s)) as [m1|e1] eqn:Estd; [|discriminate].
      injection Hbase as <-. exists m1. split; [reflexivity|].
      apply standardise_and_check_match, phone_regex_match_nonempty in Estd.
      destruct Estd as (c1 & r1 & ->).
      unfold validate_alias. simpl. now rewrite Hemail.
Qed.

Lemma alias_resolution_witness :
  (let r := submit test_settings django0 (spec_utils test_settings) TOKEN_TYPE_VERIFY
              (mkContext None (Some 2))
              (request_data (Some "bob@example.com") (Some "+15551234567") "123456")
              world0 in
   accepted r = false /\ snd r = world0)
  /\ (let r := submit settings0 django0 (spec_utils settings0) TOKEN_TYPE_AUTH
                 (mkContext None None) (request_data None None "123456") world0 in
      accepted r = false /\ rejected r = true)
  /\ validate_alias settings0 (payload None (Some "+15551234567") "123456")
     = Return (Some ("mobile", "+15551234567")).
Proof.
  split; [|split].
  - destruct (proj1 (alias_resolution test_settings django0 (spec_utils test_settings)
                       TOKEN_TYPE_VERIFY (mkContext None (Some 2))
                       (request_data (Some "bob@example.com") (Some "+15551234567") "123456")
                       world0) (or_introl eq_refl)) as (H1 & _ & H2 & _).
    split; [exact H1|exact (H2 eq_refl)].
  - destruct (proj1 (alias_resolution settings0 django0 (spec_utils settings0)
                       TOKEN_TYPE_AUTH (mkContext None None)
                       (request_data None None "123456") world0) (or_intror eq_refl))
      as (H1 & _ & _ & H2).
    split; [exact H1|].
    apply (H2 (payload None None "123456") eq_refl). intros m H. discriminate H.
  - destruct (proj2 (alias_resolution settings0 django0 (spec_utils settings0)
                       TOKEN_TYPE_AUTH (mkContext None None)
                       (request_data None (Some " +1 (555) 123-4567") "123456") world0)
                (payload None (Some "+1 (555) 123-4567") "123456")
                (payload None (Some "+15551234567") "123456") eq_refl eq_refl)
      as (_ & H).
    destruct (H "+1 (555) 123-4567" eq_refl eq_refl) as (_ & m1 & Hstd & Hval).
    vm_compute in Hstd. injection Hstd as <-. exact Hval.
Defined.

(** C6 (counterexample): outside test mode a submission with both aliases
    is refused by alias resolution after the token table has been queried:
    the age validator of the [token] field has run first. *)
Lemma alias_resolution_after_token_query :
  let r := submit settings0 django0 (spec_utils settings0) TOKEN_TYPE_AUTH
             (mkContext None None)
             (request_data (Some "alice@example.com") (Some "+15551234567") "123456")
             world0 in
  trace world0 = []
  /\ fst r = Raise (ValidationError msg_invalid_alias)
  /\ trace (snd r) = [TokenQuery].
Proof. repeat split; reflexivity. Qed.

(** ** What a refused AUTH submission reveals *)

Lemma User_objects_get_iexact_cases (name alias : string) (w : World) :
  match User_column name with
  | None => User_objects_get_iexact name alias w = (Raise FieldError, w)
  | Some col =>
      match filter (iexact_col col alias) (users w) with
      | [] => User_objects_get_iexact name alias w
              = (Raise User_DoesNotExist, logged w UserQuery)
      | [u] => User_objects_get_iexact name alias w = (Return u, logged w UserQuery)
      | _ :: _ :: _ => User_objects_get_iexact name alias w
                       = (Raise MultipleObjectsReturned, logged w UserQuery)
      end
  end.
Proof.
  unfold User_objects_get_iexact. destruct (User_column name) as [col|]; [|reflexivity].
  unfold User_objects_get, bind, emit, objects_get. simpl.
  now destruct (filter _ _) as [|u [|v l]].
Qed.

Lemma obtain_token_raises (cfg : Settings) (ty : TokenType) (u : User)
    (name alias k : string) (w w1 : World) (e : exn) :
  obtain_token cfg ty u name alias k w = (Raise e, w1) -> e <> User_DoesNotExist.
Proof.
  unfold obtain_token, py_int, CallbackToken_objects_get, objects_get, bind, emit, ret, raise.
  intros H. inv_run H; inv_clean; discriminate.
Qed.

Lemma obtain_token_users (cfg : Settings) (ty : TokenType) (u : User)
    (name alias k : string) (w : World) :
  users (snd (obtain_token cfg ty u name alias k w)) = users w.
Proof.
  assert (H : stable users (obtain_token cfg ty u name alias k)).
  { apply stable_obtain_token. right. reflexivity. }
  apply H.
Qed.

Lemma validate_alias_raises (cfg : Settings) (attrs : Attrs) (e : exn) :
  validate_alias cfg attrs = Raise e -> e = ValidationError default_detail.
Proof.
  unfold validate_alias.
  destruct (as_true (a_email attrs)), (as_true (a_mobile attrs));
    intros H; try discriminate H; now injection H as <-.
Qed.

Lemma validate_alias_name (cfg : Settings) (attrs : Attrs) (r : option (string * string)) :
  validate_alias cfg attrs = Return r ->
  exists name alias,
    r = Some (name, alias)
    /\ (name = PASSWORDLESS_USER_EMAIL_FIELD_NAME cfg
        \/ name = PASSWORDLESS_USER_MOBILE_FIELD_NAME cfg).
Proof.
  unfold validate_alias.
  destruct (as_true (a_email attrs)) as [e|], (as_true (a_mobile attrs)) as [m|];
    intros H; try discriminate H; injection H as <-; eauto.
Qed.

Lemma User_objects_get_found (p : User -> bool) (u : User) (w w' : World) (e : exn) :
  In u (users w) -> p u = true ->
  User_objects_get p w = (Raise e, w') -> e = MultipleObjectsReturned.
Proof.
  intros Hin Hp. unfold User_objects_get, bind, emit, objects_get. simpl.
  destruct (filter p (users w)) as [|x [|y l]] eqn:F; intros H; try discriminate H.
  - exfalso. assert (Hf : In u (filter p (users w))) by (apply filter_In; auto).
    now rewrite F in Hf.
  - now injection H as <- _.
Qed.

Lemma related_user_users (t : TokenObject) (w : World) :
  users (snd (related_user t w)) = users w.
Proof.
  assert (H : stable users (related_user t)).
  { apply stable_related_user. reflexivity. }
  apply H.
Qed.

(** [token.user] of the token obtained for a user of the table cannot fail
    for want of a row. *)
Lemma related_user_raises (cfg : Settings) (ty : TokenType) (u : User)
    (name alias k : string) (w w1 w2 : World) (t : TokenObject) (e : exn) :
  obtain_token cfg ty u name alias k w = (Return t, w1) ->
  In u (users w1) ->
  related_user t w1 = (Raise e, w2) -> e = MultipleObjectsReturned.
Proof.
  intros H Hin R. pose proof (obtain_token_matches _ _ _ _ _ _ _ _ _ H) as Hm.
  apply token_matches_spec in Hm. destruct Hm as [Hu _].
  unfold related_user in R. destruct (snd t); [discriminate|].
  apply (User_objects_get_found _ u _ _ _ Hin) in R; [exact R|].
  now apply Z.eqb_eq.
Qed.

(** What a refused AUTH [validate] says. *)
Lemma auth_validate_messages
    (cfg : Settings) (utils : Utils) (attrs : Attrs) (w w' : World) (e : exn) :
  CallbackTokenAuthSerializer_validate cfg utils attrs w = (Raise e, w') ->
  is_validation_error e = true ->
  (e = DjangoValidationError phone_regex_message /\ alias_matches cfg attrs w = None)
  \/ (e = ValidationError msg_invalid_user_alias /\ alias_matches cfg attrs w = Some [])
  \/ (e = ValidationError msg_invalid_alias /\ alias_matches cfg attrs w <> Some []).
Proof.
  unfold CallbackTokenAuthSerializer_validate, alias_matches.
  unfold try_except, bind at 1 2 3 4 5, liftR.
  destruct (AbstractBaseCallbackTokenSerializer_validate cfg attrs) as [attrs1|e0] eqn:Hbase.
  2:{ destruct (base_validate_raises _ _ _ Hbase) as [-> | ->];
        intros H Hv; injection H as <- _; [discriminate Hv|]. now left. }
  destruct (validate_alias cfg attrs1) as [[[name alias]|]|e0] eqn:Halias; cbn [unpack].
  3:{ rewrite (validate_alias_raises _ _ _ Halias). intros H _. injection H as <- _.
      right. right. split; [reflexivity|discriminate]. }
  2:{ intros H Hv. injection H as <- _. discriminate Hv. }
  pose proof (User_objects_get_iexact_cases name alias w) as Hget.
  destruct (User_column name) as [col|];
    [|rewrite Hget; intros H Hv; injection H as <- _; discriminate Hv].
  destruct (filter (iexact_col col alias) (users w)) as [|user [|user2 rest]] eqn:Hf;
    rewrite Hget.
  - intros H _. injection H as <- _. right. left. split; reflexivity.
  - intros H Hv. right. right.
    assert (Hin : In user (users w)) by apply (filter_singleton _ _ _ Hf).
    assert (Hgoal : e = ValidationError msg_invalid_alias); [|split; [exact Hgoal|discriminate]].
    destruct (obtain_token cfg TOKEN_TYPE_AUTH user name alias (a_token attrs1)
                (logged w UserQuery)) as [[token|e0] w2] eqn:Htok.
    + pose proof (obtain_token_users cfg TOKEN_TYPE_AUTH user name alias (a_token attrs1)
                    (logged w UserQuery)) as Hus.
      rewrite Htok in Hus. simpl in Hus. rewrite <- Hus in Hin.
      unfold bind at 1 in H.
      destruct (related_user token w2) as [[tu|e0] w3] eqn:Hrel.
      * pose proof (related_user_eq _ _ _ _ _ _ _ _ _ _ _ Htok Hrel) as Htu.
        pose proof (related_user_users token w2) as Hus'.
        rewrite Hrel in Hus'. simpl in Hus'. rewrite <- Hus' in Hin.
        rewrite Htu in H. unfold bind, call, ret, raise in H.
        destruct (negb (is_active user)); [now injection H as <- _|].
        destruct (_ || _); [|discriminate].
        destruct (User_objects_get _ w3) as [[user'|e0] w4] eqn:Hre.
        -- destruct (verify_user_alias utils user' (fst token) w4) as [[|] w5]; simpl in H;
             [discriminate|now injection H as <- _].
        -- apply (User_objects_get_found _ user _ _ _ Hin) in Hre.
           ++ subst e0. simpl in H. injection H as <- _. discriminate Hv.
           ++ unfold model_eq in Htu. apply Z.eqb_eq in Htu. now apply Z.eqb_eq.
      * rewrite (related_user_raises _ _ _ _ _ _ _ _ _ _ _ Htok Hin Hrel) in H.
        simpl in H. injection H as <- _. discriminate Hv.
    + pose proof (obtain_token_raises _ _ _ _ _ _ _ _ _ Htok) as Hne.
      destruct e0; simpl in H; injection H as <- _; try discriminate Hv;
        try reflexivity; try (now contradiction Hne).
      all: exfalso; revert Htok; clear; unfold obtain_token, py_int,
        CallbackToken_objects_get, objects_get, bind, emit, ret, raise;
        intros H; inv_run H; inv_clean; discriminate.
  - intros H Hv. injection H as <- _. discriminate Hv.
Qed.

(** C3 (as amended): what the caller of a refused AUTH submission is told
    falls into four classes.  A key that [validate_token_age] refuses, an
    expired one for instance, fails the [token] field with
    ["The token you entered isn't valid."], like every entry a field
    refuses fails that field with its messages.  Once the fields accepted
    the data, the error is the pattern's own message for a mobile number of
    the wrong format, ['Invalid user alias parameters provided.'] exactly
    when the alias resolves and no user matches it, and
    ['Invalid alias parameters provided.'] for every other refused check
    (both or no alias, no matching active token of the user, incorrect test
    code, disabled user, failed alias verification). *)
Theorem auth_rejection_messages
    (cfg : Settings) (django : Django) (utils : Utils) (context : Context)
    (data : Data) (w : World) :
  let r := submit cfg django utils TOKEN_TYPE_AUTH context data w in
  (PASSWORDLESS_TEST_MODE cfg = false ->
   forall raw w1,
     d_token data = Some raw -> PyStr.strip raw <> EmptyString ->
     validate_token_age utils (PyStr.strip raw) w = (false, w1) ->
     exists errors rest,
       r = (Raise (FieldErrors errors), w1)
       /\ In ("token", msg_token_not_valid :: rest) errors)
  /\ (forall e w',
         r = (Raise e, w') ->
         is_validation_error e = true ->
         (exists errors,
             e = FieldErrors errors
             /\ to_internal_value cfg django utils data w = (Raise e, w'))
         \/ exists attrs0 w1,
              to_internal_value cfg django utils data w = (Return attrs0, w1)
              /\ ((e = ValidationError phone_regex_message
                   /\ alias_matches cfg attrs0 w1 = None)
                  \/ (e = ValidationError msg_invalid_user_alias
                      /\ alias_matches cfg attrs0 w1 = Some [])
                  \/ (e = ValidationError msg_invalid_alias
                      /\ alias_matches cfg attrs0 w1 <> Some []))).
Proof.
  intros r. subst r. rewrite submit_unfold. split.
  - intros Hmode raw w1 Hraw Hne Hage.
    destruct (TokenField_refused cfg utils raw w w1 Hmode Hne Hage) as [rest Hf].
    rewrite <- Hraw in Hf.
    destruct (to_internal_value_token_errors cfg django utils data w w1 _ Hf)
      as (errors & Hrun & Hin).
    exists errors, rest. split; [|exact Hin].
    exact (bind_Raise _ _ _ _ _ Hrun).
  - intros e w'. unfold bind.
    destruct (to_internal_value cfg django utils data w) as [[attrs0|e0] w1] eqn:Hrun.
    + intros H Hv. right. exists attrs0, w1. split; [reflexivity|].
      unfold try_except in H.
      destruct (CallbackTokenAuthSerializer_validate cfg utils attrs0 w1)
        as [[a|e1] w2] eqn:Hval; [discriminate|].
      assert (Hconv : e1 = e \/ exists m, e1 = DjangoValidationError m
                                          /\ e = ValidationError m).
      { destruct e1; simpl in H; injection H as <- _; eauto. }
      destruct Hconv as [-> | (m & -> & ->)].
      * destruct (auth_validate_messages _ _ _ _ _ _ Hval Hv) as [[-> _]|[H1|H1]]; auto.
        exfalso. simpl in H. injection H as H _. discriminate H.
      * destruct (auth_validate_messages _ _ _ _ _ _ Hval eq_refl)
          as [[Hm H1]|[[Hm _]|[Hm _]]]; try discriminate Hm.
        injection Hm as ->. auto.
    + intros H Hv. injection H as <- <-.
      destruct (to_internal_value_raises _ _ _ _ _ _ _ Hrun) as [[errors ->]|(_ & -> & _)];
        [|discriminate Hv].
      left. now exists errors.
Qed.

Lemma auth_rejection_messages_witness :
  alias_matches settings0 (payload (Some "nobody@example.com") None "123456")
    (logged world0 TokenQuery) = Some []
  /\ alias_matches settings0 (payload (Some "bob@example.com") None "123456")
       (logged world0 TokenQuery) <> Some []
  /\ alias_matches settings0 (payload None (Some "+0123") "123456")
       (logged world0 TokenQuery) = None
  /\ exists errors rest,
       submit settings0 django0 (spec_utils settings0) TOKEN_TYPE_AUTH (mkContext None None)
         (request_data (Some "bob@example.com") None "999999") world0
       = (Raise (FieldErrors errors), logged world0 TokenQuery)
       /\ In ("token", msg_token_not_valid :: rest) errors.
Proof.
  split; [|split; [|split]].
  - destruct (proj2 (auth_rejection_messages settings0 django0 (spec_utils settings0)
                       (mkContext None None)
                       (request_data (Some "nobody@example.com") None "123456") world0)
                (ValidationError msg_invalid_user_alias)
                (logged (logged world0 TokenQuery) UserQuery) eq_refl eq_refl)
      as [(errors & H & _) | (attrs0 & w1 & H0 & H)]; [discriminate H|].
    injection H0 as <- <-.
    destruct H as [[H _] | [[_ H] | [H _]]]; [discriminate H|exact H|discriminate H].
  - destruct (proj2 (auth_rejection_messages settings0 django0 (spec_utils settings0)
                       (mkContext None None)
                       (request_data (Some "bob@example.com") None "123456") world0)
                (ValidationError msg_invalid_alias)
                (logged (logged (logged world0 TokenQuery) UserQuery) TokenQuery)
                eq_refl eq_refl)
      as [(errors & H & _) | (attrs0 & w1 & H0 & H)]; [discriminate H|].
    injection H0 as <- <-.
    destruct H as [[H _] | [[H _] | [_ H]]]; [discriminate H|discriminate H|exact H].
  - destruct (proj2 (auth_rejection_messages settings0 django0 (spec_utils settings0)
                       (mkContext None None)
                       (request_data None (Some "+0123") "123456") world0)
                (ValidationError phone_regex_message)
                (logged world0 TokenQuery) eq_refl eq_refl)
      as [(errors & H & _) | (attrs0 & w1 & H0 & H)]; [discriminate H|].
    injection H0 as <- <-.
    destruct H as [[_ H] | [[H _] | [H _]]]; [exact H|discriminate H|discriminate H].
  - apply (proj1 (auth_rejection_messages settings0 django0 (spec_utils settings0)
                    (mkContext None None)
                    (request_data (Some "bob@example.com") None "999999") world0)
             eq_refl "999999" (logged world0 TokenQuery) eq_refl).
    + discriminate.
    + reflexivity.
Defined.

(** C3 (counterexample): refused AUTH submissions are told apart by their
    error: one for an alias nobody holds, one for a user who has no token
    with the submitted key (the key is another user's), one with a key no
    active token has, and one with the key of the user's own token once it
    has expired. *)
Lemma auth_errors_differ :
  let utils := spec_utils settings0 in
  let context := mkContext None None in
  let no_user :=
    submit settings0 django0 utils TOKEN_TYPE_AUTH context
      (request_data (Some "nobody@example.com") None "123456") world0 in
  let no_token :=
    submit settings0 django0 utils TOKEN_TYPE_AUTH context
      (request_data (Some "bob@example.com") None "123456") world0 in
  let no_key :=
    submit settings0 django0 utils TOKEN_TYPE_AUTH context
      (request_data (Some "bob@example.com") None "999999") world0 in
  let expired :=
    submit settings0 django0 utils TOKEN_TYPE_AUTH context
      (request_data (Some "alice@example.com") None "123456") late_world0 in
  fst no_user = Raise (ValidationError msg_invalid_user_alias)
  /\ fst no_token = Raise (ValidationError msg_invalid_alias)
  /\ fst no_key = Raise (FieldErrors [("token", [msg_token_not_valid])])
  /\ fst expired = Raise (FieldErrors [("token", [msg_token_not_valid])])
  /\ fst no_user <> fst no_token
  /\ fst no_token <> fst no_key
  /\ fst no_user <> fst expired.
Proof. repeat split; try reflexivity; discriminate. Qed.

(** ** Test mode *)

Lemma obtain_token_test (cfg : Settings) (ty : TokenType) (u : User)
    (name alias k : string) (n : Z) (w : World) :
  PASSWORDLESS_TEST_MODE cfg = true ->
  PyStr.int k = Some n ->
  py_in n (PASSWORDLESS_TEST_CODE_INCORRECT cfg) = false ->
  name = PASSWORDLESS_USER_EMAIL_FIELD_NAME cfg
  \/ name = PASSWORDLESS_USER_MOBILE_FIELD_NAME cfg ->
  exists t, obtain_token cfg ty u name alias k w = (Return (t, Some u), w)
            /\ to_alias t = alias /\ token_user t = pk u.
Proof.
  unfold obtain_token, py_int, bind, ret, raise. intros -> -> -> Hname.
  destruct (String.eqb (PASSWORDLESS_USER_MOBILE_FIELD_NAME cfg) name) eqn:Em;
    [eexists; repeat split|].
  destruct (String.eqb (PASSWORDLESS_USER_EMAIL_FIELD_NAME cfg) name) eqn:Ee;
    [eexists; repeat split|].
  apply String.eqb_neq in Em, Ee. destruct Hname; congruence.
Qed.

Lemma token_queries_logged (w : World) (e : Event) :
  is_token_query e = false -> token_queries (logged w e) = token_queries w.
Proof.
  intros H. unfold token_queries, logged, set_trace. simpl.
  rewrite filter_app. simpl. rewrite H. apply app_nil_r.
Qed.

(** In test mode the fields leave the world alone. *)
Lemma to_internal_value_test (cfg : Settings) (django : Django) (utils : Utils)
    (data : Data) (w w1 : World) (attrs : Attrs) :
  PASSWORDLESS_TEST_MODE cfg = true ->
  to_internal_value cfg django utils data w = (Return attrs, w1) ->
  w1 = w /\ exists raw n, d_token data = Some raw /\ a_token attrs = PyStr.strip raw
                          /\ PyStr.int (a_token attrs) = Some n.
Proof.
  intros Hmode H. apply to_internal_value_inv in H.
  destruct H as (_ & _ & _ & raw & x & Hraw & Htok & _ & Hval & _).
  apply (token_age_validator_test _ _ _ _ _ _ Hmode) in Hval.
  destruct Hval as [-> [n Hn]]. split; [reflexivity|]. now exists raw, n.
Qed.

Lemma submit_accepted_synthesised
    (cfg : Settings) (django : Django) (utils : Utils) (ty : TokenType) (context : Context)
    (data : Data) (w : World) :
  PASSWORDLESS_TEST_MODE cfg = true ->
  accepted (submit cfg django utils ty context data w) = true ->
  exists raw n, d_token data = Some raw
                /\ PyStr.int (PyStr.strip raw) = Some n
                /\ py_in n (PASSWORDLESS_TEST_CODE_INCORRECT cfg) = false.
Proof.
  intros Hmode Hacc. apply accepted_inv in Hacc. destruct Hacc as [a [w' Hrun]].
  rewrite submit_unfold in Hrun.
  apply bind_inv in Hrun. destruct Hrun as [attrs0 [w1 [Hfield Hval]]].
  apply converted_inv in Hval.
  apply (to_internal_value_test _ _ _ _ _ _ _ Hmode) in Hfield.
  destruct Hfield as (-> & raw & n0 & Hraw & Htok & _).
  exists raw. rewrite <- Htok.
  destruct ty.
  - apply auth_validate_accepted in Hval.
    destruct Hval as (attrs1 & name & alias & user & token & tu & w2 & w3 & w4
                      & Hbase & _ & _ & Htk & _).
    apply base_validate_keeps in Hbase. destruct Hbase as (_ & <- & _).
    apply (obtain_token_synthesised _ _ _ _ _ _ _ _ _ Hmode) in Htk.
    destruct Htk as (_ & _ & _ & _ & _ & n & Hn). now exists n.
  - apply verify_validate_accepted in Hval.
    destruct Hval as (attrs1 & name & alias & user & token & tu & w2 & w3 & w4
                      & Hbase & _ & _ & Htk & _).
    apply base_validate_keeps in Hbase. destruct Hbase as (_ & <- & _).
    apply (obtain_token_synthesised _ _ _ _ _ _ _ _ _ Hmode) in Htk.
    destruct Htk as (_ & _ & _ & _ & _ & n & Hn). now exists n.
  - apply change_validate_accepted in Hval.
    destruct Hval as (attrs1 & name & alias & user & current & token & tu & w2 & w3 & w4
                      & Hbase & _ & _ & _ & _ & Htk & _).
    apply base_validate_keeps in Hbase. destruct Hbase as (_ & <- & _).
    apply (obtain_token_synthesised _ _ _ _ _ _ _ _ _ Hmode) in Htk.
    destruct Htk as (_ & _ & _ & _ & _ & n & Hn). now exists n.
Qed.

(** C5 (as amended): in test mode, for the three types of token submission,
    a token whose integer value is on the list of incorrect codes is never
    accepted; the outcome does not depend on [validate_token_age] (no age
    check) and no token query is issued (the token is built, unsaved, from
    the request); and once the fields accepted the data, a token whose
    integer value is not on the list is accepted when the alias resolves to
    a user who passes the checks of the request type: none for VERIFY, an
    alias other than the current one for CHANGE, an active user whose alias
    verification does not fail for AUTH.  The data returned carry that user
    under [user]. *)
Theorem test_mode
    (cfg : Settings) (django : Django) (utils : Utils) (ty : TokenType) (context : Context)
    (data : Data) (w : World) :
  PASSWORDLESS_TEST_MODE cfg = true ->
  let r := submit cfg django utils ty context data w in
  (forall raw n, d_token data = Some raw ->
                 PyStr.int (PyStr.strip raw) = Some n ->
                 py_in n (PASSWORDLESS_TEST_CODE_INCORRECT cfg) = true ->
                 accepted r = false)
  /\ (forall utils',
         verify_user_alias utils' = verify_user_alias utils ->
         change_user_alias utils' = change_user_alias utils ->
         submit cfg django utils' ty context data w = r)
  /\ ((forall u t, no_token_query (verify_user_alias utils u t)) ->
      (forall u t l, no_token_query (change_user_alias utils u t l)) ->
      token_queries (snd r) = token_queries w)
  /\ (forall attrs0 n attrs1 name alias,
         to_internal_value cfg django utils data w = (Return attrs0, w) ->
         PyStr.int (a_token attrs0) = Some n ->
         py_in n (PASSWORDLESS_TEST_CODE_INCORRECT cfg) = false ->
         AbstractBaseCallbackTokenSerializer_validate cfg attrs0 = Return attrs1 ->
         validate_alias cfg attrs1 = Return (Some (name, alias)) ->
         match ty with
         | TOKEN_TYPE_VERIFY =>
             forall user w1,
               User_objects_get_id_iexact (ctx_user_id context) name alias w
               = (Return user, w1) ->
               fst r = Return (set_user attrs1 user)
               /\ validated_user (fst r) = Some user
         | TOKEN_TYPE_CHANGE =>
             forall user w1 current,
               User_objects_get (id_is (ctx_user_id context)) w = (Return user, w1) ->
               getattr user name = Some current ->
               alias_eq alias current = false ->
               fst r = Return (set_user attrs1 user)
               /\ validated_user (fst r) = Some user
         | TOKEN_TYPE_AUTH =>
             forall user w1,
               User_objects_get_iexact name alias w = (Return user, w1) ->
               is_active user = true ->
               (PASSWORDLESS_USER_MARK_EMAIL_VERIFIED cfg
                || PASSWORDLESS_USER_MARK_MOBILE_VERIFIED cfg = false ->
                fst r = Return (set_user attrs1 user)
                /\ validated_user (fst r) = Some user)
               /\ (PASSWORDLESS_USER_MARK_EMAIL_VERIFIED cfg
                   || PASSWORDLESS_USER_MARK_MOBILE_VERIFIED cfg = true ->
                   forall user',
                     filter (fun u => pk u =? pk user) (users w) = [user'] ->
                     (forall t w', fst (verify_user_alias utils user' t w') = true) ->
                     fst r = Return (set_user attrs1 user')
                     /\ validated_user (fst r) = Some user')
         end).
Proof.
  intros Hmode r. subst r. split; [|split; [|split]].
  - intros raw n Hraw Hint Hin. apply not_true_is_false. intros Hacc.
    destruct (submit_accepted_synthesised _ _ _ _ _ _ _ Hmode Hacc)
      as (raw' & n' & Hraw' & Hint' & Hin').
    congruence.
  - intros utils' Hv Hc.
    destruct ty; unfold submit, submit_auth, submit_verify, submit_change, run_validation,
      to_internal_value, TokenField, TokenField_run_validators, token_age_validator,
      CallbackTokenAuthSerializer_validate, CallbackTokenVerificationSerializer_validate,
      CallbackTokenChangeSerializer_validate;
      rewrite Hmode, ?Hv, ?Hc; reflexivity.
  - intros Hv Hc.
    apply (stable_submit token_queries); auto using token_queries_logged.
  - intros attrs0 n attrs1 name alias Hfield Hint Hin Hbase Halias.
    pose proof (base_validate_keeps _ _ _ Hbase) as (_ & Hk & _).
    destruct (validate_alias_name _ _ _ Halias) as (name' & alias' & Hsome & Hname).
    injection Hsome as <- <-.
    rewrite submit_unfold.
    rewrite (bind_Return _ _ _ _ _ Hfield).
    assert (Hok : forall (m : M Attrs) a w',
               m w = (Return a, w') ->
               fst (try_except m as_serializer_error w) = Return a
               /\ validated_user (fst (try_except m as_serializer_error w)) = a_user a).
    { intros m a w' E. unfold try_except. rewrite E. now split. }
    destruct ty.
    + intros user w1 Hu Hact.
      destruct (obtain_token_test cfg TOKEN_TYPE_AUTH user name alias (a_token attrs1) n w1
                  Hmode ltac:(now rewrite Hk) Hin Hname) as (t & Ht & Hto & Hpk).
      assert (Hrun : forall k : User -> M Attrs,
                 CallbackTokenAuthSerializer_validate cfg utils attrs0 w
                 = try_except
                     (user <- (if PASSWORDLESS_USER_MARK_EMAIL_VERIFIED cfg
                                  || PASSWORDLESS_USER_MARK_MOBILE_VERIFIED cfg
                               then
                                 user <- User_objects_get (fun u => pk u =? pk user) ;;
                                 success <- call (verify_user_alias utils user t) ;;
                                 if negb success
                                 then raise (ValidationError msg_error_validating)
                                 else ret user
                               else ret user) ;;
                      ret (set_user attrs1 user))
                     (fun e => match e with
                               | CallbackToken_DoesNotExist =>
                                   Some (raise (ValidationError msg_invalid_alias))
                               | User_DoesNotExist =>
                                   Some (raise (ValidationError msg_invalid_user_alias))
                               | ValidationError _ =>
                                   Some (raise (ValidationError msg_invalid_alias))
                               | _ => None
                               end) w1).
      { intros _. unfold CallbackTokenAuthSerializer_validate.
        unfold try_except, bind at 1 2 3 4 5, liftR.
        rewrite Hbase, Halias. cbn [unpack]. rewrite Hu, Ht.
        unfold bind at 1. unfold related_user. cbn [snd fst]. unfold ret at 1.
        unfold model_eq. rewrite Z.eqb_refl, Hact. cbn [negb]. reflexivity. }
      specialize (Hrun (fun _ => ret attrs1)).
      split.
      * intros Hmark. apply (Hok _ (set_user attrs1 user) w1).
        rewrite Hrun, Hmark. reflexivity.
      * intros Hmark user' Hf Hver.
        apply User_objects_get_iexact_inv in Hu. destruct Hu as (col & _ & _ & ->).
        assert (Hre : User_objects_get (fun u => pk u =? pk user) (logged w UserQuery)
                      = (Return user', logged (logged w UserQuery) UserQuery)).
        { apply User_objects_get_one. exact Hf. }
        specialize (Hver t (logged (logged w UserQuery) UserQuery)).
        destruct (verify_user_alias utils user' t (logged (logged w UserQuery) UserQuery))
          as [b w3] eqn:Hv. simpl in Hver. subst b.
        apply (Hok _ (set_user attrs1 user') w3).
        rewrite Hrun, Hmark. unfold try_except, bind, call. rewrite Hre, Hv. reflexivity.
    + intros user w1 Hu.
      destruct (obtain_token_test cfg TOKEN_TYPE_VERIFY user name alias (a_token attrs1) n w1
                  Hmode ltac:(now rewrite Hk) Hin Hname) as (t & Ht & Hto & Hpk).
      assert (E : exists w',
                 CallbackTokenVerificationSerializer_validate cfg utils context attrs0 w
                 = (Return (set_user attrs1 user), w')).
      { unfold CallbackTokenVerificationSerializer_validate.
        unfold try_except, bind at 1 2 3 4 5 6, liftR.
        rewrite Hbase, Halias. cbn [unpack]. rewrite Hu, Ht.
        unfold bind at 1. unfold related_user. cbn [snd fst]. unfold ret at 1.
        unfold model_eq. rewrite Z.eqb_refl.
        unfold bind, call.
        destruct (verify_user_alias utils user t w1) as [[|] w3]; eexists; reflexivity. }
      destruct E as [w' E]. exact (Hok _ _ _ E).
    + intros user w1 current Hu Hcur Hneq.
      destruct (obtain_token_test cfg TOKEN_TYPE_CHANGE user name alias (a_token attrs1) n w1
                  Hmode ltac:(now rewrite Hk) Hin Hname) as (t & Ht & Hto & Hpk).
      assert (E : exists w',
                 CallbackTokenChangeSerializer_validate cfg utils context attrs0 w
                 = (Return (set_user attrs1 user), w')).
      { unfold CallbackTokenChangeSerializer_validate.
        unfold try_except, bind at 1 2 3 4 5 6, liftR.
        rewrite Hbase, Halias. cbn [unpack]. rewrite Hu, Hcur. cbn iota beta.
        rewrite Hneq. unfold bind at 1. rewrite Ht.
        unfold bind at 1. unfold related_user. cbn [snd fst]. unfold ret at 1.
        unfold model_eq. rewrite Z.eqb_refl, Hto, String.eqb_refl.
        cbn [andb]. unfold User_objects_filter_iexact.
        assert (Hcol : exists col, User_column name = Some col).
        { unfold getattr in Hcur. destruct (User_column name) as [col|]; [|discriminate].
          now exists col. }
        destruct Hcol as [col Hcol]. rewrite Hcol.
        unfold bind, call.
        destruct (change_user_alias utils user t _ w1) as [[|] w3].
        * destruct (verify_user_alias utils user t w3) as [[|] w4]; eexists; reflexivity.
        * eexists; reflexivity. }
      destruct E as [w' E]. exact (Hok _ _ _ E).
Qed.

Lemma test_mode_witness :
  PASSWORDLESS_TEST_MODE test_settings = true
  /\ accepted (submit test_settings django0 (spec_utils test_settings) TOKEN_TYPE_AUTH
                 (mkContext None None)
                 (request_data (Some "alice@example.com") None "000000") world0) = false
  /\ validated_user
       (fst (submit test_settings django0 (spec_utils test_settings) TOKEN_TYPE_AUTH
               (mkContext None None)
               (request_data (Some "alice@example.com") None "777777") world0))
     = Some alice
  /\ validated_user
       (fst (submit test_settings django0 (spec_utils test_settings) TOKEN_TYPE_VERIFY
               (mkContext None (Some 2))
               (request_data (Some "bob@example.com") None " 777777") world0))
     = Some bob.
Proof.
  split; [reflexivity|]. split; [|split].
  - destruct (test_mode test_settings django0 (spec_utils test_settings) TOKEN_TYPE_AUTH
                (mkContext None None) (request_data (Some "alice@example.com") None "000000")
                world0 eq_refl) as (Hdeny & _).
    exact (Hdeny "000000" 0 eq_refl eq_refl eq_refl).
  - destruct (test_mode test_settings django0 (spec_utils test_settings) TOKEN_TYPE_AUTH
                (mkContext None None) (request_data (Some "alice@example.com") None "777777")
                world0 eq_refl) as (_ & _ & _ & Hok).
    apply (Hok (payload (Some "alice@example.com") None "777777") 777777
               (payload (Some "alice@example.com") None "777777")
               "email" "alice@example.com" eq_refl eq_refl eq_refl eq_refl eq_refl
               alice (logged world0 UserQuery) eq_refl eq_refl).
    + reflexivity.
    + reflexivity.
    + intros t w'. reflexivity.
  - destruct (test_mode test_settings django0 (spec_utils test_settings) TOKEN_TYPE_VERIFY
                (mkContext None (Some 2))
                (request_data (Some "bob@example.com") None " 777777")
                world0 eq_refl) as (_ & _ & _ & Hok).
    apply (Hok (payload (Some "bob@example.com") None "777777") 777777
               (payload (Some "bob@example.com") None "777777")
               "email" "bob@example.com" eq_refl eq_refl eq_refl eq_refl eq_refl
               bob (logged world0 UserQuery) eq_refl).
Defined.

(** C5 (counterexample): in test mode a token of the configured length that
    is not on the list of incorrect codes is refused for a disabled user
    (AUTH) and for an alias the user already holds (CHANGE). *)
Lemma test_mode_refuses :
  let utils := spec_utils test_settings in
  let auth := request_data (Some "carol@example.com") None "123456" in
  let change := request_data (Some "bob@example.com") None "123456" in
  PASSWORDLESS_TEST_MODE test_settings = true
  /\ length "123456" = TOKEN_LENGTH test_settings
  /\ PyStr.int "123456" = Some 123456
  /\ py_in 123456 (PASSWORDLESS_TEST_CODE_INCORRECT test_settings) = false
  /\ fst (submit test_settings django0 utils TOKEN_TYPE_AUTH (mkContext None None)
            auth world0)
     = Raise (ValidationError msg_invalid_alias)
  /\ fst (submit test_settings django0 utils TOKEN_TYPE_CHANGE (mkContext None (Some 2))
            change world0)
     = Raise (ValidationError "This user already have same email.").
Proof. repeat split; reflexivity. Qed.

(** * Further properties *)

(** ** Normalisation of mobile numbers *)

Lemma remove_fixed (p : ascii -> bool) (s : string) :
  PyStr.forallb (fun c => negb (p c)) s = true -> PyStr.remove p s = s.
Proof.
  induction s as [|c r IH]; simpl; [reflexivity|].
  intros H. apply andb_true_iff in H. destruct H as [Hc Hr].
  apply negb_true_iff in Hc. rewrite Hc. now rewrite IH.
Qed.

Lemma clear_mobile_number_inv (s m : string) :
  clear_mobile_number s = Return m ->
  exists c r, PyStr.remove mobile_noise s = String c r
              /\ m = (if Ascii.eqb c "+" then String c r else String "+" (String c r)).
Proof.
  rewrite clear_mobile_number_eq.
  destruct (PyStr.remove mobile_noise s) as [|c r]; [discriminate|].
  intros H. injection H as <-. now exists c, r.
Qed.

Lemma cleared_noise_free (s m : string) :
  clear_mobile_number s = Return m -> noise_free m = true.
Proof.
  intros H. apply clear_mobile_number_inv in H. destruct H as (c & r & Hrem & ->).
  pose proof (remove_no_noise s) as Hfree. rewrite Hrem in Hfree.
  destruct (Ascii.eqb c "+"); [exact Hfree|].
  unfold noise_free.
  change (negb (mobile_noise "+")
          && PyStr.forallb (fun c0 => negb (mobile_noise c0)) (String c r) = true).
  now rewrite Hfree.
Qed.

Lemma cleared_plus (s m : string) :
  clear_mobile_number s = Return m -> exists r, m = String "+" r.
Proof.
  intros H. apply clear_mobile_number_inv in H. destruct H as (c & r & _ & ->).
  destruct (Ascii.eqb c "+") eqn:E.
  - apply Ascii.eqb_eq in E. subst c. now exists r.
  - now exists (String c r).
Qed.

(** X1: whatever [clear_mobile_number] returns starts with ['+'] and
    contains no whitespace, hyphen or parenthesis. *)
Theorem clear_mobile_number_shape (s m : string) :
  clear_mobile_number s = Return m ->
  noise_free m = true /\ exists r, m = String "+" r.
Proof.
  intros H. split.
  - exact (cleared_noise_free s m H).
  - exact (cleared_plus s m H).
Qed.

Lemma clear_mobile_number_shape_witness :
  noise_free "+15551234567" = true /\ exists r, "+15551234567" = String "+" r.
Proof.
  apply (clear_mobile_number_shape "1 (555) 123-4567" "+15551234567"). reflexivity.
Defined.

(** X2: [clear_mobile_number] is idempotent: a number it returned is
    returned unchanged when it is normalised again. *)
Theorem clear_mobile_number_idempotent (s m : string) :
  clear_mobile_number s = Return m -> clear_mobile_number m = Return m.
Proof.
  intros H. pose proof (cleared_noise_free s m H) as Hfree.
  destruct (cleared_plus s m H) as [r ->].
  rewrite clear_mobile_number_eq.
  rewrite (remove_fixed mobile_noise _ Hfree). reflexivity.
Qed.

Lemma clear_mobile_number_idempotent_witness :
  clear_mobile_number "+15551234567" = Return "+15551234567".
Proof.
  apply (clear_mobile_number_idempotent "1 (555) 123-4567" "+15551234567"). reflexivity.
Defined.

Lemma newline_is_noise (c : ascii) : Ascii.eqb c "010" = true -> mobile_noise c = true.
Proof. intros H. apply Ascii.eqb_eq in H. now subst c. Qed.

Lemma chomp_noise_free (s : string) : noise_free s = true -> chomp s = s.
Proof.
  unfold noise_free. induction s as [|c r IH]; [reflexivity|].
  simpl PyStr.forallb. intros H. apply andb_true_iff in H. destruct H as [Hc Hr].
  simpl. destruct r as [|c' r'].
  - destruct (Ascii.eqb c "010") eqn:E; [|reflexivity].
    apply newline_is_noise in E. rewrite E in Hc. discriminate.
  - now rewrite (IH Hr).
Qed.

(** X3: with [PASSWORDLESS_MOBILE_NUMBER_STANDARDISE] on, a mobile number
    that passes the standardise-and-check block is ['+'] followed by a digit
    from 1 to 9 and then 1 to 14 decimal digits (characters that [\d]
    matches): 3 to 16 characters in all, none of them whitespace, a hyphen
    or a parenthesis, and no newline at the end. *)
Theorem standardised_mobile_shape (cfg : Settings) (raw m : string) :
  PASSWORDLESS_MOBILE_NUMBER_STANDARDISE cfg = true ->
  standardise_and_check cfg raw = Return m ->
  exists d ds,
    m = String "+" (String d ds)
    /\ is_digit19 d = true
    /\ PyStr.forallb PyStr.isdecimal ds = true
    /\ (1 <= length ds <= 14)%nat
    /\ noise_free m = true
    /\ (3 <= length m <= 16)%nat.
Proof.
  intros Hstd H. pose proof (standardise_and_check_match _ _ _ H) as Hmatch.
  unfold standardise_and_check in H. rewrite Hstd in H.
  destruct (clear_mobile_number raw) as [m'|e] eqn:Hclear; [|discriminate].
  destruct (phone_regex m'); [|discriminate]. injection H as ->.
  pose proof (cleared_noise_free _ _ Hclear) as Hfree.
  destruct (cleared_plus _ _ Hclear) as [r ->].
  unfold phone_regex_match in Hmatch. destruct r as [|d ds]; [discriminate|].
  assert (Hds : noise_free ds = true).
  { unfold noise_free in *. simpl in Hfree.
    apply andb_true_iff in Hfree. now destruct Hfree as [_ Hfree]. }
  rewrite (chomp_noise_free _ Hds) in Hmatch.
  apply andb_true_iff in Hmatch. destruct Hmatch as [Hmatch Hmax].
  apply andb_true_iff in Hmatch. destruct Hmatch as [Hmatch Hmin].
  apply andb_true_iff in Hmatch. destruct Hmatch as [Hd Hdigits].
  apply Nat.leb_le in Hmin, Hmax.
  exists d, ds. repeat split; try assumption; simpl; lia.
Qed.

Lemma standardised_mobile_shape_witness :
  exists d ds,
    "+15551234567" = String "+" (String d ds)
    /\ is_digit19 d = true
    /\ PyStr.forallb PyStr.isdecimal ds = true
    /\ (1 <= length ds <= 14)%nat
    /\ noise_free "+15551234567" = true
    /\ (3 <= length "+15551234567" <= 16)%nat.
Proof.
  apply (standardised_mobile_shape settings0 "+1 (555) 123-4567" "+15551234567");
    reflexivity.
Defined.

(** ** Alias resolution on blank entries *)

(** X4: [validate_alias] never returns [None]: it raises when both aliases
    or neither is a non-empty string, a blank alias counting as absent, and
    otherwise returns the configured field name of the one non-empty alias
    together with that alias. *)
Theorem validate_alias_cases (cfg : Settings) (attrs : Attrs) :
  match validate_alias cfg attrs with
  | Return None => False
  | Return (Some (name, alias)) =>
      alias <> EmptyString
      /\ ((name = PASSWORDLESS_USER_EMAIL_FIELD_NAME cfg
           /\ a_email attrs = Some alias /\ as_true (a_mobile attrs) = None)
          \/ (name = PASSWORDLESS_USER_MOBILE_FIELD_NAME cfg
              /\ a_mobile attrs = Some alias /\ as_true (a_email attrs) = None))
  | Raise e =>
      e = ValidationError default_detail
      /\ present (as_true (a_email attrs)) = present (as_true (a_mobile attrs))
  end.
Proof.
  unfold validate_alias.
  destruct (a_email attrs) as [[|c r]|], (a_mobile attrs) as [[|c' r']|]; simpl;
    repeat split; try discriminate; auto.
Qed.

(** X5: the base [validate] of the token-submission serializers changes at
    most the [mobile] entry.  A missing or blank [mobile] is passed through
    unchecked; any other is replaced by its standardised form when the
    setting is on, kept when it is off, and in both cases matches the
    pattern. *)
Theorem base_validate_effect (cfg : Settings) (attrs attrs1 : Attrs) :
  AbstractBaseCallbackTokenSerializer_validate cfg attrs = Return attrs1 ->
  a_email attrs1 = a_email attrs
  /\ a_token attrs1 = a_token attrs
  /\ a_user attrs1 = a_user attrs
  /\ (as_true (a_mobile attrs) = None -> attrs1 = attrs)
  /\ (forall raw, as_true (a_mobile attrs) = Some raw ->
        exists m, a_mobile attrs1 = Some m
                  /\ phone_regex_match m = true
                  /\ (if PASSWORDLESS_MOBILE_NUMBER_STANDARDISE cfg
                      then clear_mobile_number raw = Return m
                      else m = raw)).
Proof.
  unfold AbstractBaseCallbackTokenSerializer_validate.
  destruct (as_true (a_mobile attrs)) as [raw|] eqn:Em.
  - destruct (standardise_and_check cfg raw) as [m|e] eqn:E; [|discriminate].
    intros H. injection H as <-. simpl. repeat split; try discriminate.
    intros raw' Hraw. injection Hraw as <-. exists m. split; [reflexivity|].
    split; [exact (standardise_and_check_match _ _ _ E)|].
    unfold standardise_and_check in E.
    destruct (PASSWORDLESS_MOBILE_NUMBER_STANDARDISE cfg).
    + destruct (clear_mobile_number raw) as [m'|e']; [|discriminate].
      destruct (phone_regex m'); [|discriminate]. now injection E as ->.
    + destruct (phone_regex raw); [|discriminate]. now injection E as ->.
  - intros H. injection H as <-. repeat split; try discriminate.
Qed.

Lemma base_validate_effect_witness :
  a_email (payload None (Some "+15551234567") "123456") = None
  /\ exists m, Some "+15551234567" = Some m /\ phone_regex_match m = true.
Proof.
  destruct (base_validate_effect settings0 (payload None (Some "+1 555 123-4567") "123456")
              (payload None (Some "+15551234567") "123456") eq_refl)
    as (He & _ & _ & _ & Hm).
  split; [exact He|].
  destruct (Hm "+1 555 123-4567" eq_refl) as (m & H1 & H2 & _).
  exists m. split; [exact H1|exact H2].
Defined.

(** ** AUTH requests *)

Lemma iexact_col_congr (col : User -> option string) (a b : string) (u : User) :
  PyStr.iexact a b = true -> iexact_col col a u = iexact_col col b u.
Proof.
  unfold iexact_col, PyStr.iexact. intros H. apply String.eqb_eq in H.
  destruct (col u); [|reflexivity]. now rewrite H.
Qed.

Lemma iexact_refl (a : string) : PyStr.iexact a a = true.
Proof. unfold PyStr.iexact. apply String.eqb_refl. Qed.

(** What the AUTH-request [validate] does, by the number of users that
    match the alias. *)
Lemma auth_request_run
    (cfg : Settings) (S : AliasSerializer) (attrs : Attrs) (alias : string)
    (col : User -> option string) (w : World) :
  as_true (attrs_get attrs alias_type) = Some alias ->
  User_column alias_field_name = Some col ->
  AbstractBaseAliasAuthenticationSerializer_validate cfg S attrs w =
  match filter (iexact_col col alias) (users w) with
  | [] =>
      if PASSWORDLESS_REGISTER_NEW_USERS cfg then
        let u := registered_user alias_field_name alias (users w) in
        (Return (set_user attrs u),
         mkWorld (users w ++ [u]) (tokens w) (clock w)
                 (trace w ++ [UserQuery; UserWrite; UserWrite]))
      else (Raise (ValidationError msg_no_account), logged w UserQuery)
  | [u] =>
      (if is_active u then Return (set_user attrs u)
       else Raise (ValidationError msg_disabled), logged w UserQuery)
  | _ :: _ :: _ => (Raise MultipleObjectsReturned, logged w UserQuery)
  end.
Proof.
  intros Halias Hcol.
  unfold AbstractBaseAliasAuthenticationSerializer_validate. rewrite Halias.
  pose proof (User_objects_get_iexact_cases alias_field_name alias w) as Hget.
  rewrite Hcol in Hget.
  destruct (filter (iexact_col col alias) (users w)) as [|u [|u2 rest]] eqn:Hf.
  - destruct (PASSWORDLESS_REGISTER_NEW_USERS cfg).
    + unfold try_except, bind at 1 2. rewrite Hget.
      unfold User_objects_create. rewrite Hcol.
      unfold User_save, bind, emit, ret, logged, set_trace, set_users. simpl.
      rewrite map_app. simpl. rewrite Z.eqb_refl.
      rewrite (save_fresh (users w)
                 (set_unusable_password
                    (mkUser (next_pk (users w))
                       (if String.eqb alias_field_name "email" then Some alias else None)
                       (if String.eqb alias_field_name "email" then None else Some alias)
                       true EmptyString false false)) eq_refl).
      unfold registered_user, set_unusable_password. simpl.
      rewrite <- !app_assoc. reflexivity.
    + unfold try_except, bind at 1 2. rewrite Hget. reflexivity.
  - destruct (PASSWORDLESS_REGISTER_NEW_USERS cfg);
      unfold try_except, bind at 1 2; rewrite Hget; unfold bind, ret, raise;
      destruct (is_active u); reflexivity.
  - destruct (PASSWORDLESS_REGISTER_NEW_USERS cfg);
      unfold try_except, bind at 1 2; rewrite Hget; reflexivity.
Qed.

Lemma next_pk_not_in (us : list User) : ~ In (next_pk us) (map pk us).
Proof.
  intros H. apply in_map_iff in H. destruct H as [r [Hpk Hin]].
  apply next_pk_fresh in Hin. lia.
Qed.

Lemma NoDup_pk_snoc (us : list User) (u : User) :
  pk u = next_pk us -> NoDup (map pk us) -> NoDup (map pk (us ++ [u])).
Proof.
  intros Hpk Hnd. rewrite map_app. simpl. apply NoDup_app.
  - exact Hnd.
  - constructor; [easy|constructor].
  - intros a Ha [<-|[]]. rewrite Hpk in Ha. exact (next_pk_not_in us Ha).
Qed.

(** X6: an AUTH request whose alias matches some user creates nobody,
    whatever [PASSWORDLESS_REGISTER_NEW_USERS] says.  With one match the
    request returns that user when the account is active and is refused with
    ['User account is disabled.'] when it is not; with several matches it
    stops with [MultipleObjectsReturned]. *)
Theorem auth_request_known_alias
    (cfg : Settings) (S : AliasSerializer) (attrs : Attrs) (alias : string)
    (col : User -> option string) (w : World) :
  as_true (attrs_get attrs alias_type) = Some alias ->
  User_column alias_field_name = Some col ->
  filter (iexact_col col alias) (users w) <> [] ->
  let r := AbstractBaseAliasAuthenticationSerializer_validate cfg S attrs w in
  users (snd r) = users w
  /\ match filter (iexact_col col alias) (users w) with
     | [u] => fst r = (if is_active u then Return (set_user attrs u)
                       else Raise (ValidationError msg_disabled))
     | _ => fst r = Raise MultipleObjectsReturned
     end.
Proof.
  intros Halias Hcol Hsome r. subst r.
  rewrite (auth_request_run cfg S attrs alias col w Halias Hcol).
  destruct (filter (iexact_col col alias) (users w)) as [|u [|u2 rest]];
    [contradiction|split; reflexivity|split; reflexivity].
Qed.

Lemma auth_request_known_alias_witness :
  fst (EmailAuthSerializer_validate settings0
         (payload (Some "Carol@Example.com") None EmptyString) world0)
  = Raise (ValidationError msg_disabled).
Proof.
  destruct (auth_request_known_alias settings0 (EmailAuthSerializer settings0)
              (payload (Some "Carol@Example.com") None EmptyString)
              "Carol@Example.com" email world0 eq_refl eq_refl
              ltac:(discriminate)) as [_ H].
  exact H.
Defined.

Lemma auth_request_users
    (cfg : Settings) (S : AliasSerializer) (attrs : Attrs) (w : World) :
  let r := AbstractBaseAliasAuthenticationSerializer_validate cfg S attrs w in
  tokens (snd r) = tokens w
  /\ exists l, users (snd r) = (users w ++ l)%list
               /\ (List.length l <= 1)%nat
               /\ (forall u, In u l ->
                     pk u = next_pk (users w)
                     /\ PASSWORDLESS_REGISTER_NEW_USERS cfg = true
                     /\ fst r = Return (set_user attrs u)).
Proof.
  intros r. subst r.
  assert (Hsame : forall x : Result Attrs,
             tokens w = tokens w
             /\ exists l, users w = (users w ++ l)%list /\ (List.length l <= 1)%nat
                          /\ forall u, In u l ->
                               pk u = next_pk (users w)
                               /\ PASSWORDLESS_REGISTER_NEW_USERS cfg = true
                               /\ x = Return (set_user attrs u)).
  { intros x. split; [reflexivity|]. exists []. rewrite app_nil_r.
    split; [reflexivity|]. split; [simpl; lia|]. intros u []. }
  destruct (as_true (attrs_get attrs alias_type)) as [alias|] eqn:Halias.
  - destruct (User_column alias_field_name) as [col|] eqn:Hcol.
    + rewrite (auth_request_run cfg S attrs alias col w Halias Hcol).
      destruct (filter (iexact_col col alias) (users w)) as [|u [|u2 rest]];
        try apply Hsame.
      destruct (PASSWORDLESS_REGISTER_NEW_USERS cfg); [|apply Hsame].
      split; [reflexivity|].
      exists [registered_user alias_field_name alias (users w)].
      split; [reflexivity|]. split; [simpl; lia|].
      intros u [<-|[]]. split; [reflexivity|]. split; reflexivity.
    + unfold AbstractBaseAliasAuthenticationSerializer_validate. rewrite Halias.
      unfold User_objects_get_iexact. rewrite Hcol.
      destruct (PASSWORDLESS_REGISTER_NEW_USERS cfg); apply Hsame.
  - unfold AbstractBaseAliasAuthenticationSerializer_validate. rewrite Halias.
    apply Hsame.
Qed.

(** X7: an AUTH request of either alias type never changes or removes a
    row of the user table and never touches the token table.  It appends at
    most one user, only when registration is on and only when it returns
    that very user, and it keeps primary keys distinct. *)
Theorem auth_request_table_invariant
    (cfg : Settings) (mobile_alias : bool) (attrs : Attrs) (w : World) :
  let r := auth_request cfg mobile_alias attrs w in
  tokens (snd r) = tokens w
  /\ (NoDup (map pk (users w)) -> NoDup (map pk (users (snd r))))
  /\ exists l, users (snd r) = (users w ++ l)%list
               /\ (List.length l <= 1)%nat
               /\ (forall u, In u l ->
                     PASSWORDLESS_REGISTER_NEW_USERS cfg = true
                     /\ validated_user (fst r) = Some u).
Proof.
  intros r.
  assert (H : tokens (snd r) = tokens w
              /\ exists l, users (snd r) = (users w ++ l)%list
                           /\ (List.length l <= 1)%nat
                           /\ (forall u, In u l ->
                                 pk u = next_pk (users w)
                                 /\ PASSWORDLESS_REGISTER_NEW_USERS cfg = true
                                 /\ validated_user (fst r) = Some u)).
  { subst r. unfold auth_request. destruct mobile_alias.
    - unfold MobileAuthSerializer_validate.
      destruct (a_mobile attrs) as [mobile|].
      + unfold bind, liftR.
        destruct (standardise_and_check cfg mobile) as [m|e].
        * destruct (auth_request_users cfg (MobileAuthSerializer cfg) (set_mobile attrs m) w)
            as (Ht & l & Hu & Hl & Hnew).
          split; [exact Ht|]. exists l. split; [exact Hu|]. split; [exact Hl|].
          intros u Hin. destruct (Hnew u Hin) as (Hpk & Hreg & Hret).
          split; [exact Hpk|]. split; [exact Hreg|]. now rewrite Hret.
        * split; [reflexivity|]. exists []. rewrite app_nil_r.
          split; [reflexivity|]. split; [simpl; lia|]. intros u [].
      + split; [reflexivity|]. exists []. rewrite app_nil_r.
        split; [reflexivity|]. split; [simpl; lia|]. intros u [].
    - destruct (auth_request_users cfg (EmailAuthSerializer cfg) attrs w)
        as (Ht & l & Hu & Hl & Hnew).
      split; [exact Ht|]. exists l. split; [exact Hu|]. split; [exact Hl|].
      intros u Hin. destruct (Hnew u Hin) as (Hpk & Hreg & Hret).
      split; [exact Hpk|]. split; [exact Hreg|].
      unfold EmailAuthSerializer_validate. now rewrite Hret. }
  destruct H as (Ht & l & Hu & Hl & Hnew).
  split; [exact Ht|]. split.
  - intros Hnd. rewrite Hu. destruct l as [|u [|u2 rest]].
    + now rewrite app_nil_r.
    + apply NoDup_pk_snoc; [|exact Hnd]. apply (Hnew u). now left.
    + simpl in Hl. lia.
  - exists l. split; [exact Hu|]. split; [exact Hl|].
    intros u Hin. destruct (Hnew u Hin) as (_ & Hreg & Hret). now split.
Qed.

(** X8: registration is idempotent up to case.  After an AUTH request has
    registered a new alias, a second request for the same alias in any
    letter case returns the user created by the first and creates nobody. *)
Theorem registration_idempotent
    (cfg : Settings) (S : AliasSerializer) (attrs attrs' : Attrs) (alias alias' : string)
    (col : User -> option string) (w : World) :
  PASSWORDLESS_REGISTER_NEW_USERS cfg = true ->
  as_true (attrs_get attrs alias_type) = Some alias ->
  as_true (attrs_get attrs' alias_type) = Some alias' ->
  User_column alias_field_name = Some col ->
  filter (iexact_col col alias) (users w) = [] ->
  PyStr.iexact alias alias' = true ->
  let r1 := AbstractBaseAliasAuthenticationSerializer_validate cfg S attrs w in
  let r2 := AbstractBaseAliasAuthenticationSerializer_validate cfg S attrs' (snd r1) in
  exists u,
    fst r1 = Return (set_user attrs u)
    /\ fst r2 = Return (set_user attrs' u)
    /\ users (snd r2) = users (snd r1).
Proof.
  intros Hreg Halias Halias' Hcol Hnone Hcase r1 r2. subst r2 r1.
  rewrite (auth_request_run cfg S attrs alias col w Halias Hcol), Hnone, Hreg.
  cbv zeta. cbn [fst snd].
  rewrite (auth_request_run cfg S attrs' alias' col _ Halias' Hcol).
  cbn [users]. rewrite filter_app.
  rewrite (filter_ext _ _ (fun u => eq_sym (iexact_col_congr col alias alias' u Hcase))).
  rewrite Hnone. simpl.
  assert (Hu : iexact_col col alias' (registered_user alias_field_name alias (users w)) = true).
  { unfold iexact_col, registered_user. rewrite (column_of_create _ _ _ _ Hcol). exact Hcase. }
  rewrite Hu. exists (registered_user alias_field_name alias (users w)).
  repeat split.
Qed.

Lemma registration_idempotent_witness :
  exists u,
    fst (EmailAuthSerializer_validate settings0
           (payload (Some "dave@example.com") None EmptyString) world0)
    = Return (set_user (payload (Some "dave@example.com") None EmptyString) u)
    /\ fst (EmailAuthSerializer_validate settings0
              (payload (Some "Dave@Example.COM") None EmptyString)
              (snd (EmailAuthSerializer_validate settings0
                      (payload (Some "dave@example.com") None EmptyString) world0)))
       = Return (set_user (payload (Some "Dave@Example.COM") None EmptyString) u).
Proof.
  destruct (registration_idempotent settings0 (EmailAuthSerializer settings0)
              (payload (Some "dave@example.com") None EmptyString)
              (payload (Some "Dave@Example.COM") None EmptyString)
              "dave@example.com" "Dave@Example.COM" email world0
              eq_refl eq_refl eq_refl eq_refl eq_refl eq_refl) as (u & H1 & H2 & _).
  exists u. split; [exact H1|exact H2].
Defined.

(** ** The token field *)



(** X10: in test mode a submission of any type whose token is not blank and
    cannot be read by [int] once trimmed ends in an uncaught [ValueError],
    before any query, write or log entry. *)
Theorem test_mode_unreadable_token
    (cfg : Settings) (django : Django) (utils : Utils) (ty : TokenType) (context : Context)
    (data : Data) (raw : string) (w : World) :
  PASSWORDLESS_TEST_MODE cfg = true ->
  d_token data = Some raw ->
  PyStr.strip raw <> EmptyString ->
  PyStr.int (PyStr.strip raw) = None ->
  submit cfg django utils ty context data w = (Raise ValueError, w).
Proof.
  intros Hmode Hraw Hne Hint. rewrite submit_unfold. apply bind_Raise.
  destruct (to_internal_value_unfold cfg django utils data w) as (e & m & _ & _ & ->).
  apply bind_Raise. rewrite Hraw.
  unfold TokenField, CharField_run_validation.
  destruct (PyStr.strip raw) as [|c r]; [congruence|].
  unfold TokenField_run_validators, collect, token_age_validator, py_int, bind, ret, raise.
  now rewrite Hmode, Hint.
Qed.

Lemma test_mode_unreadable_token_witness :
  submit test_settings django0 (spec_utils test_settings) TOKEN_TYPE_AUTH
    (mkContext None None)
    (request_data (Some "alice@example.com") None "12a456") world0
  = (Raise ValueError, world0).
Proof.
  apply (test_mode_unreadable_token test_settings django0 (spec_utils test_settings)
           TOKEN_TYPE_AUTH (mkContext None None)
           (request_data (Some "alice@example.com") None "12a456") "12a456" world0);
    [reflexivity | reflexivity | discriminate | reflexivity].
Defined.



(** ** What refused VERIFY and CHANGE submissions say *)

Lemma User_objects_get_raises (p : User -> bool) (w w1 : World) (e : exn) :
  User_objects_get p w = (Raise e, w1) ->
  w1 = logged w UserQuery
  /\ ((e = User_DoesNotExist /\ filter p (users w) = [])
      \/ e = MultipleObjectsReturned).
Proof.
  unfold User_objects_get, bind, emit, objects_get. simpl.
  destruct (filter p (users w)) as [|x [|y l]]; try discriminate;
    intros H; injection H as <- <-; split; auto.
Qed.

Lemma obtain_token_raises_cases (cfg : Settings) (ty : TokenType) (u : User)
    (name alias k : string) (w w1 : World) (e : exn) :
  obtain_token cfg ty u name alias k w = (Raise e, w1) ->
  (PASSWORDLESS_TEST_MODE cfg = true
   /\ (e = ValueError \/ e = ValidationError msg_incorrect_token
       \/ e = ValidationError default_detail))
  \/ (PASSWORDLESS_TEST_MODE cfg = false
      /\ ((e = CallbackToken_DoesNotExist
           /\ filter (token_matches u k ty) (tokens w) = [])
          \/ e = MultipleObjectsReturned)).
Proof.
  unfold obtain_token, py_int, CallbackToken_objects_get, objects_get, bind, emit, ret, raise.
  destruct (PASSWORDLESS_TEST_MODE cfg).
  - intros H. left. split; [reflexivity|]. inv_run H; inv_clean; auto; discriminate.
  - simpl. intros H. right. split; [reflexivity|].
    destruct (filter _ (tokens w)) as [|x [|y l]]; try discriminate;
      injection H as <- _; auto.
Qed.

(** X12: a refused VERIFY [validate] reports the pattern's message for a
    malformed mobile number, the default detail for a bad alias pair, the
    incorrect-code message of test mode, or
    ['We could not verify this alias.'], and nothing else.  Outside test
    mode, once the alias resolves, the last message is the only one: it does
    not tell a missing user from a missing token. *)
Theorem verify_rejections
    (cfg : Settings) (utils : Utils) (context : Context) (attrs : Attrs)
    (w w' : World) (e : exn) :
  CallbackTokenVerificationSerializer_validate cfg utils context attrs w = (Raise e, w') ->
  is_validation_error e = true ->
  (e = DjangoValidationError phone_regex_message
   \/ e = ValidationError default_detail
   \/ e = ValidationError msg_incorrect_token
   \/ e = ValidationError msg_could_not_verify)
  /\ (PASSWORDLESS_TEST_MODE cfg = false -> alias_matches cfg attrs w <> None ->
      e = ValidationError msg_could_not_verify).
Proof.
  unfold CallbackTokenVerificationSerializer_validate, alias_matches.
  unfold try_except, bind at 1 2 3 4 5 6, liftR.
  destruct (AbstractBaseCallbackTokenSerializer_validate cfg attrs) as [attrs1|e0] eqn:Hbase.
  2:{ destruct (base_validate_raises _ _ _ Hbase) as [-> | ->];
        simpl; intros H Hv; injection H as <- _; [discriminate Hv|].
      split; [now left|]. intros _ Hn. now contradiction Hn. }
  destruct (validate_alias cfg attrs1) as [[[name alias]|]|e0] eqn:Halias; cbn [unpack].
  3:{ rewrite (validate_alias_raises _ _ _ Halias). simpl. intros H _. injection H as <- _.
      split; [auto|]. intros _ Hn. now contradiction Hn. }
  2:{ simpl. intros H Hv. injection H as <- _. discriminate Hv. }
  unfold User_objects_get_id_iexact.
  destruct (User_column name) as [col|].
  2:{ simpl. intros H Hv. injection H as <- _. discriminate Hv. }
  destruct (User_objects_get _ w) as [[user|e0] w1] eqn:Hu.
  - destruct (obtain_token cfg TOKEN_TYPE_VERIFY user name alias (a_token attrs1) w1)
      as [[token|e0] w2] eqn:Htok.
    + unfold bind at 1.
      destruct (related_user token w2) as [[tu|e0] w3] eqn:Hrel.
      * rewrite (related_user_eq _ _ _ _ _ _ _ _ _ _ _ Htok Hrel).
        unfold bind, call, ret, logger_debug, emit.
        destruct (verify_user_alias utils user (fst token) w3) as [[|] w4]; discriminate.
      * unfold related_user in Hrel. destruct (snd token); [discriminate|].
        destruct (User_objects_get_raises _ _ _ _ Hrel) as [_ [[-> _] | ->]];
          simpl; intros H Hv; injection H as <- _; try discriminate Hv.
        split; [auto|]. intros _ _. reflexivity.
    + destruct (obtain_token_raises_cases _ _ _ _ _ _ _ _ _ Htok)
        as [[Hmode [-> | [-> | ->]]] | [Hmode [[-> _] | ->]]];
        simpl; intros H Hv; injection H as <- _; try discriminate Hv;
        (split; [auto|]); try (intros Hm; congruence).
      intros _ _. reflexivity.
  - destruct (User_objects_get_raises _ _ _ _ Hu) as [_ [[-> _] | ->]];
      simpl; intros H Hv; injection H as <- _; try discriminate Hv.
    split; [auto|]. intros _ _. reflexivity.
Qed.

Lemma verify_rejections_witness :
  PASSWORDLESS_TEST_MODE settings0 = false
  /\ fst (CallbackTokenVerificationSerializer_validate settings0 (spec_utils settings0)
            (mkContext None (Some 2)) (payload (Some "bob@example.com") None "999999")
            world0)
     = Raise (ValidationError msg_could_not_verify)
  /\ fst (CallbackTokenVerificationSerializer_validate settings0 (spec_utils settings0)
            (mkContext None None) (payload (Some "bob@example.com") None "222222")
            world0)
     = Raise (ValidationError msg_could_not_verify).
Proof.
  split; [reflexivity|]. split.
  - destruct (CallbackTokenVerificationSerializer_validate settings0 (spec_utils settings0)
                (mkContext None (Some 2)) (payload (Some "bob@example.com") None "999999")
                world0) as [r w1] eqn:E.
    assert (Hr : exists e, r = Raise e /\ is_validation_error e = true).
    { vm_compute in E. injection E as <- _. eexists. split; reflexivity. }
    destruct Hr as (e & -> & Hv).
    destruct (verify_rejections _ _ _ _ _ _ _ E Hv) as [_ H].
    simpl. f_equal. apply H; [reflexivity|discriminate].
  - destruct (CallbackTokenVerificationSerializer_validate settings0 (spec_utils settings0)
                (mkContext None None) (payload (Some "bob@example.com") None "222222")
                world0) as [r w1] eqn:E.
    assert (Hr : exists e, r = Raise e /\ is_validation_error e = true).
    { vm_compute in E. injection E as <- _. eexists. split; reflexivity. }
    destruct Hr as (e & -> & Hv).
    destruct (verify_rejections _ _ _ _ _ _ _ E Hv) as [_ H].
    simpl. f_equal. apply H; [reflexivity|discriminate].
Defined.

Lemma filter_id_none (us : list User) : filter (id_is None) us = [].
Proof. induction us as [|u us IH]; [reflexivity|exact IH]. Qed.

(** X13: how a CHANGE [validate] whose alias resolves is refused.  When
    [context] has no [user_id], or no user has that id, the answer is
    ['We could not verify this alias. Bad user.']; outside test mode, for a
    user whose current alias differs from the new one, it is
    ['We could not verify this alias. No token.'] when the user has no
    active CHANGE token with the submitted key, and
    ['This token is invalid. Try again later.'] when the one such token was
    issued for another alias, after the user of the token has been read
    from the table.  Each refusal is logged and calls no helper. *)
Theorem change_rejections
    (cfg : Settings) (utils : Utils) (context : Context)
    (attrs attrs1 : Attrs) (name alias : string) (w : World) :
  AbstractBaseCallbackTokenSerializer_validate cfg attrs = Return attrs1 ->
  validate_alias cfg attrs1 = Return (Some (name, alias)) ->
  let run := CallbackTokenChangeSerializer_validate cfg utils context attrs w in
  (filter (id_is (ctx_user_id context)) (users w) = [] ->
   run = (Raise (ValidationError msg_bad_user),
          logged (logged w UserQuery) (LogDebug log_bad_user)))
  /\ (forall user current,
        filter (id_is (ctx_user_id context)) (users w) = [user] ->
        getattr user name = Some current ->
        alias_eq alias current = false ->
        PASSWORDLESS_TEST_MODE cfg = false ->
        (filter (token_matches user (a_token attrs1) TOKEN_TYPE_CHANGE) (tokens w) = [] ->
         run = (Raise (ValidationError msg_no_token),
                logged (logged (logged w UserQuery) TokenQuery) (LogDebug log_bad_token)))
        /\ (forall token,
              filter (token_matches user (a_token attrs1) TOKEN_TYPE_CHANGE) (tokens w)
              = [token] ->
              to_alias token <> alias ->
              filter (fun r => pk r =? pk user) (users w) = [user] ->
              run = (Raise (ValidationError msg_token_invalid_later),
                     logged (logged (logged (logged w UserQuery) TokenQuery) UserQuery)
                            (LogDebug log_mismatch)))).
Proof.
  intros Hbase Halias run. subst run.
  split.
  - intros Hnone. unfold CallbackTokenChangeSerializer_validate.
    unfold try_except, bind at 1 2 3 4 5 6, liftR.
    rewrite Hbase, Halias. cbn [unpack].
    rewrite (User_objects_get_none _ _ Hnone). reflexivity.
  - intros user current Hone Hcur Hneq Hmode. split.
    + intros Hnone. unfold CallbackTokenChangeSerializer_validate.
      unfold try_except, bind at 1 2 3 4 5 6, liftR.
      rewrite Hbase, Halias. cbn [unpack].
      rewrite (User_objects_get_one _ _ _ Hone), Hcur. cbn iota beta.
      rewrite Hneq. unfold bind at 1. unfold obtain_token. rewrite Hmode.
      unfold CallbackToken_objects_get, bind, emit, objects_get. simpl.
      rewrite Hnone. reflexivity.
    + intros token Hone' Hother Hpk. unfold CallbackTokenChangeSerializer_validate.
      unfold try_except, bind at 1 2 3 4 5 6, liftR.
      rewrite Hbase, Halias. cbn [unpack].
      rewrite (User_objects_get_one _ _ _ Hone), Hcur. cbn iota beta.
      rewrite Hneq. unfold bind at 1.
      rewrite (obtain_token_one cfg TOKEN_TYPE_CHANGE user name alias (a_token attrs1)
                 (logged w UserQuery) token Hmode Hone').
      pose proof (matched_token_spec _ _ _ _ _ Hone') as (Htu & _).
      assert (Hrel : filter (fun r => pk r =? token_user token)
                       (users (logged (logged w UserQuery) TokenQuery)) = [user])
        by (rewrite Htu; exact Hpk).
      unfold bind at 1. rewrite (related_user_one _ _ _ Hrel).
      cbn [fst]. apply String.eqb_neq in Hother. rewrite Hother, andb_false_r. reflexivity.
Qed.

Lemma change_rejections_witness :
  CallbackTokenChangeSerializer_validate settings0 (spec_utils settings0)
    (mkContext None None) (payload (Some "bob@new.example.com") None "333333") world0
  = (Raise (ValidationError msg_bad_user),
     logged (logged world0 UserQuery) (LogDebug log_bad_user))
  /\ CallbackTokenChangeSerializer_validate settings0 (spec_utils settings0)
       (mkContext None (Some 2)) (payload (Some "bob@other.example.com") None "333333")
       world0
     = (Raise (ValidationError msg_token_invalid_later),
        logged (logged (logged (logged world0 UserQuery) TokenQuery) UserQuery)
               (LogDebug log_mismatch)).
Proof.
  split.
  - apply (change_rejections settings0 (spec_utils settings0) (mkContext None None)
             (payload (Some "bob@new.example.com") None "333333")
             (payload (Some "bob@new.example.com") None "333333")
             "email" "bob@new.example.com" world0 eq_refl eq_refl).
    reflexivity.
  - apply (proj2 (change_rejections settings0 (spec_utils settings0)
                    (mkContext None (Some 2))
                    (payload (Some "bob@other.example.com") None "333333")
                    (payload (Some "bob@other.example.com") None "333333")
                    "email" "bob@other.example.com" world0 eq_refl eq_refl)
             bob (Some "bob@example.com") eq_refl eq_refl eq_refl eq_refl)
      with (token := token_of bob "333333" TOKEN_TYPE_CHANGE "bob@new.example.com"
                       "EMAIL" 100).
    + reflexivity.
    + discriminate.
    + reflexivity.
Defined.

(** ** Helpers and the user table in token submissions *)

(** X14: with neither [PASSWORDLESS_USER_MARK_EMAIL_VERIFIED] nor
    [PASSWORDLESS_USER_MARK_MOBILE_VERIFIED] on, the AUTH [validate] calls
    no helper: its outcome is the same for all helpers, and it leaves the
    user table, the token table and the clock as they were. *)
Theorem auth_without_marking
    (cfg : Settings) (utils utils' : Utils) (attrs : Attrs) (w : World) :
  PASSWORDLESS_USER_MARK_EMAIL_VERIFIED cfg
  || PASSWORDLESS_USER_MARK_MOBILE_VERIFIED cfg = false ->
  let r := CallbackTokenAuthSerializer_validate cfg utils attrs w in
  r = CallbackTokenAuthSerializer_validate cfg utils' attrs w
  /\ users (snd r) = users w
  /\ tokens (snd r) = tokens w
  /\ clock (snd r) = clock w.
Proof.
  intros Hmark r.
  assert (Hany : forall u u', CallbackTokenAuthSerializer_validate cfg u attrs w
                              = CallbackTokenAuthSerializer_validate cfg u' attrs w).
  { intros u u'. unfold CallbackTokenAuthSerializer_validate. now rewrite Hmark. }
  subst r. split; [apply Hany|].
  rewrite (Hany utils idle_utils).
  split; [|split].
  - apply (stable_auth_validate users); try reflexivity; right; reflexivity.
  - apply (stable_auth_validate tokens); try reflexivity; right; reflexivity.
  - apply (stable_auth_validate clock); try reflexivity; right; reflexivity.
Qed.

Lemma auth_without_marking_witness :
  let cfg := mkSettings 6 true "email" "mobile" true false [0] false false 900 in
  CallbackTokenAuthSerializer_validate cfg (spec_utils cfg)
    (payload (Some "alice@example.com") None "123456") world0
  = CallbackTokenAuthSerializer_validate cfg (failing_utils cfg)
      (payload (Some "alice@example.com") None "123456") world0.
Proof.
  apply (auth_without_marking (mkSettings 6 true "email" "mobile" true false [0] false false 900)).
  reflexivity.
Defined.

(** X15: a token submission of any type writes to the user table only
    through the helpers: when [validate_token_age], [verify_user_alias] and
    [change_user_alias] leave the user table alone, so does the submission,
    accepted or not.  In particular it never registers a user. *)
Theorem submission_keeps_users
    (cfg : Settings) (django : Django) (utils : Utils) (ty : TokenType) (context : Context)
    (data : Data) (w : World) :
  (forall v, keeps_users (validate_token_age utils v)) ->
  (forall u t, keeps_users (verify_user_alias utils u t)) ->
  (forall u t l, keeps_users (change_user_alias utils u t l)) ->
  users (snd (submit cfg django utils ty context data w)) = users w.
Proof.
  intros Hage Hverify Hchange.
  apply (stable_submit users); auto.
Qed.

Lemma submission_keeps_users_witness :
  users (snd (submit settings0 django0 (failing_utils settings0) TOKEN_TYPE_CHANGE
                (mkContext None (Some 2))
                (request_data (Some "bob@new.example.com") None "333333") world0))
  = users world0.
Proof.
  apply submission_keeps_users; intros; intro w; reflexivity.
Defined.

(** ** Request serializers *)

(** X16: the verification-request [validate], which the change-request
    serializers use too, never reads the payload: for two payloads the
    verdict is the same exception or the same user.  It accepts exactly for
    a request whose user is active and has the configured alias attribute,
    and returns the payload with that user. *)
Theorem verification_request_ignores_payload
    (S : AliasSerializer) (context : Context) (attrs attrs' : Attrs) :
  verdict (AbstractBaseAliasVerificationSerializer_validate S context attrs)
  = verdict (AbstractBaseAliasVerificationSerializer_validate S context attrs')
  /\ forall a,
       AbstractBaseAliasVerificationSerializer_validate S context attrs = Return a <->
       exists request user,
         PyStr.nonempty alias_type = true
         /\ ctx_request context = Some (Some request)
         /\ request_user request = Some (Some user)
         /\ is_active user = true
         /\ hasattr user alias_field_name = true
         /\ a = set_user attrs user.
Proof.
  unfold AbstractBaseAliasVerificationSerializer_validate. split.
  - destruct (PyStr.nonempty alias_type); [|reflexivity].
    destruct (ctx_request context) as [[request|]|]; try reflexivity.
    destruct (request_user request) as [[user|]|]; try reflexivity.
    destruct (is_active user); [|reflexivity].
    destruct (hasattr user alias_field_name); reflexivity.
  - intros a. split.
    + destruct (PyStr.nonempty alias_type); [|discriminate].
      destruct (ctx_request context) as [[request|]|]; try discriminate.
      destruct (request_user request) as [[user|]|] eqn:Hu; try discriminate.
      destruct (is_active user) eqn:Hact; [|discriminate].
      destruct (hasattr user alias_field_name) eqn:Hattr; [|discriminate].
      simpl. intros H. injection H as <-. exists request, user. repeat split; auto.
    + intros (request & user & -> & -> & -> & -> & -> & ->). reflexivity.
Qed.

(** X17: when the AUTH-request serializer for mobile numbers returns, the
    validated [mobile] matches the pattern and is the standardised form of
    the submitted number when standardisation is on, and the returned user
    is active, is a row of the user table and holds that number in the
    configured column. *)
Theorem mobile_auth_request_accepted
    (cfg : Settings) (attrs a : Attrs) (w w' : World) :
  MobileAuthSerializer_validate cfg attrs w = (Return a, w') ->
  exists raw m user col,
    a_mobile attrs = Some raw
    /\ standardise_and_check cfg raw = Return m
    /\ phone_regex_match m = true
    /\ a = set_user (set_mobile attrs m) user
    /\ is_active user = true
    /\ In user (users w')
    /\ User_column (PASSWORDLESS_USER_MOBILE_FIELD_NAME cfg) = Some col
    /\ iexact_col col m user = true.
Proof.
  unfold MobileAuthSerializer_validate.
  destruct (a_mobile attrs) as [raw|]; [|discriminate].
  unfold bind at 1, liftR.
  destruct (standardise_and_check cfg raw) as [m|e] eqn:Hstd; [|discriminate].
  pose proof (standardise_and_check_match _ _ _ Hstd) as Hmatch.
  destruct (phone_regex_match_nonempty _ Hmatch) as (c & r & Hm).
  assert (Halias : as_true (attrs_get (set_mobile attrs m)
                              (@alias_type (MobileAuthSerializer cfg))) = Some m)
    by (subst m; reflexivity).
  destruct (User_column (@alias_field_name (MobileAuthSerializer cfg))) as [col|] eqn:Hcol.
  - rewrite (auth_request_run cfg (MobileAuthSerializer cfg) (set_mobile attrs m) m col w
               Halias Hcol).
    destruct (filter (iexact_col col m) (users w)) as [|u [|u2 rest]] eqn:Hf.
    + destruct (PASSWORDLESS_REGISTER_NEW_USERS cfg); [|discriminate].
      cbv zeta. intros H. injection H as <- <-.
      exists raw, m, (registered_user (@alias_field_name (MobileAuthSerializer cfg)) m (users w)),
        col.
      repeat split; auto.
      * cbn [users]. apply in_or_app. right. now left.
      * unfold iexact_col, registered_user. rewrite (column_of_create _ _ _ _ Hcol).
        apply iexact_refl.
    + destruct (is_active u) eqn:Hact; [|discriminate].
      intros H. injection H as <- <-.
      destruct (filter_singleton _ _ _ Hf) as [Hin Hu].
      exists raw, m, u, col. repeat split; auto.
    + discriminate.
  - unfold AbstractBaseAliasAuthenticationSerializer_validate. rewrite Halias.
    unfold User_objects_get_iexact. rewrite Hcol.
    destruct (PASSWORDLESS_REGISTER_NEW_USERS cfg); discriminate.
Qed.

Lemma mobile_auth_request_accepted_witness :
  exists raw m user col,
    a_mobile (payload None (Some "1 (555) 123-4567") EmptyString) = Some raw
    /\ standardise_and_check settings0 raw = Return m
    /\ phone_regex_match m = true
    /\ set_user (payload None (Some "+15551234567") EmptyString) alice
       = set_user (set_mobile (payload None (Some "1 (555) 123-4567") EmptyString) m) user
    /\ is_active user = true
    /\ In user (users (logged world0 UserQuery))
    /\ User_column (PASSWORDLESS_USER_MOBILE_FIELD_NAME settings0) = Some col
    /\ iexact_col col m user = true.
Proof.
  apply (mobile_auth_request_accepted settings0
           (payload None (Some "1 (555) 123-4567") EmptyString)
           (set_user (payload None (Some "+15551234567") EmptyString) alice)
           world0 (logged world0 UserQuery)).
  reflexivity.
Defined.

(** ** From registration to authentication *)

Lemma auth_token_test_accepts
    (cfg : Settings) (utils : Utils) (attrs attrs1 : Attrs) (name alias : string)
    (col : User -> option string) (user : User) (n : Z) (w : World) :
  PASSWORDLESS_TEST_MODE cfg = true ->
  AbstractBaseCallbackTokenSerializer_validate cfg attrs = Return attrs1 ->
  validate_alias cfg attrs1 = Return (Some (name, alias)) ->
  User_column name = Some col ->
  filter (iexact_col col alias) (users w) = [user] ->
  is_active user = true ->
  PyStr.int (a_token attrs1) = Some n ->
  py_in n (PASSWORDLESS_TEST_CODE_INCORRECT cfg) = false ->
  (PASSWORDLESS_USER_MARK_EMAIL_VERIFIED cfg
   || PASSWORDLESS_USER_MARK_MOBILE_VERIFIED cfg = true ->
   filter (fun u => pk u =? pk user) (users w) = [user]
   /\ forall t w', fst (verify_user_alias utils user t w') = true) ->
  fst (CallbackTokenAuthSerializer_validate cfg utils attrs w)
  = Return (set_user attrs1 user).
Proof.
  intros Hmode Hbase Halias Hcol Hone Hact Hint Hin Hmark.
  destruct (validate_alias_name _ _ _ Halias) as (name' & alias' & Hsome & Hname).
  injection Hsome as <- <-.
  assert (Hu : User_objects_get_iexact name alias w = (Return user, logged w UserQuery)).
  { pose proof (User_objects_get_iexact_cases name alias w) as H.
    now rewrite Hcol, Hone in H. }
  destruct (obtain_token_test cfg TOKEN_TYPE_AUTH user name alias (a_token attrs1) n
              (logged w UserQuery) Hmode Hint Hin Hname) as (t & Ht & Hto & Hpk).
  unfold CallbackTokenAuthSerializer_validate.
  unfold try_except, bind at 1 2 3 4 5, liftR.
  rewrite Hbase, Halias. cbn [unpack]. rewrite Hu, Ht.
  unfold bind at 1. unfold related_user. cbn [snd fst]. unfold ret at 1.
  unfold model_eq. rewrite Z.eqb_refl, Hact. cbn [negb].
  destruct (_ || _).
  - destruct (Hmark eq_refl) as (Hf & Hver).
    assert (Hre : User_objects_get (fun u => pk u =? pk user) (logged w UserQuery)
                  = (Return user, logged (logged w UserQuery) UserQuery)).
    { apply User_objects_get_one. exact Hf. }
    unfold bind, call. rewrite Hre.
    specialize (Hver t (logged (logged w UserQuery) UserQuery)).
    destruct (verify_user_alias utils user t _) as [b w3]. simpl in Hver. subst b.
    reflexivity.
  - reflexivity.
Qed.

Lemma filter_pk_fresh (us : list User) (u : User) :
  pk u = next_pk us -> filter (fun r => pk r =? pk u) (us ++ [u]) = [u].
Proof.
  intros Hpk. rewrite filter_app. simpl. rewrite Z.eqb_refl.
  assert (H : filter (fun r => pk r =? pk u) us = []).
  { induction us as [|x us IH]; [reflexivity|].
    simpl. destruct (Z.eqb_spec (pk x) (pk u)) as [E|E].
    - exfalso. pose proof (next_pk_fresh (x :: us) x (or_introl eq_refl)). lia.
    - clear IH.
      assert (Hall : forall r, In r us -> (pk r =? pk u) = false).
      { intros r Hr. apply Z.eqb_neq.
        pose proof (next_pk_fresh (x :: us) r (or_intror Hr)). lia. }
      clear E Hpk. induction us as [|y us IH]; [reflexivity|].
      simpl. rewrite (Hall y (or_introl eq_refl)). apply IH.
      intros r Hr. apply Hall. now right. }
  now rewrite H.
Qed.

Lemma auth_request_email_inv (django : Django) (data : Data) (w w1 : World) (attrs : Attrs) :
  auth_request_to_internal_value django false data w = (Return attrs, w1) ->
  exists alias, attrs = mkAttrs (Some alias) None EmptyString None
                /\ alias <> EmptyString /\ w1 = w.
Proof.
  unfold auth_request_to_internal_value, bind.
  destruct (CharField_pure (Some msg_required) msg_blank
              (fun value => (ProhibitNullCharactersValidator value
                             ++ check (EmailValidator django value) msg_invalid_email)%list)
              (d_email data) w) as [e He].
  unfold EmailField. rewrite He.
  destruct e as [|alias|msgs]; try discriminate.
  unfold ret. intros H. injection H as <- <-. exists alias.
  apply CharField_value in He. destruct He as (raw & _ & _ & Hne & _). auto.
Qed.

(** X18: registration and authentication compose.  In test mode, after an
    e-mail AUTH request has registered a new alias, an AUTH token submission
    whose fields accept the data, for that alias in any letter case and with
    a token whose integer value is not an incorrect code, is accepted and
    returns the user the request created, provided alias verification, where
    a MARK setting turns it on, does not fail. *)
Theorem register_then_authenticate
    (cfg : Settings) (django : Django) (utils : Utils) (context : Context)
    (data1 data2 : Data) (attrs1 attrs2 : Attrs) (alias alias' : string) (n : Z)
    (col : User -> option string) (w : World) :
  PASSWORDLESS_REGISTER_NEW_USERS cfg = true ->
  PASSWORDLESS_TEST_MODE cfg = true ->
  User_column (PASSWORDLESS_USER_EMAIL_FIELD_NAME cfg) = Some col ->
  auth_request_to_internal_value django false data1 w = (Return attrs1, w) ->
  a_email attrs1 = Some alias ->
  filter (iexact_col col alias) (users w) = [] ->
  to_internal_value cfg django utils data2 (snd (auth_request_submit cfg django false data1 w))
  = (Return attrs2, snd (auth_request_submit cfg django false data1 w)) ->
  a_email attrs2 = Some alias' ->
  a_mobile attrs2 = None ->
  PyStr.iexact alias alias' = true ->
  PyStr.int (a_token attrs2) = Some n ->
  py_in n (PASSWORDLESS_TEST_CODE_INCORRECT cfg) = false ->
  (PASSWORDLESS_USER_MARK_EMAIL_VERIFIED cfg
   || PASSWORDLESS_USER_MARK_MOBILE_VERIFIED cfg = true ->
   forall u t w', fst (verify_user_alias utils u t w') = true) ->
  let r1 := auth_request_submit cfg django false data1 w in
  let r2 := submit cfg django utils TOKEN_TYPE_AUTH context data2 (snd r1) in
  exists u,
    validated_user (fst r1) = Some u
    /\ validated_user (fst r2) = Some u
    /\ In u (users (snd r1)).
Proof.
  intros Hreg Hmode Hcol Hf1 He1 Hnone Hf2 He2 Hm2 Hcase Hint Hin Hver r1 r2.
  destruct (auth_request_email_inv _ _ _ _ _ Hf1) as (alias0 & Hattrs1 & Hne & _).
  rewrite Hattrs1 in He1. simpl in He1. injection He1 as ->.
  destruct alias as [|c r]; [contradiction|].
  assert (Hne' : exists c' r', alias' = String c' r').
  { destruct alias' as [|c' r']; [|now exists c', r'].
    unfold PyStr.iexact in Hcase. simpl in Hcase. discriminate. }
  destruct Hne' as (c' & r' & ->).
  set (u := registered_user (PASSWORDLESS_USER_EMAIL_FIELD_NAME cfg) (String c r) (users w)).
  assert (H1 : r1 = (Return (set_user attrs1 u),
                     mkWorld (users w ++ [u]) (tokens w) (clock w)
                             (trace w ++ [UserQuery; UserWrite; UserWrite]))).
  { subst r1. unfold auth_request_submit.
    rewrite (bind_Return _ _ _ _ _ Hf1). unfold try_except, auth_request.
    unfold EmailAuthSerializer_validate.
    rewrite (auth_request_run cfg (EmailAuthSerializer cfg) attrs1 (String c r) col w
               ltac:(now rewrite Hattrs1) Hcol).
    now rewrite Hnone, Hreg. }
  fold r1 in Hf2. subst r2. revert Hf2. rewrite H1. intros Hf2.
  exists u. cbn [fst snd validated_user set_user a_user].
  split; [reflexivity|]. split; [|apply in_or_app; right; now left].
  rewrite submit_unfold.
  rewrite (bind_Return _ _ _ _ _ Hf2).
  assert (Hbase : AbstractBaseCallbackTokenSerializer_validate cfg attrs2 = Return attrs2).
  { unfold AbstractBaseCallbackTokenSerializer_validate. now rewrite Hm2. }
  assert (Halias : validate_alias cfg attrs2
                   = Return (Some (PASSWORDLESS_USER_EMAIL_FIELD_NAME cfg, String c' r'))).
  { unfold validate_alias. now rewrite He2, Hm2. }
  match goal with
  | |- validated_user (fst (try_except ?m _ ?w0)) = _ =>
      assert (Hfst : fst (m w0) = Return (set_user attrs2 u))
  end.
  { apply (auth_token_test_accepts cfg utils attrs2 attrs2
             (PASSWORDLESS_USER_EMAIL_FIELD_NAME cfg) (String c' r') col u n);
      try reflexivity; auto.
    - cbn [users snd]. rewrite filter_app.
      rewrite (filter_ext _ _
                 (fun x => eq_sym (iexact_col_congr col (String c r) (String c' r') x Hcase))).
      rewrite Hnone. simpl.
      assert (Hu : iexact_col col (String c' r') u = true).
      { unfold iexact_col, u, registered_user. rewrite (column_of_create _ _ _ _ Hcol).
        exact Hcase. }
      now rewrite Hu.
    - intros Hm. split; [|intros t w'; apply (Hver Hm)].
      cbn [users snd]. apply filter_pk_fresh. reflexivity. }
  now rewrite (converted_fst _ _ _ Hfst).
Qed.

Lemma register_then_authenticate_witness :
  exists u,
    validated_user
      (fst (auth_request_submit test_settings django0 false
              (mkData (Some " dave@example.com") None None) world0)) = Some u
    /\ validated_user
         (fst (submit test_settings django0 (spec_utils test_settings) TOKEN_TYPE_AUTH
                 (mkContext None None)
                 (request_data (Some "Dave@example.com") None "424242 ")
                 (snd (auth_request_submit test_settings django0 false
                         (mkData (Some " dave@example.com") None None) world0))))
       = Some u.
Proof.
  destruct (register_then_authenticate test_settings django0 (spec_utils test_settings)
              (mkContext None None)
              (mkData (Some " dave@example.com") None None)
              (request_data (Some "Dave@example.com") None "424242 ")
              (payload (Some "dave@example.com") None EmptyString)
              (payload (Some "Dave@example.com") None "424242")
              "dave@example.com" "Dave@example.com" 424242
              email world0 eq_refl eq_refl eq_refl eq_refl eq_refl eq_refl eq_refl eq_refl
              eq_refl eq_refl eq_refl eq_refl (fun _ _ _ _ => eq_refl))
    as (u & H1 & H2 & _).
  exists u. split; [exact H1|exact H2].
Defined.

(** ** Helpers that report a failure *)

(** X19: in the CHANGE [validate], [verify_user_alias] is called only after
    [change_user_alias] has answered true: when the alias change always
    fails, the outcome is the same whatever [verify_user_alias] is. *)
Theorem change_failed_skips_verification
    (cfg : Settings) (utils utils' : Utils) (context : Context) (attrs : Attrs) (w : World) :
  change_user_alias utils' = change_user_alias utils ->
  (forall u t l w0, fst (change_user_alias utils u t l w0) = false) ->
  CallbackTokenChangeSerializer_validate cfg utils' context attrs w
  = CallbackTokenChangeSerializer_validate cfg utils context attrs w.
Proof.
  intros Hc Hfalse.
  unfold CallbackTokenChangeSerializer_validate, try_except, bind, liftR, call, ret, raise,
    finish, logger_debug, emit.
  rewrite Hc.
  repeat match goal with
         | |- ?x = ?x => reflexivity
         | |- context [match ?x with _ => _ end] =>
             lazymatch x with
             | context [match _ with _ => _ end] => fail
             | context [verify_user_alias] => fail
             | context [change_user_alias] => fail
             | _ => destruct x eqn:?
             end
         | |- context [change_user_alias utils ?u ?t ?l ?w0] =>
             let H := fresh "Hf" in
             pose proof (Hfalse u t l w0) as H;
             destruct (change_user_alias utils u t l w0) as [[|] ?]; simpl in H;
             [discriminate H|]
         end.
Qed.

Lemma change_failed_skips_verification_witness :
  CallbackTokenChangeSerializer_validate settings0
    (mkUtils (spec_validate_token_age settings0) spec_verify_user_alias
             (fun _ _ _ w => (false, w)))
    (mkContext None (Some 2)) (payload (Some "bob@new.example.com") None "333333") world0
  = CallbackTokenChangeSerializer_validate settings0 (failing_utils settings0)
      (mkContext None (Some 2)) (payload (Some "bob@new.example.com") None "333333") world0.
Proof.
  apply change_failed_skips_verification; [reflexivity|]. intros u t l w0. reflexivity.
Defined.

(** ** Whom an accepted submission returns *)

Lemma auth_validate_returns
    (cfg : Settings) (utils : Utils) (attrs a : Attrs) (w w' : World) :
  CallbackTokenAuthSerializer_validate cfg utils attrs w = (Return a, w') ->
  exists attrs1 name alias user token tu w1 w2 w3,
    AbstractBaseCallbackTokenSerializer_validate cfg attrs = Return attrs1
    /\ validate_alias cfg attrs1 = Return (Some (name, alias))
    /\ User_objects_get_iexact name alias w = (Return user, w1)
    /\ obtain_token cfg TOKEN_TYPE_AUTH user name alias (a_token attrs1) w1 = (Return token, w2)
    /\ related_user token w2 = (Return tu, w3)
    /\ is_active user = true
    /\ (a = set_user attrs1 user
        \/ exists user' w4, User_objects_get (fun u => pk u =? pk tu) w3
                            = (Return user', w4) /\ a = set_user attrs1 user').
Proof.
  unfold CallbackTokenAuthSerializer_validate, try_except, bind, liftR, unpack, call, ret, raise.
  intros H. inv_run H; subst; inv_clean; try discriminate.
  all: do 9 eexists; repeat split; eauto.
Qed.

(** X20: an accepted AUTH [validate] returns the one user whose alias
    column equals the submitted alias up to letter case, and that user is
    active; when a MARK setting makes the serializer read the user again by
    primary key, it is the same row. *)
Theorem auth_accepted_user
    (cfg : Settings) (utils : Utils) (attrs a : Attrs) (w w' : World) :
  CallbackTokenAuthSerializer_validate cfg utils attrs w = (Return a, w') ->
  exists attrs1 name alias col user,
    AbstractBaseCallbackTokenSerializer_validate cfg attrs = Return attrs1
    /\ validate_alias cfg attrs1 = Return (Some (name, alias))
    /\ User_column name = Some col
    /\ filter (iexact_col col alias) (users w) = [user]
    /\ is_active user = true
    /\ a = set_user attrs1 user.
Proof.
  intros H. apply auth_validate_returns in H.
  destruct H as (attrs1 & name & alias & user & token & tu & w1 & w2 & w3
                 & Hbase & Halias & Hu & Htok & Hrel & Hact & Ha).
  pose proof (related_user_eq _ _ _ _ _ _ _ _ _ _ _ Htok Hrel) as Htu.
  pose proof (obtain_token_users cfg TOKEN_TYPE_AUTH user name alias (a_token attrs1) w1)
    as Hus.
  rewrite Htok in Hus. simpl in Hus.
  pose proof (related_user_users token w2) as Hus'.
  rewrite Hrel in Hus'. simpl in Hus'.
  apply User_objects_get_iexact_inv in Hu. destruct Hu as (col & Hcol & Hf & ->).
  exists attrs1, name, alias, col, user. repeat split; auto.
  destruct Ha as [Ha | (user' & w4 & Hre & Ha)]; [exact Ha|].
  apply User_objects_get_inv in Hre. destruct Hre as [Hf' _].
  assert (Hin : In user (filter (fun u => pk u =? pk tu) (users w3))).
  { apply filter_In. split.
    - rewrite Hus', Hus. apply (filter_singleton _ _ _ Hf).
    - unfold model_eq in Htu. apply Z.eqb_eq in Htu. now apply Z.eqb_eq. }
  rewrite Hf' in Hin. destruct Hin as [<-|[]]. exact Ha.
Qed.

Lemma auth_accepted_user_witness :
  exists attrs1 name alias col user,
    AbstractBaseCallbackTokenSerializer_validate settings0
      (payload (Some "Alice@Example.com") None "123456") = Return attrs1
    /\ validate_alias settings0 attrs1 = Return (Some (name, alias))
    /\ User_column name = Some col
    /\ filter (iexact_col col alias) (users world0) = [user]
    /\ is_active user = true
    /\ set_user (payload (Some "Alice@Example.com") None "123456") alice
       = set_user attrs1 user.
Proof.
  apply (auth_accepted_user settings0 (spec_utils settings0)
           (payload (Some "Alice@Example.com") None "123456")
           (set_user (payload (Some "Alice@Example.com") None "123456") alice)
           world0 (snd (CallbackTokenAuthSerializer_validate settings0 (spec_utils settings0)
                          (payload (Some "Alice@Example.com") None "123456") world0))).
  reflexivity.
Defined.

Lemma verify_validate_returns
    (cfg : Settings) (utils : Utils) (context : Context) (attrs a : Attrs) (w w' : World) :
  CallbackTokenVerificationSerializer_validate cfg utils context attrs w = (Return a, w') ->
  exists attrs1 name alias user w1,
    AbstractBaseCallbackTokenSerializer_validate cfg attrs = Return attrs1
    /\ validate_alias cfg attrs1 = Return (Some (name, alias))
    /\ User_objects_get_id_iexact (ctx_user_id context) name alias w = (Return user, w1)
    /\ a = set_user attrs1 user.
Proof.
  unfold CallbackTokenVerificationSerializer_validate, try_except, bind, liftR, unpack,
    call, ret, raise, finish, logger_debug, emit.
  intros H. inv_run H; unfold ret in *; subst; inv_clean; try discriminate.
  all: do 5 eexists; repeat split; eauto.
Qed.

Lemma change_validate_returns
    (cfg : Settings) (utils : Utils) (context : Context) (attrs a : Attrs) (w w' : World) :
  CallbackTokenChangeSerializer_validate cfg utils context attrs w = (Return a, w') ->
  exists attrs1 name alias user w1,
    AbstractBaseCallbackTokenSerializer_validate cfg attrs = Return attrs1
    /\ validate_alias cfg attrs1 = Return (Some (name, alias))
    /\ User_objects_get (id_is (ctx_user_id context)) w = (Return user, w1)
    /\ a = set_user attrs1 user.
Proof.
  unfold CallbackTokenChangeSerializer_validate, try_except, bind, liftR, unpack,
    call, ret, raise, finish, logger_debug, emit.
  intros H. inv_run H; unfold ret in *; subst; inv_clean; try discriminate.
  all: do 5 eexists; repeat split; eauto.
Qed.

(** X21: an accepted VERIFY or CHANGE [validate] returns the user whose id
    is the [user_id] of the context, a row of the user table; without a
    [user_id] nothing is accepted.  VERIFY requires in addition that this
    user's alias column equals the submitted alias up to letter case. *)
Theorem context_user_returned
    (cfg : Settings) (utils : Utils) (context : Context) (attrs a : Attrs) (w w' : World) :
  CallbackTokenVerificationSerializer_validate cfg utils context attrs w = (Return a, w')
  \/ CallbackTokenChangeSerializer_validate cfg utils context attrs w = (Return a, w') ->
  exists user,
    a_user a = Some user
    /\ ctx_user_id context = Some (pk user)
    /\ In user (users w).
Proof.
  assert (Hid : forall p user, filter (fun r => id_is (ctx_user_id context) r && p r) (users w)
                               = [user] ->
                               ctx_user_id context = Some (pk user) /\ In user (users w)).
  { intros p user Hf. apply filter_singleton in Hf. destruct Hf as [Hin Hp].
    apply andb_true_iff in Hp. destruct Hp as [Hp _]. unfold id_is in Hp.
    destruct (ctx_user_id context) as [i|]; [|discriminate].
    apply Z.eqb_eq in Hp. subst i. now split. }
  intros [H|H].
  - apply verify_validate_returns in H.
    destruct H as (attrs1 & name & alias & user & w1 & _ & _ & Hu & ->).
    apply User_objects_get_id_iexact_inv in Hu. destruct Hu as (col & _ & Hf & _).
    exists user. split; [reflexivity|]. exact (Hid _ _ Hf).
  - apply change_validate_returns in H.
    destruct H as (attrs1 & name & alias & user & w1 & _ & _ & Hu & ->).
    apply User_objects_get_inv in Hu. destruct Hu as [Hf _].
    exists user. split; [reflexivity|]. apply (Hid (fun _ => true)).
    rewrite <- Hf. apply filter_ext. intros r. now rewrite andb_true_r.
Qed.

Lemma context_user_returned_witness :
  exists user,
    Some bob = Some user
    /\ ctx_user_id (mkContext None (Some 2)) = Some (pk user)
    /\ In user (users world0).
Proof.
  apply (context_user_returned settings0 (spec_utils settings0) (mkContext None (Some 2))
           (payload (Some "bob@example.com") None "222222")
           (set_user (payload (Some "bob@example.com") None "222222") bob) world0
           (snd (CallbackTokenVerificationSerializer_validate settings0 (spec_utils settings0)
                   (mkContext None (Some 2))
                   (payload (Some "bob@example.com") None "222222") world0))).
  left. reflexivity.
Defined.

(** ** The validated data of an accepted submission *)

Lemma base_validate_mobile (cfg : Settings) (attrs attrs1 : Attrs) (m : string) :
  AbstractBaseCallbackTokenSerializer_validate cfg attrs = Return attrs1 ->
  as_true (a_mobile attrs1) = Some m ->
  a_mobile attrs1 = Some m /\ phone_regex_match m = true.
Proof.
  unfold AbstractBaseCallbackTokenSerializer_validate.
  destruct (as_true (a_mobile attrs)) as [raw|] eqn:Em.
  - destruct (standardise_and_check cfg raw) as [m'|e] eqn:E; [|discriminate].
    intros H. injection H as <-. simpl. intros Hm.
    pose proof (standardise_and_check_match _ _ _ E) as Hmatch.
    destruct (phone_regex_match_nonempty _ Hmatch) as (c & r & ->).
    simpl in Hm. injection Hm as <-. now split.
  - intros H. injection H as <-. rewrite Em. discriminate.
Qed.

Lemma resolved_alias_shape (cfg : Settings) (attrs1 : Attrs) (name alias : string) :
  validate_alias cfg attrs1 = Return (Some (name, alias)) ->
  (as_true (a_email attrs1) <> None /\ as_true (a_mobile attrs1) = None)
  \/ (as_true (a_email attrs1) = None /\ as_true (a_mobile attrs1) = Some alias).
Proof.
  unfold validate_alias.
  destruct (as_true (a_email attrs1)) as [e|], (as_true (a_mobile attrs1)) as [m|];
    try discriminate; intros H; injection H as _ <-.
  - left. split; [discriminate|reflexivity].
  - right. split; reflexivity.
Qed.

(** X22: the data an accepted submission of any type returns.  The
    [email] and [token] entries are the submitted ones with the whitespace
    around them trimmed, the e-mail passed the e-mail check, a submitted
    mobile number had at most 17 characters once trimmed, the token has the
    configured length, a user has been added, and exactly one alias is a
    non-empty string: the e-mail, or a mobile number that matches the
    pattern. *)
Theorem accepted_payload
    (cfg : Settings) (django : Django) (utils : Utils) (ty : TokenType) (context : Context)
    (data : Data) (a : Attrs) (w w' : World) :
  submit cfg django utils ty context data w = (Return a, w') ->
  a_email a = option_map PyStr.strip (d_email data)
  /\ (forall e, a_email a = Some e -> EmailValidator django e = true)
  /\ (forall raw, d_mobile data = Some raw -> (length (PyStr.strip raw) <= 17)%nat)
  /\ Some (a_token a) = option_map PyStr.strip (d_token data)
  /\ length (a_token a) = TOKEN_LENGTH cfg
  /\ a_user a <> None
  /\ ((as_true (a_email a) <> None /\ as_true (a_mobile a) = None)
      \/ (as_true (a_email a) = None
          /\ exists m, a_mobile a = Some m /\ phone_regex_match m = true)).
Proof.
  rewrite submit_unfold. intros Hrun.
  apply bind_inv in Hrun. destruct Hrun as (attrs0 & w1 & Hfield & Hval).
  apply to_internal_value_inv in Hfield.
  destruct Hfield as (Hemail & Hmobile & _ & raw & x & Hraw & Htok & _ & _ & Hlen).
  apply converted_inv in Hval.
  assert (H : exists attrs1 name alias user,
             AbstractBaseCallbackTokenSerializer_validate cfg attrs0 = Return attrs1
             /\ validate_alias cfg attrs1 = Return (Some (name, alias))
             /\ a = set_user attrs1 user).
  { destruct ty.
    - apply auth_validate_returns in Hval.
      destruct Hval as (attrs1 & name & alias & user & token & tu & w2 & w3 & w4
                        & Hbase & Halias & _ & _ & _ & _ & Ha).
      destruct Ha as [Ha | (user' & w5 & _ & Ha)]; eauto 10.
    - apply verify_validate_returns in Hval.
      destruct Hval as (attrs1 & name & alias & user & w2 & Hbase & Halias & _ & Ha).
      eauto 10.
    - apply change_validate_returns in Hval.
      destruct Hval as (attrs1 & name & alias & user & w2 & Hbase & Halias & _ & Ha).
      eauto 10. }
  destruct H as (attrs1 & name & alias & user & Hbase & Halias & ->).
  destruct (base_validate_keeps _ _ _ Hbase) as (He & Ht & _).
  cbn [set_user a_email a_token a_user a_mobile].
  rewrite He, Ht.
  assert (Hem : a_email attrs0 = option_map PyStr.strip (d_email data)
                /\ forall e, a_email attrs0 = Some e -> EmailValidator django e = true).
  { unfold field_accepts in Hemail. destruct (d_email data) as [r|].
    - destruct Hemail as (-> & _ & Hok). split; [reflexivity|].
      intros e H. now injection H as <-.
    - rewrite Hemail. split; [reflexivity|discriminate]. }
  destruct Hem as [Hem1 Hem2].
  split; [exact Hem1|]. split; [exact Hem2|].
  split.
  { intros raw' Hraw'. unfold field_accepts in Hmobile. rewrite Hraw' in Hmobile.
    destruct Hmobile as (_ & _ & Hok). now apply Nat.leb_le in Hok. }
  split; [now rewrite Hraw, Htok|]. split; [exact Hlen|].
  split; [discriminate|].
  rewrite <- He.
  destruct (resolved_alias_shape _ _ _ _ Halias) as [[H1 H2] | [H1 H2]].
  - left. now split.
  - right. split; [exact H1|]. exists alias.
    exact (base_validate_mobile _ _ _ _ Hbase H2).
Qed.

Lemma accepted_payload_witness :
  a_email (set_user (payload None (Some "+15551234567") "424242") alice) = None
  /\ Some (a_token (set_user (payload None (Some "+15551234567") "424242") alice))
     = Some "424242".
Proof.
  destruct (accepted_payload test_settings django0 (spec_utils test_settings) TOKEN_TYPE_AUTH
              (mkContext None None) (request_data None (Some "1 (555) 123-4567") " 424242 ")
              (set_user (payload None (Some "+15551234567") "424242") alice) world0
              (snd (submit test_settings django0 (spec_utils test_settings) TOKEN_TYPE_AUTH
                      (mkContext None None)
                      (request_data None (Some "1 (555) 123-4567") " 424242 ") world0))
              eq_refl) as (H1 & _ & _ & H2 & _).
  split; [exact H1|exact H2].
Defined.

(** ** The unused change-request [validate] *)

(** X23: on a request object whose [get] raises, as that of an HTTP
    request does, [AbstractBaseAliasChangeSerializer.validate] never
    accepts: it refuses exactly as the verification-request [validate]
    does, and where that one would accept it stops with the exception of
    [get]. *)
Theorem change_request_validate_without_get
    (S : AliasSerializer) (context : Context) (attrs : Attrs) (e : exn) :
  (forall request name, ctx_request context = Some (Some request) ->
                        request_get request name = Raise e) ->
  AbstractBaseAliasChangeSerializer_validate S context attrs
  = match AbstractBaseAliasVerificationSerializer_validate S context attrs with
    | Return _ => Raise e
    | Raise x => Raise x
    end.
Proof.
  intros Hget.
  unfold AbstractBaseAliasChangeSerializer_validate,
    AbstractBaseAliasVerificationSerializer_validate, hasattr.
  destruct (PyStr.nonempty alias_type); [|reflexivity].
  destruct (ctx_request context) as [[request|]|] eqn:Hreq; try reflexivity.
  destruct (request_user request) as [[user|]|]; try reflexivity.
  destruct (is_active user); [|reflexivity]. simpl.
  destruct (getattr user alias_field_name); [|reflexivity].
  now rewrite (Hget request alias_type eq_refl).
Qed.

Lemma change_request_validate_without_get_witness :
  AbstractBaseAliasChangeSerializer_validate (MobileChangeSerializer settings0)
    (mkContext (Some (Some (mkRequest (Some (Some alice)) (fun _ => Raise AttributeError))))
               None)
    (payload None (Some "+15550000000") EmptyString)
  = Raise AttributeError.
Proof.
  apply (change_request_validate_without_get (MobileChangeSerializer settings0)
           (mkContext (Some (Some (mkRequest (Some (Some alice))
                                         (fun _ => Raise AttributeError))))
                      None)
           (payload None (Some "+15550000000") EmptyString) AttributeError).
  intros request name H. injection H as <-. reflexivity.
Defined.

(** ** Request serializers without a request *)

(** X24: the verification-request and change-request [validate] read
    [self.context["request"]] by subscript.  Without such an entry in the
    context they stop with an uncaught [KeyError]; with an entry that is
    [None] they refuse with ['There was a problem with your request.']. *)
Theorem request_validate_without_request
    (S : AliasSerializer) (context : Context) (attrs : Attrs) :
  PyStr.nonempty alias_type = true ->
  (ctx_request context = None ->
   AbstractBaseAliasVerificationSerializer_validate S context attrs = Raise KeyError
   /\ AbstractBaseAliasChangeSerializer_validate S context attrs = Raise KeyError)
  /\ (ctx_request context = Some None ->
      AbstractBaseAliasVerificationSerializer_validate S context attrs
      = Raise (ValidationError msg_problem)
      /\ AbstractBaseAliasChangeSerializer_validate S context attrs
         = Raise (ValidationError msg_problem)).
Proof.
  intros Hname.
  unfold AbstractBaseAliasVerificationSerializer_validate,
    AbstractBaseAliasChangeSerializer_validate.
  rewrite Hname. split; intros ->; split; reflexivity.
Qed.

Lemma request_validate_without_request_witness :
  EmailChangeSerializer_validate settings0 (mkContext None (Some 1))
    (payload (Some "alice@example.com") None EmptyString)
  = Raise KeyError
  /\ EmailVerificationSerializer_validate settings0 (mkContext (Some None) (Some 1))
       (payload (Some "alice@example.com") None EmptyString)
     = Raise (ValidationError msg_problem).
Proof.
  split.
  - apply (request_validate_without_request (EmailChangeSerializer settings0)
             (mkContext None (Some 1))
             (payload (Some "alice@example.com") None EmptyString) eq_refl).
    reflexivity.
  - apply (request_validate_without_request (EmailVerificationSerializer settings0)
             (mkContext (Some None) (Some 1))
             (payload (Some "alice@example.com") None EmptyString) eq_refl).
    reflexivity.
Defined.
